(** * Weather front end: forecast fallback resolver and raster climate lookup

    A shallow embedding of [getClimate] (script.js) and of
    [getForecast10Days] / [getHourly24] (options.js, the module script.js
    imports them from), with the properties the specification states about
    them.

    Conventions of the embedding.
    - Coordinates and raster metadata are JavaScript numbers: IEEE 754
      binary64, modelled by Rocq's primitive floats, so that the subtraction,
      the division and the comparisons of [getClimate] round as they do in
      the browser.
    - Temperatures are only compared, rounded and copied.  Those operations
      are exact on doubles, so a temperature is the rational value of the
      double the response carried; [Math.min] and [Math.max] of no argument
      are the two infinities.
    - Timestamps, the requested count and occurrence counts are integers.
    - The counters [rec.icons] and [rec.descs] are objects made by [{}]:
      under a key that names a property of [Object.prototype] they hold a
      string or nothing, not a count.
    - The text of a number is its decimal digits, which is what JavaScript
      writes for a safe integer.
    - A response body has the shape the sources document; a field the code
      tests before use ([daily], [hourly], [list], [dt], [main], [weather],
      [icon], [description]) is an option.
    - [await fetch(url)] is the only interaction with the outside: a program
      is a tree whose nodes are fetches, run against a function that answers
      every request. *)

From Stdlib Require Import ZArith List String Ascii Bool Lia.
From Stdlib Require Import QArith Qround.
From Stdlib Require Import DecimalString DecimalPos DecimalZ.
From Stdlib Require Import Sorting.Permutation Sorting.Sorted.
From Stdlib Require OrderedTypeEx.
From Stdlib Require Import Floats.PrimFloat Floats.FloatOps Floats.SpecFloat.
Import ListNotations.

Set Warnings "-inexact-float".
Open Scope string_scope.
Open Scope Z_scope.
Open Scope list_scope.

(* ================================================================== *)
(** * The part of the JavaScript runtime the three functions use *)
(* ================================================================== *)

Module JS.

(** Thrown values: the constructor of the error and its message. *)
Inductive error_kind := Error | TypeError | RangeError | SyntaxError.

Record exn := Exn { exn_kind : error_kind; exn_message : string }.

(** [new Error(msg)] *)
Definition new_Error (msg : string) : exn := Exn Error msg.

(** A computation that returns or throws. *)
Definition result (A : Type) : Type := (exn + A)%type.

(** ** Numbers *)

(** [Math.floor] on a double.  A finite double is [(-1)^s * m * 2^e]; with
    [e >= 0] it is an integer already, otherwise the quotient of [m] by
    [2^(-e)] is taken, one further down for a negative number that is not
    an integer.  The result has fewer bits than [m], so it is exact. *)
Definition Math_floor (x : float) : float :=
  match Prim2SF x with
  | S754_finite s m e =>
      if 0 <=? e then x
      else
        let q := Z.pos m / 2 ^ (- e) in
        let r := Z.pos m mod 2 ^ (- e) in
        let z := if s then (if r =? 0 then - q else - q - 1) else q in
        if z =? 0 then (if s then (-0)%float else 0%float)
        else SF2Prim (binary_normalize prec emax z 0 s)
  | _ => x
  end.

Definition Math_abs (x : float) : float := PrimFloat.abs x.

(** The array index a non-negative integral double denotes when it is used
    as a property key ([-0] and [+0] both denote "0"). *)
Definition to_index (x : float) : nat :=
  match Prim2SF x with
  | S754_finite false m e =>
      Z.to_nat (if 0 <=? e then Z.pos m * 2 ^ e else Z.pos m / 2 ^ (- e))
  | _ => O
  end.

(** The integers that a number holds exactly, each with its neighbours:
    up to [2^53 - 1] in size. *)
Definition safe_integer (z : Z) : Prop := Z.abs z <= 9007199254740991.

(** [ToString] of a number that is a safe integer: its decimal digits.
    (Beyond the safe integers [ToString] writes the shortest digits that
    give the number back, and from [10^21] on an exponent; the statements
    that depend on the text of a number keep to the safe integers.) *)
Definition ToString_int (z : Z) : string :=
  NilZero.string_of_int (Z.to_int z).

(** ** Arrays *)

(** [a.slice(0, n)] for an integer [n]. *)
Definition slice0 {A : Type} (n : Z) (a : list A) : list A :=
  firstn (Z.to_nat n) a.

Arguments slice0 : simpl never.

(** [a.sort(cmp)]: the sort is stable, and [cmp x y > 0] asks for [x]
    after [y].  Insertion from the right keeps equal elements in their
    original order. *)
Fixpoint sort_insert {A : Type} (cmp : A -> A -> Z) (x : A) (l : list A)
  : list A :=
  match l with
  | [] => [x]
  | y :: l' => if 0 <? cmp x y then y :: sort_insert cmp x l' else x :: l
  end.

Definition sort {A : Type} (cmp : A -> A -> Z) (l : list A) : list A :=
  fold_right (sort_insert cmp) [] l.

(** ** Maps and objects keyed by strings *)

(** A [Map], or the own properties of an object, in insertion order. *)
Fixpoint assoc_get {V : Type} (m : list (string * V)) (k : string)
  : option V :=
  match m with
  | [] => None
  | (k', v) :: m' => if String.eqb k k' then Some v else assoc_get m' k
  end.

(** [m.set(k, v)] and [o[k] = v]: an existing key keeps its place, a new
    one goes last. *)
Fixpoint assoc_set {V : Type} (m : list (string * V)) (k : string) (v : V)
  : list (string * V) :=
  match m with
  | [] => [(k, v)]
  | (k', v') :: m' =>
      if String.eqb k k' then (k, v) :: m' else (k', v') :: assoc_set m' k v
  end.

(** What a property of an object used as a counter holds: a count, or a
    string that is not the writing of a number (its text is never looked
    at). *)
Inductive held := Count (n : Z) | Text.

(** The own properties of an object made by [{}] and used as a counter, by
    string key. *)
Definition object : Type := list (string * held).

(** The functions that such an object inherits from [Object.prototype], in
    the state the browser starts it in; the one other name it inherits is
    the accessor [__proto__]. *)
Definition inherited_functions : list string :=
  [ "constructor"; "toString"; "toLocaleString"; "valueOf";
    "hasOwnProperty"; "isPrototypeOf"; "propertyIsEnumerable";
    "__defineGetter__"; "__defineSetter__"; "__lookupGetter__";
    "__lookupSetter__" ].

(** A property key is an array index when it is the canonical decimal
    writing of an integer below [2^32 - 1]. *)
Definition array_index (k : string) : option N :=
  match NilZero.uint_of_string k with
  | Some u =>
      let n := N.of_uint u in
      if String.eqb (NilZero.string_of_uint (N.to_uint n)) k
         && (n <? 4294967295)%N
      then Some n else None
  | None => None
  end.

Definition is_index {V : Type} (p : string * V) : bool :=
  match array_index (fst p) with Some _ => true | None => false end.

Definition index_cmp {V : Type} (a b : string * V) : Z :=
  match array_index (fst a), array_index (fst b) with
  | Some i, Some j => Z.of_N i - Z.of_N j
  | _, _ => 0
  end.

(** [Object.entries(o)]: array-index keys first, in ascending numeric
    order, then the other keys in creation order. *)
Definition Object_entries {V : Type} (o : list (string * V))
  : list (string * V) :=
  sort index_cmp (filter is_index o)
    ++ filter (fun p => negb (is_index p)) o.

(** ** Dates: [new Date(ts).toISOString()] *)

(** Time values are integral milliseconds since the epoch, in UTC; the
    functions below are those of the language definition. *)
Definition msPerDay : Z := 86400000.

Definition Day (t : Z) : Z := t / msPerDay.

Definition TimeWithinDay (t : Z) : Z := t mod msPerDay.

Definition DaysInYear (y : Z) : Z :=
  if negb (y mod 4 =? 0) then 365
  else if negb (y mod 100 =? 0) then 366
  else if negb (y mod 400 =? 0) then 365
  else 366.

Definition DayFromYear (y : Z) : Z :=
  365 * (y - 1970) + (y - 1969) / 4 - (y - 1901) / 100 + (y - 1601) / 400.

(** The largest year that starts on or before day [d].  A year has 365.2425
    days on average, which places the quotient within one year of it. *)
Definition YearFromDay (d : Z) : Z :=
  let y0 := 1970 + d * 400 / 146097 in
  if DayFromYear (y0 + 1) <=? d then y0 + 1
  else if DayFromYear y0 <=? d then y0
  else y0 - 1.

Definition YearFromTime (t : Z) : Z := YearFromDay (Day t).

Definition InLeapYear (t : Z) : Z :=
  if DaysInYear (YearFromTime t) =? 366 then 1 else 0.

Definition DayWithinYear (t : Z) : Z :=
  Day t - DayFromYear (YearFromTime t).

(** Months count from 0. *)
Definition MonthFromTime (t : Z) : Z :=
  let d := DayWithinYear t in
  let leap := InLeapYear t in
  if d <? 31 then 0
  else if d <? 59 + leap then 1
  else if d <? 90 + leap then 2
  else if d <? 120 + leap then 3
  else if d <? 151 + leap then 4
  else if d <? 181 + leap then 5
  else if d <? 212 + leap then 6
  else if d <? 243 + leap then 7
  else if d <? 273 + leap then 8
  else if d <? 304 + leap then 9
  else if d <? 334 + leap then 10
  else 11.

Definition DateFromTime (t : Z) : Z :=
  let d := DayWithinYear t in
  let leap := InLeapYear t in
  match MonthFromTime t with
  | 0 => d + 1
  | 1 => d - 30
  | 2 => d - 58 - leap
  | 3 => d - 89 - leap
  | 4 => d - 119 - leap
  | 5 => d - 150 - leap
  | 6 => d - 180 - leap
  | 7 => d - 211 - leap
  | 8 => d - 242 - leap
  | 9 => d - 272 - leap
  | 10 => d - 303 - leap
  | _ => d - 333 - leap
  end.

Definition HourFromTime (t : Z) : Z := (t / 3600000) mod 24.
Definition MinFromTime (t : Z) : Z := (t / 60000) mod 60.
Definition SecFromTime (t : Z) : Z := (t / 1000) mod 60.
Definition msFromTime (t : Z) : Z := t mod 1000.

Definition digit (n : Z) : ascii := ascii_of_nat (48 + Z.to_nat (n mod 10)).

(** The last [w] decimal digits of [n], most significant first. *)
Fixpoint pad (w : nat) (n : Z) : string :=
  match w with
  | O => ""
  | S w' => String (digit (n / 10 ^ Z.of_nat w')) (pad w' n)
  end.

(** Years 0 to 9999 are written with four digits, the others with a sign
    and six. *)
Definition year_string (y : Z) : string :=
  if (0 <=? y) && (y <=? 9999) then pad 4 y
  else String.append (if 0 <=? y then "+" else "-") (pad 6 (Z.abs y)).

(** [new Date(ts).toISOString()]: a time value beyond 8.64e15 ms is not a
    date, and asking for its ISO string throws. *)
Definition toISOString (ts : Z) : result string :=
  if 8640000000000000 <? Z.abs ts then
    inl (Exn RangeError "Invalid time value")
  else
    inr (year_string (YearFromTime ts)
         ++ "-" ++ pad 2 (MonthFromTime ts + 1)
         ++ "-" ++ pad 2 (DateFromTime ts)
         ++ "T" ++ pad 2 (HourFromTime ts)
         ++ ":" ++ pad 2 (MinFromTime ts)
         ++ ":" ++ pad 2 (SecFromTime ts)
         ++ "." ++ pad 3 (msFromTime ts)
         ++ "Z")%string.

(** [s.slice(0, 10)] *)
Definition slice_0_10 (s : string) : string := substring 0 10 s.

(** ** Extended numbers: [Math.min], [Math.max], [Math.round] *)

Inductive num := NegInfinity | Finite (q : Q) | PosInfinity.

Definition num_ltb (a b : num) : bool :=
  match a, b with
  | NegInfinity, NegInfinity => false
  | NegInfinity, _ => true
  | Finite _, NegInfinity => false
  | Finite p, Finite q => negb (Qle_bool q p)
  | Finite _, PosInfinity => true
  | PosInfinity, _ => false
  end.

Definition num_leb (a b : num) : bool :=
  match a, b with
  | NegInfinity, _ => true
  | Finite _, NegInfinity => false
  | Finite p, Finite q => Qle_bool p q
  | Finite _, PosInfinity => true
  | PosInfinity, PosInfinity => true
  | PosInfinity, _ => false
  end.

(** [Math.min(...a)]: starts from [Infinity] and keeps the smaller. *)
Definition Math_min (a : list Q) : num :=
  fold_left (fun lowest q => if num_ltb (Finite q) lowest then Finite q
                             else lowest) a PosInfinity.

(** [Math.max(...a)]: starts from [-Infinity] and keeps the larger. *)
Definition Math_max (a : list Q) : num :=
  fold_left (fun highest q => if num_ltb highest (Finite q) then Finite q
                              else highest) a NegInfinity.

(** [Math.round]: the nearest integer, a tie going up; the infinities are
    kept. *)
Definition Math_round (x : num) : num :=
  match x with
  | Finite q => Finite (inject_Z (Qfloor (q + (1 # 2))))
  | _ => x
  end.

End JS.

(* ================================================================== *)
(** * script.js: [getClimate] *)
(* ================================================================== *)

Module Climate.
Import JS.
Local Open Scope float_scope.

(** The fields of a parsed georaster that [getClimate] reads.
    [values[band][row][column]] holds the integer class codes. *)
Record georaster := {
  xmin : float;
  ymax : float;
  pixelWidth : float;
  pixelHeight : float;
  height : float;
  width : float;
  values : list (list (list Z))
}.

(** [climateCode] is [null], a cell value, or [undefined] when the row has
    no such cell. *)
Inductive code := Null | Undefined | Code (val : Z).

Record climate := { climateCode : code; climateType : string }.

(** The keys of an object literal are strings. *)
Definition koppenClasses : list (string * string) :=
  [ ("0", "No data");
    ("1", "Tropical (A)");
    ("2", "Arid (B)");
    ("3", "Temperate (C)");
    ("4", "Cold (D)");
    ("5", "Polar (E)") ]%string.

Definition ToString (c : code) : string :=
  match c with
  | Null => "null"
  | Undefined => "undefined"
  | Code z => ToString_int z
  end.

Fixpoint lookup (table : list (string * string)) (k : string)
  : option string :=
  match table with
  | [] => None
  | (k', name) :: t => if String.eqb k k' then Some name else lookup t k
  end.

Definition xPixel (g : georaster) (lon : float) : float :=
  Math_floor ((lon - xmin g) / pixelWidth g).

Definition yPixel (g : georaster) (lat : float) : float :=
  Math_floor ((ymax g - lat) / Math_abs (pixelHeight g)).

(** [yPixel >= 0 && yPixel < height && xPixel >= 0 && xPixel < width] *)
Definition in_grid (g : georaster) (yP xP : float) : bool :=
  (0 <=? yP) && (yP <? height g) && (0 <=? xP) && (xP <? width g).

(** [val in koppenClasses ? koppenClasses[val].name : `Code ${val}`] *)
Definition type_of_code (val : code) : string :=
  match lookup koppenClasses (ToString val) with
  | Some name => name
  | None => ("Code " ++ ToString val)%string
  end.

(** The body of the [try] block, for a georaster that is not [null].
    Reading [values[0][yPixel][xPixel]] throws when the band or the row is
    missing, and gives [undefined] when only the cell is. *)
Definition getClimate_try (lat lon : float) (g : georaster)
  : result climate :=
  let xP := xPixel g lon in
  let yP := yPixel g lat in
  if in_grid g yP xP then
    match nth_error (values g) 0 with
    | None => inl (Exn TypeError "Cannot read properties of undefined")
    | Some band =>
        match nth_error band (to_index yP) with
        | None => inl (Exn TypeError "Cannot read properties of undefined")
        | Some row =>
            let val :=
              match nth_error row (to_index xP) with
              | Some z => Code z
              | None => Undefined
              end in
            inr {| climateCode := val; climateType := type_of_code val |}
        end
    end
  else inr {| climateCode := Null; climateType := "Unknown" |}.

Definition unknown : climate :=
  {| climateCode := Null; climateType := "Unknown" |}.

(** [getClimate(lat, lon, georaster)]; [None] is a georaster that is
    [null].  The [catch] logs the error and falls through to the final
    [return], where both variables still hold their initial values. *)
Definition getClimate (lat lon : float) (georaster : option georaster)
  : result climate :=
  let try_block :=
    match georaster with
    | None => inr unknown
    | Some g => getClimate_try lat lon g
    end in
  match try_block with
  | inr c => inr c
  | inl _ => inr unknown
  end.

End Climate.


(* ================================================================== *)
(** * options.js: [getForecast10Days] and [getHourly24] *)
(* ================================================================== *)

Module Forecast.
Import JS.

(** ** Responses *)

(** An element of a [weather] array; either field may be missing. *)
Record weather_item := {
  icon : option string;
  description : option string
}.

Record temp_range := { min : num; max : num }.

(** A daily entry, as the One Call sources send it and as the third tier
    builds it. *)
Record daily := {
  dt : Z;
  temp : temp_range;
  weather : list weather_item
}.

Record main_t := { main_temp : Q }.

(** A three-hour sample of the 5-day forecast ([item] in the source). *)
Record sample := {
  item_dt : option Z;
  item_main : option main_t;
  item_weather : option (list weather_item)
}.

(** An hourly entry of a One Call response ([h] in the source). *)
Record hourly := {
  h_dt : option Z;
  h_temp : option Q;
  h_weather : option (list weather_item)
}.

(** What [getHourly24] returns. *)
Record hour := {
  hour_dt : option Z;
  hour_temp : option Q;
  hour_icon : string;
  hour_description : string
}.

(** A parsed response body.  A field is [None] when the property is missing
    or is not an array. *)
Record body := {
  body_daily : option (list daily);
  body_hourly : option (list hourly);
  body_list : option (list sample)
}.

Record response := {
  ok : bool;
  json : result body      (* [await r.json()] *)
}.

(** What [await fetch(url)] gives: a rejection or a response. *)
Definition fetch_outcome : Type := result response.

(** A URL, by its parts: the path under api.openweathermap.org and the
    query ([units=metric] and the application key are the same in every
    request). *)
Record request := {
  path : string;
  lat : float;
  lon : float;
  exclude : string
}.

(** ** Programs that fetch *)

Inductive prog (A : Type) : Type :=
| Ret (a : A)
| Throw (e : exn)
| Fetch (u : request) (k : fetch_outcome -> prog A).

Arguments Ret {A} a.
Arguments Throw {A} e.
Arguments Fetch {A} u k.

Fixpoint bind {A B : Type} (p : prog A) (f : A -> prog B) : prog B :=
  match p with
  | Ret a => f a
  | Throw e => Throw e
  | Fetch u k => Fetch u (fun o => bind (k o) f)
  end.

(** [try { p } catch (err) { h err }] *)
Fixpoint try_catch {A : Type} (p : prog A) (h : exn -> prog A) : prog A :=
  match p with
  | Ret a => Ret a
  | Throw e => h e
  | Fetch u k => Fetch u (fun o => try_catch (k o) h)
  end.

Definition lift {A : Type} (r : result A) : prog A :=
  match r with
  | inl e => Throw e
  | inr a => Ret a
  end.

(** [await fetch(u)] *)
Definition fetch (u : request) : prog response := Fetch u lift.

Declare Scope prog_scope.
Delimit Scope prog_scope with prog.

Notation "x <- p ;; q" := (bind p (fun x => q))
  (at level 61, p at next level, right associativity) : prog_scope.

(** A block of the function body either executes [return v] ([Some v]) or
    runs to its end ([None]), after which the next statement runs. *)
Definition or_else {A : Type} (block : prog (option A)) (next : prog A)
  : prog A :=
  bind block (fun r => match r with Some v => Ret v | None => next end).

Notation "block ';;;' next" := (or_else block next)
  (at level 62, right associativity) : prog_scope.

Local Open Scope prog_scope.

(** Running a program against the outside world: the requests made, in
    order, and the outcome. *)
Fixpoint run {A : Type} (world : request -> fetch_outcome) (p : prog A)
  : list request * result A :=
  match p with
  | Ret a => ([], inr a)
  | Throw e => ([], inl e)
  | Fetch u k =>
      let (trace, r) := run world (k (world u)) in (u :: trace, r)
  end.

(** ** The three URLs of [getForecast10Days] *)

Definition url30 (lat lon : float) : request :=
  {| path := "/data/3.0/onecall"; lat := lat; lon := lon;
     exclude := "current,minutely,hourly,alerts" |}.

Definition url25 (lat lon : float) : request :=
  {| path := "/data/2.5/onecall"; lat := lat; lon := lon;
     exclude := "current,minutely,hourly,alerts" |}.

Definition url3h (lat lon : float) : request :=
  {| path := "/data/2.5/forecast"; lat := lat; lon := lon; exclude := "" |}.

(** [Array.isArray(x) ? x : []] *)
Definition array_or_empty {A : Type} (x : option (list A)) : list A :=
  match x with Some a => a | None => [] end.

(** [Math.min(10, Math.max(1, count))] *)
Definition clamp (count : Z) : Z := Z.min 10 (Z.max 1 count).

(** ** Tiers 1 and 2: the One Call sources (lines 10-19 and 22-31) *)

(** The two blocks differ in the URL only. *)
Definition onecall_daily (u : request) (count : Z)
  : prog (option (list daily)) :=
  try_catch
    (r <- fetch u ;;
     if ok r then
       d <- lift (json r) ;;
       let daily_ := array_or_empty (body_daily d) in
       if negb (Nat.eqb (List.length daily_) 0)
       then Ret (Some (slice0 (clamp count) daily_))
       else Ret None
     else Ret None)
    (fun _ => Ret None).

(** ** Tier 3: the 5-day / 3-hour forecast, aggregated by calendar day *)

Record rec := {
  temps : list Q;
  icons : object;
  descs : object;
  rec_dt : Z
}.

(** [x || 0] on a number that may be missing *)
Definition or_zero (x : option Z) : Z :=
  match x with Some n => n | None => 0 end.

(** [item.weather && item.weather[0]?.icon], kept when truthy *)
Definition first_weather (f : weather_item -> option string)
    (w : option (list weather_item)) : option string :=
  match w with
  | Some (w0 :: _) =>
      match f w0 with
      | Some s => if String.eqb s "" then None else Some s
      | None => None
      end
  | _ => None
  end.

(** [o[k] = (o[k] || 0) + 1] on an object made by [{}].  A key that the
    object does not own is looked up in [Object.prototype].  For the name
    of one of its functions the sum is the text of the function followed by
    "1", a string, and the assignment stores it; for [__proto__] the sum is
    a string too, which the setter of [__proto__] ignores; for any other
    name the sum is 1.  A string that is stored grows by "1" at each later
    turn. *)
Definition increment (o : object) (k : string) : object :=
  match assoc_get o k with
  | Some (Count n) => assoc_set o k (Count (n + 1))
  | Some Text => assoc_set o k Text
  | None =>
      if String.eqb k "__proto__" then o
      else if existsb (String.eqb k) inherited_functions
           then assoc_set o k Text
           else assoc_set o k (Count 1)
  end.

(** [new Date(ts).toISOString().slice(0, 10)] *)
Definition dayKey_of (ts : Z) : result string :=
  match toISOString ts with
  | inl e => inl e
  | inr s => inr (slice_0_10 s)
  end.

(** The body of the [for] loop, on the map built so far. *)
Definition add_item (byDay : list (string * rec)) (item : sample)
  : result (list (string * rec)) :=
  let ts := or_zero (item_dt item) * 1000 in
  match dayKey_of ts with
  | inl e => inl e
  | inr dayKey =>
      let rec0 :=
        match assoc_get byDay dayKey with
        | Some r => r
        | None => {| temps := []; icons := []; descs := [];
                     rec_dt := ts / 1000 |}
        end in
      let temps1 :=
        match item_main item with
        | Some m => temps rec0 ++ [main_temp m]
        | None => temps rec0
        end in
      let icons1 :=
        match first_weather icon (item_weather item) with
        | Some i => increment (icons rec0) i
        | None => icons rec0
        end in
      let descs1 :=
        match first_weather description (item_weather item) with
        | Some d => increment (descs rec0) d
        | None => descs rec0
        end in
      inr (assoc_set byDay dayKey
             {| temps := temps1; icons := icons1; descs := descs1;
                rec_dt := rec_dt rec0 |})
  end.

Fixpoint group_by_day (byDay : list (string * rec)) (list_ : list sample)
  : result (list (string * rec)) :=
  match list_ with
  | [] => inr byDay
  | item :: rest =>
      match add_item byDay item with
      | inl e => inl e
      | inr byDay' => group_by_day byDay' rest
      end
  end.

(** [(a, b) => (a[0] < b[0] ? -1 : 1)] *)
Definition by_key (a b : string * rec) : Z :=
  if String.ltb (fst a) (fst b) then -1 else 1.

(** [(a, b) => b[1] - a[1]]: the difference is [NaN] when one of the two
    is a string, and [sort] takes [NaN] for [+0]. *)
Definition by_count_desc (a b : string * held) : Z :=
  match snd b, snd a with
  | Count y, Count x => y - x
  | _, _ => 0
  end.

(** [Object.entries(o).sort((a, b) => b[1] - a[1])[0]?.[0] || dflt].
    When an entry holds a string the comparator is not consistent, and the
    language leaves the order to the implementation; the model sorts by
    insertion there too. *)
Definition top (o : object) (dflt : string) : string :=
  match sort by_count_desc (Object_entries o) with
  | (k, _) :: _ => if String.eqb k "" then dflt else k
  | [] => dflt
  end.

(** The function passed to [.map]. *)
Definition day_of_rec (e : string * rec) : daily :=
  let r := snd e in
  {| dt := rec_dt r;
     temp := {| min := Math_round (Math_min (temps r));
                max := Math_round (Math_max (temps r)) |};
     weather := [ {| icon := Some (top (icons r) "01d");
                     description := Some (top (descs r) "") |} ] |}.

Definition days_of (byDay : list (string * rec)) (count : Z) : list daily :=
  map day_of_rec (slice0 (clamp count) (sort by_key byDay)).

Definition forecast3h_daily (u : request) (count : Z)
  : prog (option (list daily)) :=
  try_catch
    (r <- fetch u ;;
     if negb (ok r) then Throw (new_Error "forecast 3h not available")
     else
       d <- lift (json r) ;;
       let list_ := array_or_empty (body_list d) in
       byDay <- lift (group_by_day [] list_) ;;
       let days := days_of byDay count in
       if negb (Nat.eqb (List.length days) 0) then Ret (Some days)
       else Ret None)
    (fun err => Throw err).

(** [getForecast10Days(lat, lon, count = 10)], for an integer [count]. *)
Definition getForecast10Days (lat lon : float) (count : Z)
  : prog (list daily) :=
  onecall_daily (url30 lat lon) count ;;;
  onecall_daily (url25 lat lon) count ;;;
  forecast3h_daily (url3h lat lon) count ;;;
  Throw (new_Error "No forecast data available").

(** ** [getHourly24] *)

Definition hourly_url30 (lat lon : float) : request :=
  {| path := "/data/3.0/onecall"; lat := lat; lon := lon;
     exclude := "current,minutely,daily,alerts" |}.

Definition hourly_url25 (lat lon : float) : request :=
  {| path := "/data/2.5/onecall"; lat := lat; lon := lon;
     exclude := "current,minutely,daily,alerts" |}.

(** [w?.[0]?.f || dflt] *)
Definition first_or (f : weather_item -> option string)
    (w : option (list weather_item)) (dflt : string) : string :=
  match first_weather f w with Some s => s | None => dflt end.

(** The function passed to [arr.map] in the first two tiers. *)
Definition hour_of_hourly (h : hourly) : hour :=
  {| hour_dt := h_dt h;
     hour_temp := h_temp h;
     hour_icon := first_or icon (h_weather h) "01d";
     hour_description := first_or description (h_weather h) "" |}.

(** The object pushed in the loop of the third tier;
    [it.main?.temp ?? 0] is a number in every case. *)
Definition hour_of_sample (it : sample) : hour :=
  {| hour_dt := item_dt it;
     hour_temp := Some (match item_main it with
                        | Some m => main_temp m
                        | None => 0%Q
                        end);
     hour_icon := first_or icon (item_weather it) "01d";
     hour_description := first_or description (item_weather it) "" |}.

(** Lines 93-107 and 110-124; they differ in the URL only. *)
Definition onecall_hourly (u : request) : prog (option (list hour)) :=
  try_catch
    (r <- fetch u ;;
     if ok r then
       d <- lift (json r) ;;
       let arr := match body_hourly d with
                  | Some a => slice0 24 a
                  | None => []
                  end in
       if negb (Nat.eqb (List.length arr) 0)
       then Ret (Some (map hour_of_hourly arr))
       else Ret None
     else Ret None)
    (fun _ => Ret None).

(** Lines 127-145: this block returns in every case that does not throw. *)
Definition forecast3h_hourly (u : request) : prog (list hour) :=
  try_catch
    (r <- fetch u ;;
     if negb (ok r) then Throw (new_Error "forecast 3h not available")
     else
       d <- lift (json r) ;;
       let list_ := match body_list d with
                    | Some a => slice0 9 a
                    | None => []
                    end in
       let hours := map hour_of_sample list_ in
       Ret (slice0 24 hours))
    (fun err => Throw err).

Definition getHourly24 (lat lon : float) : prog (list hour) :=
  onecall_hourly (hourly_url30 lat lon) ;;;
  onecall_hourly (hourly_url25 lat lon) ;;;
  forecast3h_hourly (url3h lat lon).

End Forecast.

(* ================================================================== *)
(** * The vocabulary of the specification, and concrete inputs *)
(* ================================================================== *)

Module Spec.
Import JS Climate Forecast.

(** ** Climate lookup *)

(** The names of the fixed classification table, by code. *)
Definition class_names : list string :=
  [ "No data"; "Tropical (A)"; "Arid (B)"; "Temperate (C)"; "Cold (D)";
    "Polar (E)" ].

(** The label of a stored value that is a safe integer: the table's name
    when the code is in the table, "Code {value}" otherwise. *)
Definition label (v : Z) : string :=
  if (0 <=? v) && (v <=? 5) then nth (Z.to_nat v) class_names ""
  else ("Code " ++ ToString_int v)%string.

(** The grid of the concrete scenario: origin (lat 90, lon -180), cells of
    0.1 by 0.1 degree, 3600 columns and 1800 rows. *)
Definition scenario_grid (vals : list (list (list Z))) : georaster :=
  {| xmin := (-180)%float; ymax := 90%float;
     pixelWidth := 0.1%float; pixelHeight := 0.1%float;
     height := 1800%float; width := 3600%float;
     values := vals |}.

(** ** Forecast tiers *)

(** A tier fails: the fetch is rejected, the status is not a success, or
    the body does not parse. *)
Definition failed (o : fetch_outcome) : Prop :=
  match o with
  | inl _ => True
  | inr r => ok r = false \/ exists e, json r = inl e
  end.

(** A tier responds, successfully, with a body [d]. *)
Definition responds (o : fetch_outcome) (d : body) : Prop :=
  exists r, o = inr r /\ ok r = true /\ json r = inr d.

(** A daily tier yields nothing: it fails, or its daily array is empty or
    missing. *)
Definition no_daily (o : fetch_outcome) : Prop :=
  failed o \/ exists d, responds o d /\ array_or_empty (body_daily d) = [].

(** An hourly tier yields nothing. *)
Definition no_hourly (o : fetch_outcome) : Prop :=
  failed o \/ exists d, responds o d /\ array_or_empty (body_hourly d) = [].

(** The sub-daily tier yields nothing: it fails, or its list of samples is
    empty or missing. *)
Definition no_samples (o : fetch_outcome) : Prop :=
  failed o \/ exists d, responds o d /\ array_or_empty (body_list d) = [].

Definition empty_body : body :=
  {| body_daily := None; body_hourly := None; body_list := None |}.

(** A successful response that carries no entry. *)
Definition empty_ok : fetch_outcome :=
  inr {| ok := true; json := inr empty_body |}.

(** What a One Call tier of [getForecast10Days] hands on, as a function of
    the outcome of its fetch: the value returned, or nothing. *)
Definition tier_daily (o : fetch_outcome) (count : Z) : option (list daily) :=
  match o with
  | inr {| ok := true; json := inr d |} =>
      match array_or_empty (body_daily d) with
      | [] => None
      | a => Some (slice0 (clamp count) a)
      end
  | _ => None
  end.

(** The same for the sub-daily tier, which can also throw. *)
Definition tier_3h (o : fetch_outcome) (count : Z)
  : result (option (list daily)) :=
  match o with
  | inl e => inl e
  | inr {| ok := false |} => inl (new_Error "forecast 3h not available")
  | inr {| ok := true; json := inl e |} => inl e
  | inr {| ok := true; json := inr d |} =>
      match group_by_day [] (array_or_empty (body_list d)) with
      | inl e => inl e
      | inr byDay =>
          match days_of byDay count with
          | [] => inr None
          | days => inr (Some days)
          end
      end
  end.

(** The tiers of [getHourly24]. *)
Definition tier_hourly (o : fetch_outcome) : option (list hour) :=
  match o with
  | inr {| ok := true; json := inr d |} =>
      match slice0 24 (array_or_empty (body_hourly d)) with
      | [] => None
      | arr => Some (map hour_of_hourly arr)
      end
  | _ => None
  end.

Definition tier_3h_hourly (o : fetch_outcome) : result (list hour) :=
  match o with
  | inl e => inl e
  | inr {| ok := false |} => inl (new_Error "forecast 3h not available")
  | inr {| ok := true; json := inl e |} => inl e
  | inr {| ok := true; json := inr d |} =>
      inr (slice0 24
             (map hour_of_sample (slice0 9 (array_or_empty (body_list d)))))
  end.

(** ** Samples handed on as hours *)

(** For the field [f], the first weather entry of the sample gives [v];
    or it gives nothing (no entry, no such field, or the empty string) and
    [v] is the default. *)
Definition field_or (f : weather_item -> option string) (it : sample)
    (dflt v : string) : Prop :=
  (exists w0 ws,
      item_weather it = Some (w0 :: ws) /\ f w0 = Some v /\ v <> "")
  \/ (v = dflt
      /\ forall w0 ws, item_weather it = Some (w0 :: ws) ->
                       f w0 = None \/ f w0 = Some "").

(** The hour carries what its sample holds: the same time, the sample's
    temperature (0 for a sample without one), its icon and its
    description (or the defaults "01d" and the empty string). *)
Definition passed_through (it : sample) (h : hour) : Prop :=
  hour_dt h = item_dt it
  /\ (forall m, item_main it = Some m -> hour_temp h = Some (main_temp m))
  /\ (item_main it = None -> hour_temp h = Some 0%Q)
  /\ field_or icon it "01d" (hour_icon h)
  /\ field_or description it "" (hour_description h).

(** ** Orders *)

(** The order of [<] on strings of ASCII characters. *)
Definition str_lt (a b : string) : Prop := String.ltb a b = true.

Definition num_le (a b : num) : Prop := num_leb a b = true.

Definition is_min (l : list Q) (q : Q) : Prop :=
  In q l /\ forall q', In q' l -> (q <= q')%Q.

Definition is_max (l : list Q) (q : Q) : Prop :=
  In q l /\ forall q', In q' l -> (q' <= q)%Q.

(** ** Time values *)

(** A time value that [Date] accepts. *)
Definition valid_time (ts : Z) : Prop := Z.abs ts <= 8640000000000000.

(** A time value from 0000-01-01 to 9999-12-31, the years that the ISO
    format writes with four digits. *)
Definition four_digit_year (ts : Z) : Prop :=
  -62167219200000 <= ts < 253402300800000.

(** ** Day buckets *)

(** The time value of a sample, in milliseconds. *)
Definition time_of (item : sample) : Z := or_zero (item_dt item) * 1000.

(** The key of the bucket a sample goes to: the date part of its
    timestamp, in UTC. *)
Definition key_of (item : sample) : result string := dayKey_of (time_of item).

Definition in_day (k : string) (item : sample) : bool :=
  match key_of item with
  | inr k' => String.eqb k' k
  | inl _ => false
  end.

(** The samples of day [k], in the order of the response. *)
Definition bucket (k : string) (l : list sample) : list sample :=
  filter (in_day k) l.

(** The temperatures of the samples that have one. *)
Definition temps_of (s : list sample) : list Q :=
  flat_map (fun item => match item_main item with
                        | Some m => [main_temp m]
                        | None => []
                        end) s.

(** What the first weather entry of a sample shows for the field [f]:
    nothing when the sample has no weather entry, when the entry lacks the
    field, or when the field is the empty string. *)
Definition first_shown (f : weather_item -> option string) (item : sample)
  : option string :=
  match item_weather item with
  | Some (w0 :: _) =>
      match f w0 with
      | Some EmptyString => None
      | shown => shown
      end
  | _ => None
  end.

(** The sample shows [v] as its icon (with [f := icon]) or as its
    description (with [f := description]). *)
Definition shows (f : weather_item -> option string) (v : string)
    (item : sample) : bool :=
  match first_shown f item with
  | Some x => String.eqb x v
  | None => false
  end.

Definition occurrences (f : weather_item -> option string) (v : string)
    (s : list sample) : Z :=
  Z.of_nat (List.length (filter (shows f v) s)).

(** [v] occurs, and nothing occurs more often. *)
Definition most_frequent (f : weather_item -> option string)
    (s : list sample) (v : string) : Prop :=
  0 < occurrences f v s /\
  forall v', occurrences f v' s <= occurrences f v s.

(** The mode, or the default when no sample shows anything. *)
Definition mode_or (f : weather_item -> option string) (s : list sample)
    (dflt v : string) : Prop :=
  most_frequent f s v
  \/ (v = dflt /\ forall v', occurrences f v' s = 0).

Definition first_dt (s : list sample) : Z :=
  match s with
  | item :: _ => or_zero (item_dt item)
  | [] => 0
  end.

(** [n] is [q] rounded to the nearest integer, a half going up. *)
Definition rounds_to (q : Q) (n : num) : Prop :=
  exists z : Z,
    n = Finite (inject_Z z)
    /\ (inject_Z z - (1 # 2) <= q)%Q /\ (q < inject_Z z + (1 # 2))%Q.

(** The names of the properties of [Object.prototype], which an object
    made by [{}] inherits: such a string is not counted when it comes as
    an icon or as a description. *)
Definition prototype_names : list string :=
  [ "__proto__"; "constructor"; "toString"; "toLocaleString"; "valueOf";
    "hasOwnProperty"; "isPrototypeOf"; "propertyIsEnumerable";
    "__defineGetter__"; "__defineSetter__"; "__lookupGetter__";
    "__lookupSetter__" ].

Definition inherited (k : string) : bool :=
  existsb (String.eqb k) prototype_names.

(** None of the samples shows an inherited name. *)
Definition plain (f : weather_item -> option string) (s : list sample)
  : Prop :=
  forall item i,
    In item s -> first_shown f item = Some i -> inherited i = false.

(** The entry synthesized for the samples [s] of one day: the time of the
    first sample; the least and the greatest temperature, rounded, or the
    two infinities when no sample has a temperature; the most frequent
    icon and description, when none of them is an inherited name. *)
Definition synthesized (s : list sample) (d : daily) : Prop :=
  dt d = first_dt s
  /\ (temps_of s = [] ->
      min (temp d) = PosInfinity /\ max (temp d) = NegInfinity)
  /\ (temps_of s <> [] ->
      exists lo hi,
        is_min (temps_of s) lo /\ is_max (temps_of s) hi
        /\ rounds_to lo (min (temp d))
        /\ rounds_to hi (max (temp d)))
  /\ exists i ds,
       weather d = [ {| icon := Some i; description := Some ds |} ]
       /\ (plain icon s -> mode_or icon s "01d" i)
       /\ (plain description s -> mode_or description s "" ds).

(** The count that an object holds for a key. *)
Definition count_of (o : object) (k : string) : Z :=
  match assoc_get o k with
  | Some (Count n) => n
  | _ => 0
  end.

(** An object counts the occurrences among [s], when none of them is of
    an inherited name. *)
Definition counts (o : object) (f : weather_item -> option string)
    (s : list sample) : Prop :=
  plain f s ->
  NoDup (map fst o)
  /\ (forall k c, In (k, c) o -> exists n, c = Count n /\ 1 <= n)
  /\ forall v, count_of o v = occurrences f v s.

(** A record of the map holds what the samples [s] of its day gave. *)
Definition represents (r : rec) (s : list sample) : Prop :=
  temps r = temps_of s
  /\ counts (icons r) icon s
  /\ counts (descs r) description s.

(** The map holds one record for each day of [l]. *)
Definition grouped (byDay : list (string * rec)) (l : list sample) : Prop :=
  NoDup (map fst byDay)
  /\ (forall k, assoc_get byDay k = None -> bucket k l = [])
  /\ (forall k r, assoc_get byDay k = Some r ->
        bucket k l <> [] /\ represents r (bucket k l)
        /\ rec_dt r = first_dt (bucket k l)).

(** The samples that fall on day number [D] (days since the epoch). *)
Definition on_day (D : Z) (item : sample) : bool := Day (time_of item) =? D.

Definition samples_of_day (D : Z) (l : list sample) : list sample :=
  filter (on_day D) l.

(** Among the samples [s] one has a temperature, one an icon and one a
    description. *)
Definition informed (s : list sample) : Prop :=
  (exists item, In item s /\ item_main item <> None)
  /\ (exists item, In item s /\ first_shown icon item <> None)
  /\ (exists item, In item s /\ first_shown description item <> None).

(** The entry of a day that has a temperature, an icon and a description:
    a range with [min <= max] and the modes. *)
Definition dominant_entry (s : list sample) (d : daily) : Prop :=
  num_le (min (temp d)) (max (temp d))
  /\ exists i ds,
       weather d = [ {| icon := Some i; description := Some ds |} ]
       /\ most_frequent icon s i
       /\ most_frequent description s ds.

End Spec.

Module Examples.
Import JS Climate Forecast Spec.

(** A 2 by 3 grid over [0,3) x [0,2) degrees. *)
Definition small_grid : georaster :=
  {| xmin := 0%float; ymax := 2%float;
     pixelWidth := 1%float; pixelHeight := (-1)%float;
     height := 2%float; width := 3%float;
     values := [ [ [1; 2; 3]; [4; 5; 31] ] ] |}.

(** Values for the scenario grid with only the cell [799][2000] filled. *)
Definition sparse_values : list (list (list Z)) :=
  [ repeat [] 799 ++ [ repeat 0 2000 ++ [3] ] ].

(** Outcomes of a fetch. *)
Definition offline : fetch_outcome := inl (Exn TypeError "Failed to fetch").

Definition unauthorized : fetch_outcome :=
  inr {| ok := false; json := inr empty_body |}.

Definition garbled : fetch_outcome :=
  inr {| ok := true; json := inl (Exn SyntaxError "Unexpected token <") |}.

Definition with_daily (a : list daily) : fetch_outcome :=
  inr {| ok := true;
         json := inr {| body_daily := Some a; body_hourly := None;
                        body_list := None |} |}.

Definition with_hourly (a : list hourly) : fetch_outcome :=
  inr {| ok := true;
         json := inr {| body_daily := None; body_hourly := Some a;
                        body_list := None |} |}.

Definition with_list (a : list sample) : fetch_outcome :=
  inr {| ok := true;
         json := inr {| body_daily := None; body_hourly := None;
                        body_list := Some a |} |}.

(** A world that answers by the path of the request. *)
Definition world_of (o30 o25 o3h : fetch_outcome) (u : request)
  : fetch_outcome :=
  if String.eqb (path u) "/data/3.0/onecall" then o30
  else if String.eqb (path u) "/data/2.5/onecall" then o25
  else o3h.

Definition clear_sky : list weather_item :=
  [ {| icon := Some "01d"; description := Some "clear sky" |} ].

(** The daily entry of day [n] after 2023-11-15. *)
Definition api_day (n : nat) : daily :=
  {| dt := 1700049600 + 86400 * Z.of_nat n;
     temp := {| min := Finite (inject_Z (Z.of_nat n));
                max := Finite (inject_Z (Z.of_nat n) + (17 # 2)) |};
     weather := clear_sky |}.

Definition twelve_days : list daily := map api_day (seq 0 12).

Definition api_hour (n : nat) : hourly :=
  {| h_dt := Some (1700049600 + 3600 * Z.of_nat n);
     h_temp := Some (inject_Z (Z.of_nat n) / 2)%Q;
     h_weather := Some clear_sky |}.

Definition forty_eight_hours : list hourly := map api_hour (seq 0 48).

(** Every source answers 401. *)
Definition world_unauthorized : request -> fetch_outcome :=
  world_of unauthorized unauthorized unauthorized.

(** No One Call access, and a 5-day forecast with an empty list. *)
Definition world_no_samples : request -> fetch_outcome :=
  world_of unauthorized unauthorized (with_list []).

(** A three-hour sample, [n] steps after 2023-11-15T00:00:00Z. *)
Definition three_hour_sample (n : nat) : sample :=
  {| item_dt := Some (1700006400 + 10800 * Z.of_nat n);
     item_main := Some {| main_temp := (inject_Z (Z.of_nat n) / 4)%Q |};
     item_weather := Some clear_sky |}.

Definition forty_samples : list sample := map three_hour_sample (seq 0 40).

(** Sixteen three-hour samples from 2023-11-15T00:00:00Z: eight on day
    19676 and eight on day 19677. *)
Definition sky (n : nat) : list weather_item :=
  match (n mod 3)%nat with
  | O => [ {| icon := Some "01d"; description := Some "clear sky" |} ]
  | 1%nat => [ {| icon := Some "10d"; description := Some "light rain" |} ]
  | _ => [ {| icon := Some "04d"; description := Some "broken clouds" |} ]
  end.

Definition scenario_sample (n : nat) : sample :=
  {| item_dt := Some (1700006400 + 10800 * Z.of_nat n);
     item_main :=
       Some {| main_temp := (inject_Z (Z.of_nat ((n * n) mod 11)) / 2
                             + (37 # 4))%Q |};
     item_weather := Some (sky n) |}.

Definition sixteen_samples : list sample := map scenario_sample (seq 0 16).

Definition scenario_body : body :=
  {| body_daily := None; body_hourly := None;
     body_list := Some sixteen_samples |}.

Definition world_3h_only : request -> fetch_outcome :=
  world_of unauthorized unauthorized
    (inr {| ok := true; json := inr scenario_body |}).

(** A day of three samples, the second without its [main] field. *)
Definition partial_day : list sample :=
  [ scenario_sample 0;
    {| item_dt := Some 1700017200; item_main := None;
       item_weather := Some (sky 1) |};
    scenario_sample 4 ].

(** A day and a half of samples, none with a [main] field on the second
    day. *)
Definition no_main_day : list sample :=
  [ scenario_sample 7;
    {| item_dt := Some 1700092800; item_main := None;
       item_weather := Some (sky 2) |} ].

Definition world_with_list (l : list sample) : request -> fetch_outcome :=
  world_of unauthorized unauthorized (with_list l).

End Examples.

(* ================================================================== *)
(** * Further vocabulary for the forecast functions *)
(* ================================================================== *)

Module SpecMore.
Import JS Forecast Spec.

(** The day numbers on which the samples of a list fall, each once. *)
Definition day_numbers (l : list sample) : list Z :=
  nodup Z.eq_dec (map (fun item => Day (time_of item)) l).

(** The key of a sample, or the empty string when its time is not a
    date. *)
Definition key_or_empty (item : sample) : string :=
  match key_of item with
  | inr k => k
  | inl _ => ""
  end.

(** The error of [toISOString] on a time that is not a date. *)
Definition invalid_time : exn := Exn RangeError "Invalid time value".

End SpecMore.

Module ExamplesMore.
Import JS Forecast Spec Examples.

(** A sample stamped beyond the last date, among good ones. *)
Definition overflowing_samples : list sample :=
  [ scenario_sample 0;
    {| item_dt := Some 8640000000001; item_main := None;
       item_weather := None |};
    scenario_sample 9 ].

(** A sample of 2023-11-15, [n] steps of three hours after midnight. *)
Definition described (n : nat) (main : option main_t) (i ds : string)
  : sample :=
  {| item_dt := Some (1700006400 + 10800 * Z.of_nat n);
     item_main := main;
     item_weather := Some [ {| icon := Some i; description := Some ds |} ] |}.

(** A day whose three samples are all described by the name [__proto__]. *)
Definition proto_day : list sample :=
  [ described 0 (Some {| main_temp := 12 |}) "01d" "__proto__";
    described 1 (Some {| main_temp := 14 |}) "01d" "__proto__";
    described 2 (Some {| main_temp := 13 |}) "01d" "__proto__" ].

(** A day with one full sample and two without [main], which agree on an
    icon and on the description [__proto__]. *)
Definition unheard_day : list sample :=
  [ described 0 (Some {| main_temp := 12 |}) "01d" "clear sky";
    described 1 None "10d" "__proto__";
    described 2 None "10d" "__proto__" ].

(** A day on which the name [constructor] is the most frequent
    description. *)
Definition constructor_day : list sample :=
  [ described 0 (Some {| main_temp := 12 |}) "01d" "clear sky";
    described 1 (Some {| main_temp := 14 |}) "01d" "constructor";
    described 2 (Some {| main_temp := 13 |}) "01d" "constructor" ].

End ExamplesMore.

(* ================================================================== *)
(** * script.js: [uviCategory] and [formatUvi] *)
(* ================================================================== *)

Module Uvi.
Import JS.

(** [uviCategory(uvi)], for an index that is a number other than [NaN];
    each test is [uvi < bound]. *)
Definition uviCategory (uvi : num) : string :=
  if num_ltb uvi (Finite 3) then "Low"
  else if num_ltb uvi (Finite 6) then "Moderate"
  else if num_ltb uvi (Finite 8) then "High"
  else if num_ltb uvi (Finite 11) then "Very High"
  else "Extreme".

(** [ToString] of a rounded number: the decimal writing of the integer
    (which is what [ToString] gives for a safe integer), or the name of
    the infinity. *)
Definition ToString_rounded (n : num) : string :=
  match n with
  | Finite q => ToString_int (Qfloor q)
  | PosInfinity => "Infinity"
  | NegInfinity => "-Infinity"
  end.

(** [formatUvi(uvi)]: [`${n} (${uviCategory(n)})`] with
    [n = Math.round(uvi)]. *)
Definition formatUvi (uvi : num) : string :=
  let n := Math_round uvi in
  (ToString_rounded n ++ " (" ++ uviCategory n ++ ")")%string.

(** The categories, from the mildest. *)
Definition uvi_levels : list string :=
  [ "Low"; "Moderate"; "High"; "Very High"; "Extreme" ].

Fixpoint position (c : string) (names : list string) : nat :=
  match names with
  | [] => O
  | n :: rest => if String.eqb c n then O else S (position c rest)
  end.

(** The rank of a category among [uvi_levels]. *)
Definition level (c : string) : nat := position c uvi_levels.

(** The category that [formatUvi] shows for an index, by the bands of the
    index itself. *)
Definition shown_category (uvi : Q) : string :=
  if negb (Qle_bool (5 # 2) uvi) then "Low"
  else if negb (Qle_bool (11 # 2) uvi) then "Moderate"
  else if negb (Qle_bool (15 # 2) uvi) then "High"
  else if negb (Qle_bool (21 # 2) uvi) then "Very High"
  else "Extreme".

End Uvi.

(* ================================================================== *)
(** * map.js: the colour of a raster cell *)
(* ================================================================== *)

Module RasterColor.
Import JS.

(** [a % b] on integers: the remainder has the sign of [a].  The codes of
    a raster are integers of a size that keeps the products below exact. *)
Definition js_rem (a b : Z) : Z := Z.rem a b.

Definition red (v : Z) : Z := js_rem (v * 53) 255.
Definition green (v : Z) : Z := js_rem (v * 97) 255.
Definition blue (v : Z) : Z := js_rem (v * 193) 255.

(** [pixelValuesToColorFn(values)] of the raster layer: [values] holds the
    cell's value in each band, an integer code or [null]; [None] is a
    [values] that is [null] or [undefined].  The result [None] is [null]. *)
Definition pixelValuesToColorFn (values : option (list (option Z)))
  : option string :=
  match values with
  | None => None
  | Some vs =>
      match vs with
      | Some v :: _ =>
          Some ("rgba(" ++ ToString_int (red v)
                ++ "," ++ ToString_int (green v)
                ++ "," ++ ToString_int (blue v) ++ ",0.6)")%string
      | _ => None
      end
  end.

End RasterColor.

(* ================================================================== *)
(** * script.js: the background class of the information panel *)
(* ================================================================== *)

Module Background.
Import JS.

(** [s.toLowerCase()], for a string of ASCII characters; other bytes are
    left as they are. *)
Definition lower (c : ascii) : ascii :=
  let n := nat_of_ascii c in
  if ((65 <=? n) && (n <=? 90))%nat then ascii_of_nat (n + 32) else c.

Fixpoint toLowerCase (s : string) : string :=
  match s with
  | EmptyString => EmptyString
  | String c r => String (lower c) (toLowerCase r)
  end.

(** [s.includes(sub)] *)
Fixpoint includes (s sub : string) : bool :=
  prefix sub s
  || match s with
     | EmptyString => false
     | String _ r => includes r sub
     end.

(** A [classList] is an ordered set of tokens. *)
Definition mem (token : string) (tokens : list string) : bool :=
  existsb (String.eqb token) tokens.

(** [classList.remove(...tokens)] *)
Definition classList_remove (classList tokens : list string) : list string :=
  filter (fun c => negb (mem c tokens)) classList.

(** [classList.add(token)] *)
Definition classList_add (classList : list string) (token : string)
  : list string :=
  if mem token classList then classList else classList ++ [token].

(** The tokens that [updateBackground] removes. *)
Definition weather_classes : list string :=
  [ "weather-clear"; "weather-cloud"; "weather-rain"; "weather-snow";
    "weather-mist"; "weather-sunny" ].

(** The class that the [if] chain adds for the lower-cased description. *)
Definition class_of (desc : string) : string :=
  if includes desc "rain" then "weather-rain"
  else if includes desc "cloud" then "weather-cloud"
  else if includes desc "clear" then "weather-clear"
  else if includes desc "snow" then "weather-snow"
  else if includes desc "mist" || includes desc "fog" then "weather-mist"
  else "weather-sunny".

(** [updateBackground(descriptions)]: [info] is the class list of the
    element with id [info], [None] when the page has no such element;
    [descriptions] is an array of strings, or [None] for a missing one.
    The result is the class list after the call. *)
Definition updateBackground (info : option (list string))
    (descriptions : option (list string)) : option (list string) :=
  match info with
  | None => None
  | Some classList =>
      let classList := classList_remove classList weather_classes in
      let desc := match descriptions with
                  | Some (d :: _) => toLowerCase d
                  | _ => ""
                  end in
      Some (classList_add classList (class_of desc))
  end.

End Background.

(* ================================================================== *)
(** * script.js: the forecast panels *)
(* ================================================================== *)

Module Panels.
Import JS Forecast.
Local Open Scope prog_scope.

(** The four elements that the panels use.  A field is [None] when
    [getElementById] finds no such element; otherwise it holds the property
    that the code writes, [hidden] for a section and [innerHTML] for a
    list. *)
Record page := {
  futureWeather : option bool;
  futureWeatherList : option string;
  hourlyWeather : option bool;
  hourlyList : option string
}.

(** [if (x) x.hidden = true] *)
Definition hide (section : option bool) : option bool :=
  match section with Some _ => Some true | None => None end.

Definition hideAllPanels (pg : page) : page :=
  {| futureWeather := hide (futureWeather pg);
     futureWeatherList := futureWeatherList pg;
     hourlyWeather := hide (hourlyWeather pg);
     hourlyList := hourlyList pg |}.

(** Assignments to the elements, once they are known to exist. *)
Definition set_futureWeather (pg : page) (hidden : bool) : page :=
  {| futureWeather := Some hidden;
     futureWeatherList := futureWeatherList pg;
     hourlyWeather := hourlyWeather pg;
     hourlyList := hourlyList pg |}.

Definition set_futureWeatherList (pg : page) (innerHTML : string) : page :=
  {| futureWeather := futureWeather pg;
     futureWeatherList := Some innerHTML;
     hourlyWeather := hourlyWeather pg;
     hourlyList := hourlyList pg |}.

Definition set_hourlyWeather (pg : page) (hidden : bool) : page :=
  {| futureWeather := futureWeather pg;
     futureWeatherList := futureWeatherList pg;
     hourlyWeather := Some hidden;
     hourlyList := hourlyList pg |}.

Definition set_hourlyList (pg : page) (innerHTML : string) : page :=
  {| futureWeather := futureWeather pg;
     futureWeatherList := futureWeatherList pg;
     hourlyWeather := hourlyWeather pg;
     hourlyList := Some innerHTML |}.

(** [parts.join("")] *)
Fixpoint join (parts : list string) : string :=
  match parts with
  | [] => EmptyString
  | p :: r => (p ++ join r)%string
  end.

(** [a.findIndex(p)] *)
Fixpoint findIndex_from {A : Type} (i : Z) (p : A -> bool) (a : list A) : Z :=
  match a with
  | [] => -1
  | x :: r => if p x then i else findIndex_from (i + 1) p r
  end.

Definition findIndex {A : Type} (p : A -> bool) (a : list A) : Z :=
  findIndex_from 0 p a.

Definition failed_forecast_text : string :=
  "Không thể tải dữ liệu dự báo 10 ngày (kiểm tra API key/gói truy cập).".

Definition failed_hourly_text : string := "Không thể tải dữ liệu hourly.".

Section Rendering.

(** The offset of local time at a time value, in milliseconds; it is the
    browser's. *)
Variable LocalTZA : Z -> Z.

(** The markup of one card.  The texts of the day and of the time in it
    come from [toLocaleDateString] and [toLocaleTimeString], which are the
    browser's too. *)
Variable future_card : daily -> string.
Variable hour_card : hour -> string.

(** [new Date(v).getHours()]; [None] is [NaN], both as the argument and as
    the result. *)
Definition getHours (v : option Z) : option Z :=
  match v with
  | Some tv =>
      if Z.abs tv <=? 8640000000000000
      then Some (HourFromTime (tv + LocalTZA tv))
      else None
  | None => None
  end.

(** The test of [findIndex] in [renderHourly]:
    [new Date(h.dt * 1000).getHours() % 3 === 0]. *)
Definition on_third_hour (h : hour) : bool :=
  match getHours (option_map (fun d => d * 1000) (hour_dt h)) with
  | Some hr => Z.rem hr 3 =? 0
  | None => false
  end.

(** One turn of the loop [for (let k = 0; k < 8; k++)]: what it pushes. *)
Definition pick_at (hours : list hour) (first k : Z) : list hour :=
  let idx := first + k * 3 in
  if idx <? Z.of_nat (List.length hours)
  then match nth_error hours (Z.to_nat idx) with
       | Some h => [h]
       | None => []
       end
  else [].

Definition loop_picks (hours : list hour) (first : Z) : list hour :=
  flat_map (pick_at hours first) (map Z.of_nat (seq 0 8)).

Definition first_index (hours : list hour) : Z :=
  let startIdx := findIndex on_third_hour hours in
  if 0 <=? startIdx then startIdx else 0.

(** The cards of the hourly panel, for [hours] that start with [h0]. *)
Definition picks_of (h0 : hour) (hours : list hour) : list hour :=
  let picks := loop_picks hours (first_index hours) in
  if Nat.eqb (List.length picks) 0 then picks ++ [h0] else picks.

(** [renderHourly(lat, lon)], from the page before the call to the page
    after it. *)
Definition renderHourly (pg : page) (lat lon : float) : prog page :=
  match hourlyWeather pg, hourlyList pg with
  | Some _, Some _ =>
      let pg := set_hourlyList (set_hourlyWeather pg false) "Loading..." in
      attempt <- try_catch (hours <- getHourly24 lat lon ;; Ret (inr hours))
                           (fun e => Ret (inl e)) ;;
      match attempt with
      | inl _ => Ret (set_hourlyList pg failed_hourly_text)
      | inr [] => Ret (set_hourlyList pg "No hourly data available.")
      | inr ((h0 :: _) as hours) =>
          Ret (set_hourlyList pg (join (map hour_card (picks_of h0 hours))))
      end
  | _, _ => Ret pg
  end.

(** [renderFutureWeather(lat, lon)] *)
Definition renderFutureWeather (pg : page) (lat lon : float) : prog page :=
  match futureWeather pg, futureWeatherList pg with
  | Some _, Some _ =>
      let pg := set_futureWeatherList pg "Loading..." in
      try_catch
        (daily_ <- getForecast10Days lat lon 6 ;;
         let items := map future_card daily_ in
         Ret (set_futureWeather (set_futureWeatherList pg (join items)) false))
        (fun _ =>
           Ret (set_futureWeather
                  (set_futureWeatherList pg failed_forecast_text) false))
  | _, _ => Ret pg
  end.

End Rendering.

End Panels.


(** ** Vocabulary for the panels *)

Module SpecPanels.
Import JS Forecast Background Panels.

(** The elements of [a] at the indices [first], [first + 3], ...: [m] of
    them. *)
Definition every_third {A : Type} (d : A) (a : list A) (first m : nat)
  : list A :=
  map (fun k => nth (first + 3 * k) a d) (seq 0 m).

Definition is_weather_class (c : string) : bool := mem c weather_classes.

Definition shown (section : option bool) : Prop := section = Some false.

End SpecPanels.


Module ExamplesPanels.
Import JS Forecast Panels.

(** Local time seven hours east of Greenwich, all year. *)
Definition utc_plus_7 (t : Z) : Z := 25200000.

(** Cards reduced to one field. *)
Definition icon_card (h : hour) : string := hour_icon h.

Definition hour_stamp (h : hour) : string :=
  match hour_dt h with
  | Some t => (ToString_int t ++ " ")%string
  | None => "- "
  end.

Definition day_card (d : daily) : string := (ToString_int (dt d) ++ " ")%string.

(** A page with both panels, hidden and empty. *)
Definition blank_page : page :=
  {| futureWeather := Some true; futureWeatherList := Some EmptyString;
     hourlyWeather := Some true; hourlyList := Some EmptyString |}.

End ExamplesPanels.


(* ================================================================== *)
(** * Properties of the runtime model *)
(* ================================================================== *)

Module JSProps.
Import JS.

(** ** The built-in functions on known values *)

Example Math_floor_values :
  Math_floor 2000.5%float = 2000%float
  /\ Math_floor (-0.5)%float = (-1)%float
  /\ Math_floor 0.5%float = 0%float
  /\ Math_floor (-3)%float = (-3)%float
  /\ Math_floor infinity = infinity.
Proof. repeat split; vm_compute; reflexivity. Qed.

Example Math_round_values :
  Math_round (Finite (5 # 2)) = Finite (inject_Z 3)
  /\ Math_round (Finite (-5 # 2)) = Finite (inject_Z (-2))
  /\ Math_round (Finite (-26 # 10)) = Finite (inject_Z (-3))
  /\ Math_round (Math_min []) = PosInfinity
  /\ Math_round (Math_max []) = NegInfinity.
Proof. repeat split. Qed.

Example toISOString_values :
  toISOString 0 = inr "1970-01-01T00:00:00.000Z"
  /\ toISOString 1700000000000 = inr "2023-11-14T22:13:20.000Z"
  /\ toISOString 951782400000 = inr "2000-02-29T00:00:00.000Z"
  /\ toISOString 4107542399000 = inr "2100-02-28T23:59:59.000Z"
  /\ toISOString (-1) = inr "1969-12-31T23:59:59.999Z"
  /\ toISOString (-62167219200000) = inr "0000-01-01T00:00:00.000Z"
  /\ toISOString 253402300800000 = inr "+010000-01-01T00:00:00.000Z"
  /\ toISOString 8640000000000000 = inr "+275760-09-13T00:00:00.000Z"
  /\ toISOString (-8640000000000000) = inr "-271821-04-20T00:00:00.000Z"
  /\ toISOString 8640000000000001
     = inl (Exn RangeError "Invalid time value").
Proof. repeat split; vm_compute; reflexivity. Qed.

Example Object_entries_order :
  Object_entries [("b", 1); ("10", 2); ("a", 3); ("2", 4); ("01", 5)]
  = [("2", 4); ("10", 2); ("b", 1); ("a", 3); ("01", 5)]
  /\ array_index "0" = Some 0%N
  /\ array_index "4294967294" = Some 4294967294%N
  /\ array_index "4294967295" = None.
Proof. repeat split; vm_compute; reflexivity. Qed.

Example sort_is_stable :
  sort (fun a b : string * Z => snd b - snd a)
       [("a", 1); ("b", 3); ("c", 1); ("d", 3)]
  = [("b", 3); ("d", 3); ("a", 1); ("c", 1)].
Proof. reflexivity. Qed.

(** ** Maps in insertion order *)

Section Assoc.
Context {V : Type}.
Implicit Types (m : list (string * V)) (k : string) (v : V).

Lemma assoc_get_set_eq m k v : assoc_get (assoc_set m k v) k = Some v.
Proof.
  induction m as [|[k' v'] m IH]; cbn.
  - now rewrite String.eqb_refl.
  - destruct (String.eqb k k') eqn:E; cbn.
    + now rewrite String.eqb_refl.
    + now rewrite E.
Qed.

Lemma assoc_get_set_neq m k k' v :
  k' <> k -> assoc_get (assoc_set m k v) k' = assoc_get m k'.
Proof.
  intros Hne. apply String.eqb_neq in Hne.
  induction m as [|[k0 v0] m IH]; cbn.
  - now rewrite Hne.
  - destruct (String.eqb k k0) eqn:E; cbn.
    + apply String.eqb_eq in E. subst k0. now rewrite Hne.
    + now rewrite IH.
Qed.

Lemma assoc_get_None m k : assoc_get m k = None <-> ~ In k (map fst m).
Proof.
  induction m as [|[k' v'] m IH]; cbn.
  - tauto.
  - destruct (String.eqb_spec k k') as [->|Hne].
    + split; [discriminate|]. intros H. exfalso. apply H. now left.
    + rewrite IH. split.
      * intros H [E|Hin]; [now apply Hne|now apply H].
      * intros H Hin. apply H. now right.
Qed.

Lemma keys_assoc_set m k v :
  map fst (assoc_set m k v)
  = match assoc_get m k with
    | Some _ => map fst m
    | None => map fst m ++ [k]
    end.
Proof.
  induction m as [|[k' v'] m IH]; cbn.
  - reflexivity.
  - destruct (String.eqb_spec k k') as [->|Hne]; cbn.
    + reflexivity.
    + rewrite IH. now destruct (assoc_get m k).
Qed.

Lemma NoDup_assoc_set m k v :
  NoDup (map fst m) -> NoDup (map fst (assoc_set m k v)).
Proof.
  intros Hnd. rewrite keys_assoc_set.
  destruct (assoc_get m k) eqn:E; [exact Hnd|].
  apply assoc_get_None in E.
  apply NoDup_app; [exact Hnd|repeat constructor; cbn; tauto|].
  intros x Hx [<-|[]]. now apply E.
Qed.

Lemma In_assoc_get m k v :
  NoDup (map fst m) -> In (k, v) m -> assoc_get m k = Some v.
Proof.
  induction m as [|[k' v'] m IH]; cbn; [tauto|].
  intros Hnd [E|Hin].
  - injection E as -> ->. now rewrite String.eqb_refl.
  - inversion Hnd as [|? ? Hnotin Hnd']; subst.
    destruct (String.eqb_spec k k') as [->|Hne].
    + exfalso. apply Hnotin. now apply (in_map fst) in Hin.
    + now apply IH.
Qed.

Lemma assoc_get_In m k v : assoc_get m k = Some v -> In (k, v) m.
Proof.
  induction m as [|[k' v'] m IH]; cbn; [discriminate|].
  destruct (String.eqb_spec k k') as [->|Hne].
  - intros [= ->]. now left.
  - intros H. right. now apply IH.
Qed.

Lemma In_assoc_set m k v k' v' :
  NoDup (map fst m) ->
  In (k', v') (assoc_set m k v) ->
  (k' = k /\ v' = v) \/ (k' <> k /\ In (k', v') m).
Proof.
  intros Hnd Hin.
  apply In_assoc_get in Hin; [|now apply NoDup_assoc_set].
  destruct (String.eqb_spec k' k) as [->|Hne].
  - rewrite assoc_get_set_eq in Hin. injection Hin as <-. now left.
  - rewrite assoc_get_set_neq in Hin by exact Hne.
    right. split; [exact Hne|now apply assoc_get_In].
Qed.

End Assoc.

(** ** Sorting *)

Section Sort.
Context {A : Type} (cmp : A -> A -> Z).

Lemma sort_insert_perm x l : Permutation (sort_insert cmp x l) (x :: l).
Proof.
  induction l as [|y l IH]; cbn.
  - reflexivity.
  - destruct (0 <? cmp x y).
    + rewrite IH. apply perm_swap.
    + reflexivity.
Qed.

Lemma sort_perm l : Permutation (sort cmp l) l.
Proof.
  induction l as [|x l IH]; cbn.
  - reflexivity.
  - rewrite sort_insert_perm. now constructor.
Qed.

Lemma sort_In x l : In x (sort cmp l) <-> In x l.
Proof.
  split; apply Permutation_in; [|symmetry]; apply sort_perm.
Qed.

Lemma sort_length l : List.length (sort cmp l) = List.length l.
Proof. apply Permutation_length, sort_perm. Qed.

End Sort.

Lemma str_lt_trans a b c :
  Spec.str_lt a b -> Spec.str_lt b c -> Spec.str_lt a c.
Proof.
  unfold Spec.str_lt, String.ltb. intros H1 H2.
  destruct (String.compare a b) eqn:E1; try discriminate.
  destruct (String.compare b c) eqn:E2; try discriminate.
  apply OrderedTypeEx.String_as_OT.cmp_lt in E1, E2.
  pose proof (OrderedTypeEx.String_as_OT.lt_trans _ _ _ E1 E2) as E3.
  apply OrderedTypeEx.String_as_OT.cmp_lt in E3.
  unfold OrderedTypeEx.String_as_OT.cmp in E3. now rewrite E3.
Qed.

Lemma str_lt_irrefl a : ~ Spec.str_lt a a.
Proof.
  unfold Spec.str_lt, String.ltb.
  pose proof (String.compare_antisym a a) as H.
  destruct (String.compare a a); cbn in H; congruence.
Qed.

Lemma str_lt_total a b : a <> b -> ~ Spec.str_lt a b -> Spec.str_lt b a.
Proof.
  unfold Spec.str_lt, String.ltb. intros Hne Hnlt.
  rewrite (String.compare_antisym b a).
  destruct (String.compare a b) eqn:E; cbn.
  - apply String.compare_eq_iff in E. contradiction.
  - now elim Hnlt.
  - reflexivity.
Qed.


(** ** [Math.min], [Math.max] and [Math.round] *)

Lemma num_ltb_Finite p q : num_ltb (Finite p) (Finite q) = true <-> (p < q)%Q.
Proof.
  cbn. rewrite negb_true_iff. split.
  - intros H. apply Qnot_le_lt. intros Hle.
    apply Qle_bool_iff in Hle. congruence.
  - intros H. destruct (Qle_bool q p) eqn:E; [|reflexivity].
    apply Qle_bool_iff in E. exfalso. now apply (Qlt_not_le p q).
Qed.

Lemma Math_min_from a l :
  exists q,
    fold_left (fun lowest x => if num_ltb (Finite x) lowest then Finite x
                               else lowest) l (Finite a) = Finite q
    /\ (q = a \/ In q l) /\ (q <= a)%Q /\ forall q', In q' l -> (q <= q')%Q.
Proof.
  revert a. induction l as [|x l IH]; intros a; cbn [fold_left].
  - exists a. repeat split; [now left|apply Qle_refl|intros q' []].
  - destruct (num_ltb (Finite x) (Finite a)) eqn:E.
    + apply num_ltb_Finite in E.
      destruct (IH x) as (q & Hq & Hin & Hle & Hall).
      exists q. repeat split; [exact Hq| | |].
      * right. destruct Hin as [->|Hin]; [now left|now right].
      * apply Qle_trans with x; [exact Hle|now apply Qlt_le_weak].
      * intros q' [<-|Hq']; [exact Hle|now apply Hall].
    + assert (Hax : (a <= x)%Q).
      { apply Qnot_lt_le. intros H. apply num_ltb_Finite in H. congruence. }
      destruct (IH a) as (q & Hq & Hin & Hle & Hall).
      exists q. repeat split; [exact Hq| |exact Hle|].
      * destruct Hin as [->|Hin]; [now left|right; now right].
      * intros q' [<-|Hq']; [now apply Qle_trans with a|now apply Hall].
Qed.

Lemma Math_min_nonempty l :
  l <> [] -> exists q, Math_min l = Finite q /\ Spec.is_min l q.
Proof.
  destruct l as [|x l]; [congruence|]. intros _.
  unfold Math_min. cbn [fold_left num_ltb].
  destruct (Math_min_from x l) as (q & Hq & Hin & Hle & Hall).
  exists q. split; [exact Hq|]. split.
  - destruct Hin as [->|Hin]; [now left|now right].
  - intros q' [<-|Hq']; [exact Hle|now apply Hall].
Qed.

Lemma Math_max_from a l :
  exists q,
    fold_left (fun highest x => if num_ltb highest (Finite x) then Finite x
                                else highest) l (Finite a) = Finite q
    /\ (q = a \/ In q l) /\ (a <= q)%Q /\ forall q', In q' l -> (q' <= q)%Q.
Proof.
  revert a. induction l as [|x l IH]; intros a; cbn [fold_left].
  - exists a. repeat split; [now left|apply Qle_refl|intros q' []].
  - destruct (num_ltb (Finite a) (Finite x)) eqn:E.
    + apply num_ltb_Finite in E.
      destruct (IH x) as (q & Hq & Hin & Hle & Hall).
      exists q. repeat split; [exact Hq| | |].
      * right. destruct Hin as [->|Hin]; [now left|now right].
      * apply Qle_trans with x; [now apply Qlt_le_weak|exact Hle].
      * intros q' [<-|Hq']; [exact Hle|now apply Hall].
    + assert (Hax : (x <= a)%Q).
      { apply Qnot_lt_le. intros H. apply num_ltb_Finite in H. congruence. }
      destruct (IH a) as (q & Hq & Hin & Hle & Hall).
      exists q. repeat split; [exact Hq| |exact Hle|].
      * destruct Hin as [->|Hin]; [now left|right; now right].
      * intros q' [<-|Hq']; [now apply Qle_trans with a|now apply Hall].
Qed.

Lemma Math_max_nonempty l :
  l <> [] -> exists q, Math_max l = Finite q /\ Spec.is_max l q.
Proof.
  destruct l as [|x l]; [congruence|]. intros _.
  unfold Math_max. cbn [fold_left num_ltb].
  destruct (Math_max_from x l) as (q & Hq & Hin & Hle & Hall).
  exists q. split; [exact Hq|]. split.
  - destruct Hin as [->|Hin]; [now left|now right].
  - intros q' [<-|Hq']; [exact Hle|now apply Hall].
Qed.

Lemma Math_round_mono p q :
  (p <= q)%Q ->
  Spec.num_le (Math_round (Finite p)) (Math_round (Finite q)).
Proof.
  intros H. unfold Spec.num_le, Math_round, num_leb.
  apply Qle_bool_iff. rewrite <- Zle_Qle.
  apply Qfloor_resp_le.
  apply Qplus_le_l. exact H.
Qed.

(** The rounded value is the integer nearest to the argument. *)
Lemma Math_round_nearest q :
  (q - (1 # 2) < inject_Z (Qfloor (q + (1 # 2))) <= q + (1 # 2))%Q.
Proof.
  split.
  - pose proof (Qlt_floor (q + (1 # 2))) as H.
    rewrite inject_Z_plus in H. cbn in H.
    apply Qplus_lt_l with (z := 1%Q).
    eapply Qle_lt_trans; [|exact H].
    ring_simplify. apply Qle_refl.
  - apply Qfloor_le.
Qed.

Lemma Math_round_rounds_to q : Spec.rounds_to q (Math_round (Finite q)).
Proof.
  exists (Qfloor (q + (1 # 2))). split; [reflexivity|].
  destruct (Math_round_nearest q) as [Hlo Hhi]. split.
  - apply Qplus_le_l with (z := (1 # 2)%Q).
    eapply Qle_trans; [|exact Hhi]. ring_simplify. apply Qle_refl.
  - apply Qplus_lt_l with (z := (- (1 # 2))%Q).
    eapply Qlt_le_trans; [|ring_simplify; apply Qle_refl].
    eapply Qle_lt_trans; [|exact Hlo]. ring_simplify. apply Qle_refl.
Qed.

Lemma rounds_to_Math_round q n :
  Spec.rounds_to q n -> n = Math_round (Finite q).
Proof.
  intros (z & -> & Hlo & Hhi). cbn [Math_round]. do 2 f_equal.
  assert (H1 : (inject_Z z <= q + (1 # 2))%Q).
  { apply Qplus_le_l with (z := (- (1 # 2))%Q).
    eapply Qle_trans; [|ring_simplify; exact Hlo].
    ring_simplify. apply Qle_refl. }
  assert (H2 : (q + (1 # 2) < inject_Z (z + 1))%Q).
  { rewrite inject_Z_plus.
    apply Qplus_lt_l with (z := (- (1 # 2))%Q).
    eapply Qle_lt_trans; [ring_simplify; apply Qle_refl|].
    eapply Qlt_le_trans; [exact Hhi|]. ring_simplify. apply Qle_refl. }
  apply Qfloor_resp_le in H1. rewrite Qfloor_Z in H1.
  pose proof (Qfloor_le (q + (1 # 2))) as H3.
  assert (H4 : (inject_Z (Qfloor (q + (1 # 2))) < inject_Z (z + 1))%Q)
    by (eapply Qle_lt_trans; [exact H3|exact H2]).
  rewrite <- Zlt_Qlt in H4. lia.
Qed.


(** ** Calendar dates *)

Lemma DayFromYear_step y : DayFromYear (y + 1) - DayFromYear y = DaysInYear y.
Proof.
  unfold DayFromYear, DaysInYear.
  destruct (Z.eqb_spec (y mod 4) 0) as [H4|H4]; cbn [negb];
    [destruct (Z.eqb_spec (y mod 100) 0) as [H100|H100]; cbn [negb];
     [destruct (Z.eqb_spec (y mod 400) 0) as [H400|H400]; cbn [negb]|]|];
    Z.div_mod_to_equations; lia.
Qed.

Lemma DayFromYear_mono y y' : y <= y' -> DayFromYear y <= DayFromYear y'.
Proof. unfold DayFromYear. intros H. Z.div_mod_to_equations. lia. Qed.

Lemma DayFromYear_lower y :
  146097 * (y - 1970) - 800 <= 400 * DayFromYear y.
Proof. unfold DayFromYear. Z.div_mod_to_equations. lia. Qed.

Lemma DayFromYear_upper y :
  400 * DayFromYear y <= 146097 * (y - 1970) + 800.
Proof. unfold DayFromYear. Z.div_mod_to_equations. lia. Qed.

(** [YearFromDay] is the year of the language definition: the one whose
    first day is the last to start on or before [d]. *)
Lemma YearFromDay_spec d :
  DayFromYear (YearFromDay d) <= d < DayFromYear (YearFromDay d + 1).
Proof.
  unfold YearFromDay.
  set (y0 := 1970 + d * 400 / 146097).
  assert (H0 : 146097 * (y0 - 1970) <= d * 400
               < 146097 * (y0 - 1970) + 146097).
  { unfold y0. Z.div_mod_to_equations. lia. }
  pose proof (DayFromYear_upper (y0 - 1)).
  pose proof (DayFromYear_lower (y0 + 2)).
  destruct (Z.leb_spec (DayFromYear (y0 + 1)) d).
  - replace (y0 + 1 + 1) with (y0 + 2) by lia. lia.
  - destruct (Z.leb_spec (DayFromYear y0) d).
    + lia.
    + replace (y0 - 1 + 1) with y0 by lia. lia.
Qed.

Lemma YearFromDay_mono d d' : d <= d' -> YearFromDay d <= YearFromDay d'.
Proof.
  intros H.
  destruct (Z.le_gt_cases (YearFromDay d) (YearFromDay d')) as [|Hgt];
    [assumption|exfalso].
  pose proof (YearFromDay_spec d) as [H1 _].
  pose proof (YearFromDay_spec d') as [_ H2].
  pose proof (DayFromYear_mono (YearFromDay d' + 1) (YearFromDay d)).
  lia.
Qed.

Lemma YearFromDay_range d :
  DayFromYear 0 <= d < DayFromYear 10000 -> 0 <= YearFromDay d <= 9999.
Proof.
  intros [Hlo Hhi].
  pose proof (YearFromDay_spec d) as [H1 H2].
  split.
  - destruct (Z.le_gt_cases 0 (YearFromDay d)); [assumption|exfalso].
    pose proof (DayFromYear_mono (YearFromDay d + 1) 0). lia.
  - destruct (Z.le_gt_cases (YearFromDay d) 9999); [assumption|exfalso].
    pose proof (DayFromYear_mono 10000 (YearFromDay d)). lia.
Qed.

Lemma DayWithinYear_range t :
  0 <= DayWithinYear t < 365 + InLeapYear t.
Proof.
  unfold DayWithinYear, InLeapYear, YearFromTime.
  pose proof (YearFromDay_spec (Day t)) as [H1 H2].
  pose proof (DayFromYear_step (YearFromDay (Day t))) as Hs.
  assert (Hd : DaysInYear (YearFromDay (Day t)) = 365
               \/ DaysInYear (YearFromDay (Day t)) = 366).
  { unfold DaysInYear.
    repeat match goal with |- context [if ?b then _ else _] => destruct b end;
      auto. }
  destruct (Z.eqb_spec (DaysInYear (YearFromDay (Day t))) 366); lia.
Qed.

Lemma InLeapYear_range t : InLeapYear t = 0 \/ InLeapYear t = 1.
Proof. unfold InLeapYear. destruct (_ =? _); auto. Qed.

Ltac split_months :=
  repeat match goal with
         | |- context [?a <? ?b] => destruct (Z.ltb_spec a b)
         | H : context [?a <? ?b] |- _ => destruct (Z.ltb_spec a b)
         end.

Lemma Month_Date_range t :
  0 <= MonthFromTime t <= 11 /\ 1 <= DateFromTime t <= 31.
Proof.
  pose proof (DayWithinYear_range t) as Hw.
  pose proof (InLeapYear_range t) as Hl.
  unfold DateFromTime, MonthFromTime.
  set (w := DayWithinYear t) in *. set (leap := InLeapYear t) in *.
  clearbody w leap.
  split_months; cbn; lia.
Qed.

(** Within a year, a later day has a later month, or the same month and a
    later date. *)
Lemma Month_Date_lex t1 t2 :
  YearFromTime t1 = YearFromTime t2 ->
  Day t1 < Day t2 ->
  MonthFromTime t1 < MonthFromTime t2
  \/ (MonthFromTime t1 = MonthFromTime t2 /\ DateFromTime t1 < DateFromTime t2).
Proof.
  intros Hy Hd.
  pose proof (DayWithinYear_range t1) as Hw1.
  pose proof (DayWithinYear_range t2) as Hw2.
  pose proof (InLeapYear_range t1) as Hl.
  assert (Hleap : InLeapYear t2 = InLeapYear t1).
  { unfold InLeapYear. now rewrite Hy. }
  assert (Hw : DayWithinYear t1 < DayWithinYear t2).
  { unfold DayWithinYear. rewrite Hy. lia. }
  unfold DateFromTime, MonthFromTime. rewrite Hleap in *.
  set (w1 := DayWithinYear t1) in *. set (w2 := DayWithinYear t2) in *.
  set (leap := InLeapYear t1) in *.
  clearbody w1 w2 leap. clear Hy Hd Hleap.
  split_months; cbn; lia.
Qed.


(** ** Fixed-width decimal strings *)

Lemma digit_compare a b :
  Ascii.compare (digit a) (digit b) = (a mod 10 ?= b mod 10).
Proof.
  unfold digit.
  pose proof (Z.mod_pos_bound a 10 eq_refl) as Ha.
  pose proof (Z.mod_pos_bound b 10 eq_refl) as Hb.
  set (i := a mod 10) in *. set (j := b mod 10) in *. clearbody i j.
  assert (Hi : i = 0 \/ i = 1 \/ i = 2 \/ i = 3 \/ i = 4 \/ i = 5 \/ i = 6
               \/ i = 7 \/ i = 8 \/ i = 9) by lia.
  assert (Hj : j = 0 \/ j = 1 \/ j = 2 \/ j = 3 \/ j = 4 \/ j = 5 \/ j = 6
               \/ j = 7 \/ j = 8 \/ j = 9) by lia.
  repeat (destruct Hi as [->|Hi]); try subst i;
    repeat (destruct Hj as [->|Hj]); try subst j; reflexivity.
Qed.

Lemma pad_length w n : String.length (pad w n) = w.
Proof. induction w as [|w IH]; cbn; [reflexivity|now rewrite IH]. Qed.

Lemma lex_step (P ra rb qa qb : Z) :
  0 <= ra < P -> 0 <= rb < P ->
  (ra + P * qa ?= rb + P * qb)
  = match qa ?= qb with Eq => ra ?= rb | c => c end.
Proof.
  intros Ha Hb.
  destruct (Z.compare_spec qa qb) as [->|Hlt|Hgt].
  - destruct (Z.compare_spec ra rb) as [->|H|H].
    + apply Z.compare_refl.
    + apply Z.compare_lt_iff. lia.
    + apply Z.compare_gt_iff. lia.
  - apply Z.compare_lt_iff. nia.
  - apply Z.compare_gt_iff. nia.
Qed.

(** Strings that start with [w] digits compare as the numbers written,
    and as what follows when these are equal. *)
Lemma compare_pad w a b s t :
  String.compare (pad w a ++ s) (pad w b ++ t)
  = match a mod 10 ^ Z.of_nat w ?= b mod 10 ^ Z.of_nat w with
    | Eq => String.compare s t
    | c => c
    end.
Proof.
  induction w as [|w IH].
  - cbn [pad String.append Z.of_nat]. now rewrite !Z.mod_1_r.
  - cbn [pad String.append String.compare].
    rewrite digit_compare, IH.
    rewrite Nat2Z.inj_succ, Z.pow_succ_r by lia.
    set (P := 10 ^ Z.of_nat w).
    assert (HP : 0 < P) by (apply Z.pow_pos_nonneg; lia).
    rewrite (Z.mul_comm 10 P).
    rewrite !Z.rem_mul_r by lia.
    pose proof (Z.mod_pos_bound a P HP).
    pose proof (Z.mod_pos_bound b P HP).
    rewrite lex_step by assumption.
    now destruct ((a / P) mod 10 ?= (b / P) mod 10).
Qed.

Lemma compare_pad_small w a b s t :
  0 <= a < 10 ^ Z.of_nat w -> 0 <= b < 10 ^ Z.of_nat w ->
  String.compare (pad w a ++ s) (pad w b ++ t)
  = match a ?= b with Eq => String.compare s t | c => c end.
Proof.
  intros Ha Hb. rewrite compare_pad.
  now rewrite !Z.mod_small by assumption.
Qed.


(** ** Day keys *)

Lemma four_digit_year_valid ts : Spec.four_digit_year ts -> Spec.valid_time ts.
Proof. unfold Spec.four_digit_year, Spec.valid_time. lia. Qed.

Lemma four_digit_year_Year ts :
  Spec.four_digit_year ts -> 0 <= YearFromTime ts <= 9999.
Proof.
  unfold Spec.four_digit_year. intros H.
  apply YearFromDay_range.
  change (DayFromYear 0) with (-719528).
  change (DayFromYear 10000) with 2932897.
  unfold Day, msPerDay. Z.div_mod_to_equations. lia.
Qed.

(** In these years the key is the date, written YYYY-MM-DD. *)
Lemma dayKey_of_date ts :
  Spec.four_digit_year ts ->
  Forecast.dayKey_of ts
  = inr (pad 4 (YearFromTime ts)
         ++ "-" ++ pad 2 (MonthFromTime ts + 1)
         ++ "-" ++ pad 2 (DateFromTime ts) ++ "")%string.
Proof.
  intros H.
  pose proof (four_digit_year_Year ts H) as Hy.
  apply four_digit_year_valid in H.
  unfold Forecast.dayKey_of, toISOString, year_string.
  destruct (Z.ltb_spec 8640000000000000 (Z.abs ts)) as [Hbad|_];
    [unfold Spec.valid_time in H; lia|].
  destruct (Z.leb_spec 0 (YearFromTime ts)); [|lia].
  destruct (Z.leb_spec (YearFromTime ts) 9999); [|lia].
  reflexivity.
Qed.

(** The key depends on the day only. *)
Lemma dayKey_of_same_day ts1 ts2 :
  Spec.valid_time ts1 -> Spec.valid_time ts2 ->
  Day ts1 = Day ts2 ->
  Forecast.dayKey_of ts1 = Forecast.dayKey_of ts2.
Proof.
  unfold Spec.valid_time. intros H1 H2 Hd.
  assert (Hy : YearFromTime ts1 = YearFromTime ts2)
    by (unfold YearFromTime; now rewrite Hd).
  assert (Hw : DayWithinYear ts1 = DayWithinYear ts2)
    by (unfold DayWithinYear; now rewrite Hd, Hy).
  assert (Hl : InLeapYear ts1 = InLeapYear ts2)
    by (unfold InLeapYear; now rewrite Hy).
  assert (Hm : MonthFromTime ts1 = MonthFromTime ts2)
    by (unfold MonthFromTime; now rewrite Hw, Hl).
  assert (Hdate : DateFromTime ts1 = DateFromTime ts2)
    by (unfold DateFromTime; now rewrite Hw, Hl, Hm).
  unfold Forecast.dayKey_of, toISOString, year_string.
  destruct (Z.ltb_spec 8640000000000000 (Z.abs ts1)); [lia|].
  destruct (Z.ltb_spec 8640000000000000 (Z.abs ts2)); [lia|].
  rewrite Hy, Hm, Hdate.
  destruct ((0 <=? YearFromTime ts2) && (YearFromTime ts2 <=? 9999));
    [reflexivity|].
  destruct (0 <=? YearFromTime ts2); reflexivity.
Qed.

Lemma date_string_lt ts1 ts2 :
  Spec.four_digit_year ts1 -> Spec.four_digit_year ts2 ->
  Day ts1 < Day ts2 ->
  Spec.str_lt
    (pad 4 (YearFromTime ts1)
     ++ "-" ++ pad 2 (MonthFromTime ts1 + 1)
     ++ "-" ++ pad 2 (DateFromTime ts1) ++ "")%string
    (pad 4 (YearFromTime ts2)
     ++ "-" ++ pad 2 (MonthFromTime ts2 + 1)
     ++ "-" ++ pad 2 (DateFromTime ts2) ++ "")%string.
Proof.
  intros H1 H2 Hd.
  pose proof (four_digit_year_Year ts1 H1) as Hy1.
  pose proof (four_digit_year_Year ts2 H2) as Hy2.
  pose proof (Month_Date_range ts1) as [Hm1 Hd1].
  pose proof (Month_Date_range ts2) as [Hm2 Hd2].
  assert (Hyle : YearFromTime ts1 <= YearFromTime ts2)
    by (apply YearFromDay_mono; lia).
  unfold Spec.str_lt, String.ltb.
  rewrite compare_pad_small by (cbn; lia).
  destruct (Z.compare_spec (YearFromTime ts1) (YearFromTime ts2))
    as [Hy|Hy|Hy]; [|reflexivity|lia].
  change ("-" ++ ?s)%string with (String "-" s).
  cbn [String.compare].
  change (Ascii.compare "-" "-") with Eq. cbn iota.
  destruct (Month_Date_lex ts1 ts2 Hy Hd) as [Hm|[Hm Hdate]].
  - rewrite compare_pad_small by (cbn; lia).
    destruct (Z.compare_spec (MonthFromTime ts1 + 1) (MonthFromTime ts2 + 1));
      [lia|reflexivity|lia].
  - rewrite compare_pad_small by (cbn; lia).
    rewrite Hm, Z.compare_refl.
    change ("-" ++ ?s)%string with (String "-" s).
    cbn [String.compare].
    change (Ascii.compare "-" "-") with Eq. cbn iota.
    rewrite compare_pad_small by (cbn; lia).
    destruct (Z.compare_spec (DateFromTime ts1) (DateFromTime ts2));
      [lia|reflexivity|lia].
Qed.

(** In the years written with four digits, a later day has a later key. *)
Lemma dayKey_of_lt ts1 ts2 k1 k2 :
  Spec.four_digit_year ts1 -> Spec.four_digit_year ts2 ->
  Day ts1 < Day ts2 ->
  Forecast.dayKey_of ts1 = inr k1 -> Forecast.dayKey_of ts2 = inr k2 ->
  Spec.str_lt k1 k2.
Proof.
  intros H1 H2 Hd E1 E2.
  pose proof (date_string_lt ts1 ts2 H1 H2 Hd) as Hlt.
  rewrite (dayKey_of_date ts1 H1) in E1.
  rewrite (dayKey_of_date ts2 H2) in E2.
  assert (K1 : forall a b : string, @inr exn string a = inr b -> a = b)
    by (intros a b E; congruence).
  apply K1 in E1, E2. now rewrite <- E1, <- E2.
Qed.

(** Beyond the year 9999 the first ten characters of the ISO string hold
    the sign, the year and the month, so that the days of a month share
    their key. *)
Example dayKey_of_year_10000 :
  Forecast.dayKey_of 253402300800000 = inr "+010000-01"
  /\ Forecast.dayKey_of (253402300800000 + 86400000) = inr "+010000-01"
  /\ Forecast.dayKey_of 253402300799000 = inr "9999-12-31".
Proof. repeat split; vm_compute; reflexivity. Qed.

(** So, in these years, two time values have the same key exactly when
    they fall on the same day. *)
Lemma dayKey_of_eq_iff ts1 ts2 :
  Spec.four_digit_year ts1 -> Spec.four_digit_year ts2 ->
  Forecast.dayKey_of ts1 = Forecast.dayKey_of ts2 <-> Day ts1 = Day ts2.
Proof.
  intros H1 H2. split.
  - intros Hk.
    destruct (Z.lt_total (Day ts1) (Day ts2)) as [Hlt|[Heq|Hgt]];
      [exfalso|exact Heq|exfalso].
    + pose proof (dayKey_of_date ts2 H2) as E2.
      pose proof (dayKey_of_lt ts1 ts2 _ _ H1 H2 Hlt (eq_trans Hk E2) E2).
      now apply (str_lt_irrefl _ H).
    + pose proof (dayKey_of_date ts1 H1) as E1.
      pose proof (dayKey_of_lt ts2 ts1 _ _ H2 H1 Hgt
                    (eq_trans (eq_sym Hk) E1) E1).
      now apply (str_lt_irrefl _ H).
  - apply dayKey_of_same_day; now apply four_digit_year_valid.
Qed.

End JSProps.

(* ================================================================== *)
(** * Properties of [getClimate] *)
(* ================================================================== *)

Module ClimateProps.
Import JS Climate Spec Examples.

Lemma to_int_not_nil (z : Z) :
  Z.to_int z <> Decimal.Pos Decimal.Nil /\ Z.to_int z <> Decimal.Neg Decimal.Nil.
Proof.
  destruct z as [|p|p]; simpl; split; try discriminate; intros H;
    injection H as H; revert H; apply DecimalPos.Unsigned.to_uint_nonnil.
Qed.

Lemma ToString_int_inj (a b : Z) : ToString_int a = ToString_int b -> a = b.
Proof.
  unfold ToString_int. intros H.
  apply DecimalZ.to_int_inj.
  destruct (to_int_not_nil a) as [Ha1 Ha2].
  destruct (to_int_not_nil b) as [Hb1 Hb2].
  pose proof (NilZero.isi _ Ha1 Ha2) as Ia.
  pose proof (NilZero.isi _ Hb1 Hb2) as Ib.
  rewrite H in Ia. rewrite Ia in Ib. now injection Ib.
Qed.

Lemma eqb_ToString_int (a b : Z) :
  a <> b -> String.eqb (ToString_int a) (ToString_int b) = false.
Proof.
  intros H. apply String.eqb_neq. intros E. now apply H, ToString_int_inj.
Qed.

(** The lookup in [koppenClasses] finds exactly the codes 0 to 5. *)
Lemma type_of_code_label (v : Z) : type_of_code (Code v) = label v.
Proof.
  unfold label.
  destruct ((0 <=? v) && (v <=? 5)) eqn:R.
  - apply andb_prop in R as [R1 R2].
    apply Z.leb_le in R1, R2.
    assert (C : v = 0 \/ v = 1 \/ v = 2 \/ v = 3 \/ v = 4 \/ v = 5) by lia.
    destruct C as [->|[->|[->|[->|[->| ->]]]]]; reflexivity.
  - assert (N : v < 0 \/ 5 < v).
    { apply andb_false_iff in R as [R|R]; [apply Z.leb_gt in R|apply Z.leb_gt in R]; lia. }
    unfold type_of_code, koppenClasses, lookup. cbn [ToString].
    change "0" with (ToString_int 0). change "1" with (ToString_int 1).
    change "2" with (ToString_int 2). change "3" with (ToString_int 3).
    change "4" with (ToString_int 4). change "5" with (ToString_int 5).
    rewrite !eqb_ToString_int by lia. reflexivity.
Qed.

Lemma getClimate_in_grid (lat lon : float) (g : georaster) band row v :
  in_grid g (yPixel g lat) (xPixel g lon) = true ->
  nth_error (values g) 0 = Some band ->
  nth_error band (to_index (yPixel g lat)) = Some row ->
  nth_error row (to_index (xPixel g lon)) = Some v ->
  getClimate lat lon (Some g)
  = inr {| climateCode := Code v; climateType := label v |}.
Proof.
  intros Hin Hband Hrow Hcell.
  unfold getClimate, getClimate_try.
  rewrite Hin, Hband, Hrow, Hcell.
  now rewrite type_of_code_label.
Qed.

(** C2: the column and the row are the floors of the two quotients; when
    they lie within the grid, the code returned is the value stored at
    [row][column] and the name is the table's, or "Code {value}" for a value
    outside the table.  The stored value is a safe integer, which is
    written with all its digits.  On the grid of the scenario the
    coordinate (10.05, 20.05) gives row 799 and column 2000, and the cell
    read is [799][2000]. *)
Theorem getClimate_reads_cell :
  (forall (lat lon : float) (g : georaster) band row v,
      let xP := Math_floor ((lon - xmin g) / pixelWidth g)%float in
      let yP := Math_floor ((ymax g - lat) / Math_abs (pixelHeight g))%float in
      ((0 <=? yP) && (yP <? height g) && (0 <=? xP) && (xP <? width g))%float
      = true ->
      nth_error (values g) 0 = Some band ->
      nth_error band (to_index yP) = Some row ->
      nth_error row (to_index xP) = Some v ->
      safe_integer v ->
      xPixel g lon = xP /\ yPixel g lat = yP /\
      getClimate lat lon (Some g)
      = inr {| climateCode := Code v; climateType := label v |})
  /\
  (forall vals band row v,
      let g := scenario_grid vals in
      xPixel g 20.05%float = 2000%float /\
      yPixel g 10.05%float = 799%float /\
      to_index 2000%float = 2000%nat /\
      to_index 799%float = 799%nat /\
      (nth_error vals 0 = Some band ->
       nth_error band 799 = Some row ->
       nth_error row 2000 = Some v ->
       safe_integer v ->
       getClimate 10.05%float 20.05%float (Some g)
       = inr {| climateCode := Code v; climateType := label v |})).
Proof.
  split.
  - intros lat lon g band row v xP yP Hin Hband Hrow Hcell _.
    split; [reflexivity|]. split; [reflexivity|].
    now apply getClimate_in_grid with (band := band) (row := row).
  - intros vals band row v g.
    assert (Hx : xPixel g 20.05%float = 2000%float) by (vm_compute; reflexivity).
    assert (Hy : yPixel g 10.05%float = 799%float) by (vm_compute; reflexivity).
    assert (Ix : to_index 2000%float = 2000%nat) by (vm_compute; reflexivity).
    assert (Iy : to_index 799%float = 799%nat) by (vm_compute; reflexivity).
    repeat split; try assumption.
    intros Hband Hrow Hcell _.
    apply getClimate_in_grid with (band := band) (row := row).
    + rewrite Hx, Hy. vm_compute. reflexivity.
    + exact Hband.
    + rewrite Hy, Iy. exact Hrow.
    + rewrite Hx, Ix. exact Hcell.
Qed.

(** The general statement at the point (0.5, 2.5) of the small grid, which
    reads cell [1][2], and the scenario on a grid whose cell [799][2000]
    holds 3. *)
Lemma getClimate_reads_cell_witness :
  getClimate 0.5%float 2.5%float (Some small_grid)
  = inr {| climateCode := Code 31; climateType := "Code 31" |}
  /\ getClimate 10.05%float 20.05%float (Some (scenario_grid sparse_values))
     = inr {| climateCode := Code 3; climateType := "Temperate (C)" |}.
Proof.
  split.
  - apply (proj1 getClimate_reads_cell 0.5%float 2.5%float small_grid
             [[1; 2; 3]; [4; 5; 31]] [4; 5; 31] 31);
      lazymatch goal with
      | |- safe_integer _ => unfold safe_integer; lia
      | _ => vm_compute; reflexivity
      end.
  - apply (proj2 getClimate_reads_cell sparse_values
             (repeat [] 799 ++ [repeat 0 2000 ++ [3]])
             (repeat 0 2000 ++ [3]) 3);
      lazymatch goal with
      | |- safe_integer _ => unfold safe_integer; lia
      | _ => vm_compute; reflexivity
      end.
Defined.

(** A raster whose band is missing makes the read throw, which the [catch]
    turns into the unknown class; a row that is too short gives the code
    [undefined]. *)
Example getClimate_short_grid :
  getClimate 10.05%float 20.05%float (Some (scenario_grid [])) = inr unknown
  /\ getClimate 0.5%float 2.5%float
       (Some {| xmin := 0%float; ymax := 2%float;
                pixelWidth := 1%float; pixelHeight := (-1)%float;
                height := 2%float; width := 3%float;
                values := [ [ [1; 2; 3]; [4; 5] ] ] |})
     = inr {| climateCode := Undefined; climateType := "Code undefined" |}.
Proof. split; vm_compute; reflexivity. Qed.

(** C9: [getClimate] returns for every input, and what it returns without
    a grid, or for a row or column outside the grid, is exactly
    [{climateCode: null, climateType: "Unknown"}]. *)
Theorem getClimate_never_throws :
  (forall lat lon georaster, exists c, getClimate lat lon georaster = inr c)
  /\ (forall lat lon, getClimate lat lon None = inr unknown)
  /\ (forall lat lon g,
         in_grid g (yPixel g lat) (xPixel g lon) = false ->
         getClimate lat lon (Some g) = inr unknown).
Proof.
  repeat split.
  - intros lat lon [g|]; unfold getClimate.
    + destruct (getClimate_try lat lon g) as [e|c]; eauto.
    + eauto.
  - intros lat lon g Hout. unfold getClimate, getClimate_try.
    now rewrite Hout.
Qed.

(** No grid; a point west of the small grid; a grid whose band is missing. *)
Lemma getClimate_never_throws_witness :
  getClimate 0.5%float 2.5%float None = inr unknown
  /\ getClimate 0.5%float (-1)%float (Some small_grid) = inr unknown
  /\ exists c, getClimate 10.05%float 20.05%float (Some (scenario_grid []))
               = inr c.
Proof.
  split; [apply (proj1 (proj2 getClimate_never_throws))|].
  split.
  - apply (proj2 (proj2 getClimate_never_throws)). vm_compute. reflexivity.
  - apply (proj1 getClimate_never_throws).
Defined.

End ClimateProps.

(* ================================================================== *)
(** * Properties of the fallback chains *)
(* ================================================================== *)

Module ChainProps.
Import JS Forecast Spec Examples.
Local Open Scope prog_scope.

(** ** Running a program *)

Lemma run_bind {A B : Type} world (p : prog A) (f : A -> prog B) :
  run world (bind p f)
  = match run world p with
    | (t, inl e) => (t, inl e)
    | (t, inr a) => (t ++ fst (run world (f a)), snd (run world (f a)))
    end.
Proof.
  induction p as [a|e|u k IH]; cbn.
  - now destruct (run world (f a)).
  - reflexivity.
  - rewrite IH. destruct (run world (k (world u))) as [t [e|a]]; cbn.
    + reflexivity.
    + now destruct (run world (f a)).
Qed.

Lemma run_try_catch {A : Type} world (p : prog A) (h : exn -> prog A) :
  run world (try_catch p h)
  = match run world p with
    | (t, inr a) => (t, inr a)
    | (t, inl e) => (t ++ fst (run world (h e)), snd (run world (h e)))
    end.
Proof.
  induction p as [a|e|u k IH]; cbn.
  - reflexivity.
  - now destruct (run world (h e)).
  - rewrite IH. destruct (run world (k (world u))) as [t [e|a]]; cbn.
    + now destruct (run world (h e)).
    + reflexivity.
Qed.

Lemma run_or_else {A : Type} world (block : prog (option A)) (next : prog A) :
  run world (block ;;; next)
  = match run world block with
    | (t, inl e) => (t, inl e)
    | (t, inr (Some v)) => (t, inr v)
    | (t, inr None) => (t ++ fst (run world next), snd (run world next))
    end.
Proof.
  unfold or_else. rewrite run_bind.
  destruct (run world block) as [t [e|[v|]]]; cbn; try reflexivity.
  now rewrite app_nil_r.
Qed.

(** ** The blocks, by the outcome of their fetch *)

Lemma length_zero_case {A : Type} (l : list A) :
  negb (Nat.eqb (List.length l) 0) = match l with [] => false | _ => true end.
Proof. now destruct l. Qed.

Lemma run_onecall_daily world u count :
  run world (onecall_daily u count) = ([u], inr (tier_daily (world u) count)).
Proof.
  unfold onecall_daily, tier_daily, fetch. cbn.
  destruct (world u) as [e|[[|] [e|d]]]; cbn; try reflexivity.
  rewrite length_zero_case.
  now destruct (array_or_empty (body_daily d)).
Qed.

Lemma run_forecast3h_daily world u count :
  run world (forecast3h_daily u count) = ([u], tier_3h (world u) count).
Proof.
  unfold forecast3h_daily, tier_3h, fetch. cbn.
  destruct (world u) as [e|[[|] [e|d]]]; cbn; try reflexivity.
  destruct (group_by_day [] (array_or_empty (body_list d))) as [e|byDay];
    cbn; [reflexivity|].
  rewrite length_zero_case.
  now destruct (days_of byDay count).
Qed.

Lemma run_onecall_hourly world u :
  run world (onecall_hourly u) = ([u], inr (tier_hourly (world u))).
Proof.
  unfold onecall_hourly, tier_hourly, fetch. cbn.
  destruct (world u) as [e|[[|] [e|d]]]; cbn; try reflexivity.
  destruct (body_hourly d) as [a|]; cbn; [|reflexivity].
  rewrite length_zero_case.
  now destruct (slice0 24 a).
Qed.

Lemma run_forecast3h_hourly world u :
  run world (forecast3h_hourly u) = ([u], tier_3h_hourly (world u)).
Proof.
  unfold forecast3h_hourly, tier_3h_hourly, fetch. cbn.
  destruct (world u) as [e|[[|] [e|d]]]; cbn; try reflexivity.
  now destruct (body_list d).
Qed.

(** The whole of [getForecast10Days]: the requests it makes and what it
    returns or throws. *)
Lemma run_getForecast10Days world lat lon count :
  run world (getForecast10Days lat lon count)
  = match tier_daily (world (url30 lat lon)) count with
    | Some days => ([url30 lat lon], inr days)
    | None =>
        match tier_daily (world (url25 lat lon)) count with
        | Some days => ([url30 lat lon; url25 lat lon], inr days)
        | None =>
            ([url30 lat lon; url25 lat lon; url3h lat lon],
             match tier_3h (world (url3h lat lon)) count with
             | inl e => inl e
             | inr (Some days) => inr days
             | inr None => inl (new_Error "No forecast data available")
             end)
        end
    end.
Proof.
  unfold getForecast10Days.
  rewrite run_or_else, run_onecall_daily.
  destruct (tier_daily (world (url30 lat lon)) count); [reflexivity|].
  rewrite run_or_else, run_onecall_daily.
  destruct (tier_daily (world (url25 lat lon)) count); [reflexivity|].
  rewrite run_or_else, run_forecast3h_daily.
  now destruct (tier_3h (world (url3h lat lon)) count) as [e|[days|]].
Qed.

Lemma run_getHourly24 world lat lon :
  run world (getHourly24 lat lon)
  = match tier_hourly (world (hourly_url30 lat lon)) with
    | Some hours => ([hourly_url30 lat lon], inr hours)
    | None =>
        match tier_hourly (world (hourly_url25 lat lon)) with
        | Some hours =>
            ([hourly_url30 lat lon; hourly_url25 lat lon], inr hours)
        | None =>
            ([hourly_url30 lat lon; hourly_url25 lat lon; url3h lat lon],
             tier_3h_hourly (world (url3h lat lon)))
        end
    end.
Proof.
  unfold getHourly24.
  rewrite run_or_else, run_onecall_hourly.
  destruct (tier_hourly (world (hourly_url30 lat lon))); [reflexivity|].
  rewrite run_or_else, run_onecall_hourly.
  destruct (tier_hourly (world (hourly_url25 lat lon))); [reflexivity|].
  now rewrite run_forecast3h_hourly.
Qed.

(** ** What a tier hands on *)

Lemma tier_daily_failed o count : failed o -> tier_daily o count = None.
Proof.
  destruct o as [e|[[|] [e|d]]]; cbn; try reflexivity.
  intros [H|[e H]]; discriminate.
Qed.

Lemma tier_daily_no_daily o count : no_daily o -> tier_daily o count = None.
Proof.
  intros [H|(d & (r & -> & Hok & Hjson) & Hempty)].
  - now apply tier_daily_failed.
  - destruct r as [okr jsonr]; cbn in *; subst. now rewrite Hempty.
Qed.

Lemma tier_daily_responds o count d a :
  responds o d -> body_daily d = Some a -> a <> [] ->
  tier_daily o count = Some (slice0 (clamp count) a).
Proof.
  intros (r & -> & Hok & Hjson) Ha Hne.
  destruct r as [okr jsonr]; cbn in *; subst. rewrite Ha. cbn.
  now destruct a.
Qed.

Lemma clamp_bounds count : 1 <= clamp count <= 10.
Proof. unfold clamp. lia. Qed.

Lemma clamp_id count : 1 <= count <= 10 -> clamp count = count.
Proof. unfold clamp. lia. Qed.

Lemma slice0_length {A : Type} n (l : list A) :
  0 <= n -> Z.of_nat (List.length (slice0 n l)) <= n.
Proof.
  intros Hn. unfold slice0. rewrite length_firstn. lia.
Qed.

Lemma slice0_nonempty {A : Type} n (l : list A) :
  1 <= n -> l <> [] -> slice0 n l <> [].
Proof.
  intros Hn Hl. unfold slice0.
  destruct (Z.to_nat n) eqn:E; [lia|]. now destruct l.
Qed.

Lemma tier_daily_some o count days :
  tier_daily o count = Some days ->
  days <> [] /\ Z.of_nat (List.length days) <= clamp count.
Proof.
  pose proof (clamp_bounds count) as Hc.
  destruct o as [e|[[|] [e|d]]]; cbn; try discriminate.
  destruct (array_or_empty (body_daily d)) as [|x a]; [discriminate|].
  intros [= <-]. split.
  - apply slice0_nonempty; [lia|discriminate].
  - apply slice0_length. lia.
Qed.

Lemma tier_3h_some o count days :
  tier_3h o count = inr (Some days) ->
  days <> [] /\ Z.of_nat (List.length days) <= clamp count.
Proof.
  pose proof (clamp_bounds count) as Hc.
  destruct o as [e|[[|] [e|d]]]; cbn; try discriminate.
  destruct (group_by_day [] (array_or_empty (body_list d))) as [e|byDay];
    [discriminate|].
  destruct (days_of byDay count) as [|x l] eqn:E; [discriminate|].
  intros [= <-]. split; [discriminate|].
  rewrite <- E. unfold days_of. rewrite length_map.
  apply slice0_length. lia.
Qed.

(** C4: a primary tier that responds with at least [count] daily entries,
    for [count] from 1 to 10, makes [getForecast10Days] return the first
    [count] of them as they are, and its request is the only one made. *)
Theorem primary_tier_prefix world lat lon count d a :
  responds (world (url30 lat lon)) d ->
  body_daily d = Some a ->
  a <> [] ->
  1 <= count <= 10 ->
  count <= Z.of_nat (List.length a) ->
  run world (getForecast10Days lat lon count)
  = ([url30 lat lon], inr (firstn (Z.to_nat count) a))
  /\ List.length (firstn (Z.to_nat count) a) = Z.to_nat count.
Proof.
  intros Hr Ha Hne Hc Hlen.
  rewrite run_getForecast10Days.
  rewrite (tier_daily_responds _ count d a Hr Ha Hne).
  unfold slice0. rewrite (clamp_id count Hc).
  split; [reflexivity|].
  rewrite length_firstn. lia.
Qed.

(** Three of twelve days; the other sources are unreachable. *)
Lemma primary_tier_prefix_witness :
  run (world_of (with_daily twelve_days) offline offline)
      (getForecast10Days 10.8%float 106.7%float 3)
  = ([url30 10.8%float 106.7%float], inr [api_day 0; api_day 1; api_day 2])
  /\ List.length (firstn (Z.to_nat 3) twelve_days) = 3%nat.
Proof.
  apply (primary_tier_prefix
           (world_of (with_daily twelve_days) offline offline)
           10.8%float 106.7%float 3
           {| body_daily := Some twelve_days; body_hourly := None;
              body_list := None |}
           twelve_days).
  - eexists. repeat split; reflexivity.
  - reflexivity.
  - discriminate.
  - lia.
  - vm_compute. discriminate.
Defined.

(** C8: whatever [count] is, a tier hands on at most
    [min(10, max(1, count))] entries, and so does the call. *)
Theorem count_is_clamped world lat lon count :
  (forall u days,
      snd (run world (onecall_daily u count)) = inr (Some days) ->
      Z.of_nat (List.length days) <= Z.min 10 (Z.max 1 count))
  /\ (forall u days,
         snd (run world (forecast3h_daily u count)) = inr (Some days) ->
         Z.of_nat (List.length days) <= Z.min 10 (Z.max 1 count))
  /\ (forall days,
         snd (run world (getForecast10Days lat lon count)) = inr days ->
         Z.of_nat (List.length days) <= Z.min 10 (Z.max 1 count)).
Proof.
  repeat split.
  - intros u days. rewrite run_onecall_daily. cbn. intros [= H].
    now apply tier_daily_some in H.
  - intros u days. rewrite run_forecast3h_daily. cbn. intros H.
    now apply tier_3h_some in H.
  - intros days. rewrite run_getForecast10Days.
    destruct (tier_daily (world (url30 lat lon)) count) as [d1|] eqn:E1.
    { cbn. intros [= <-]. now apply tier_daily_some in E1. }
    destruct (tier_daily (world (url25 lat lon)) count) as [d2|] eqn:E2.
    { cbn. intros [= <-]. now apply tier_daily_some in E2. }
    cbn.
    destruct (tier_3h (world (url3h lat lon)) count) as [e|[d3|]] eqn:E3;
      try discriminate.
    intros [= <-]. now apply tier_3h_some in E3.
Qed.

(** A count of 25 on twelve days gives ten entries, a count of -4 one. *)
Lemma count_is_clamped_witness :
  (Z.of_nat (List.length (firstn 10 twelve_days)) <= Z.min 10 (Z.max 1 25))
  /\ (Z.of_nat (List.length [api_day 0]) <= Z.min 10 (Z.max 1 (-4))).
Proof.
  split.
  - apply (proj2 (proj2 (count_is_clamped
                           (world_of (with_daily twelve_days) offline offline)
                           0%float 0%float 25))).
    vm_compute. reflexivity.
  - apply (proj2 (proj2 (count_is_clamped
                           (world_of offline (with_daily twelve_days) offline)
                           0%float 0%float (-4)))).
    vm_compute. reflexivity.
Defined.

(** ** Failures *)

Lemma tier_3h_failed o count :
  failed o ->
  exists e, tier_3h o count = inl e
    /\ (forall e0, o = inl e0 -> e = e0)
    /\ (forall r, o = inr r -> ok r = false ->
        e = new_Error "forecast 3h not available")
    /\ (forall r e0, o = inr r -> ok r = true -> json r = inl e0 -> e = e0).
Proof.
  destruct o as [e|[[|] [e|d]]]; cbn.
  - intros _. exists e. repeat split; try congruence.
  - intros _. exists e. repeat split; try congruence.
    + intros r Hr. injection Hr as <-. discriminate.
    + intros r e0 Hr _. injection Hr as <-. cbn. congruence.
  - intros [H|[e H]]; discriminate.
  - intros _. eexists. split; [reflexivity|]. repeat split; try congruence.
    intros r e0 Hr. injection Hr as <-. discriminate.
  - intros _. eexists. split; [reflexivity|]. repeat split; try congruence.
    intros r e0 Hr. injection Hr as <-. discriminate.
Qed.

Lemma tier_3h_empty o count d :
  responds o d -> array_or_empty (body_list d) = [] ->
  tier_3h o count = inr None.
Proof.
  intros (r & -> & Hok & Hjson) Hempty.
  destruct r as [okr jsonr]; cbn in *; subst. rewrite Hempty. cbn.
  unfold days_of, slice0. cbn. now rewrite firstn_nil.
Qed.

Lemma failed_not_responds o d : failed o -> responds o d -> False.
Proof.
  intros Hf (r & -> & Hok & Hjson). cbn in Hf.
  destruct Hf as [H|[e H]]; congruence.
Qed.

(** C5: a failure of the first or of the second tier is not seen by the
    caller: the call goes on to the next tier and ends as it would had the
    tier answered with no entry.  A failure of the third tier's fetch
    reaches the caller: the rejection itself, the error thrown on a status
    that is not a success, or the failure to parse the body. *)
Theorem tier_failure_policy world lat lon count :
  (forall world',
      failed (world (url30 lat lon)) ->
      world' (url30 lat lon) = empty_ok ->
      world' (url25 lat lon) = world (url25 lat lon) ->
      world' (url3h lat lon) = world (url3h lat lon) ->
      run world (getForecast10Days lat lon count)
      = run world' (getForecast10Days lat lon count)
      /\ exists t, fst (run world (getForecast10Days lat lon count))
                   = url30 lat lon :: url25 lat lon :: t)
  /\ (forall world',
         no_daily (world (url30 lat lon)) ->
         world' (url30 lat lon) = world (url30 lat lon) ->
         failed (world (url25 lat lon)) ->
         world' (url25 lat lon) = empty_ok ->
         world' (url3h lat lon) = world (url3h lat lon) ->
         run world (getForecast10Days lat lon count)
         = run world' (getForecast10Days lat lon count)
         /\ fst (run world (getForecast10Days lat lon count))
            = [url30 lat lon; url25 lat lon; url3h lat lon])
  /\ (no_daily (world (url30 lat lon)) ->
      no_daily (world (url25 lat lon)) ->
      (forall e, world (url3h lat lon) = inl e ->
                 snd (run world (getForecast10Days lat lon count)) = inl e)
      /\ (forall r, world (url3h lat lon) = inr r -> ok r = false ->
                    snd (run world (getForecast10Days lat lon count))
                    = inl (new_Error "forecast 3h not available"))
      /\ (forall r e, world (url3h lat lon) = inr r -> ok r = true ->
                      json r = inl e ->
                      snd (run world (getForecast10Days lat lon count))
                      = inl e)).
Proof.
  split; [|split].
  - intros world' Hf H30 H25 H3h.
    rewrite !run_getForecast10Days, H30, H25, H3h.
    rewrite (tier_daily_failed _ count Hf).
    split; [reflexivity|].
    destruct (tier_daily (world (url25 lat lon)) count); cbn; eauto.
  - intros world' Hn H30 Hf H25 H3h.
    rewrite !run_getForecast10Days, H30, H25, H3h.
    rewrite (tier_daily_no_daily _ count Hn).
    rewrite (tier_daily_failed _ count Hf).
    split; reflexivity.
  - intros Hn1 Hn2.
    rewrite run_getForecast10Days.
    rewrite (tier_daily_no_daily _ count Hn1).
    rewrite (tier_daily_no_daily _ count Hn2). cbn.
    repeat split.
    + intros e ->. reflexivity.
    + intros [okr jsonr] -> Hok. cbn in Hok. subst. reflexivity.
    + intros [okr jsonr] e -> Hok Hjson. cbn in Hok, Hjson. subst.
      reflexivity.
Qed.

(** The first tier offline, with the second serving twelve days; the
    second tier garbled, with the third answering 401; and the three ways
    in which the third tier fails. *)
Lemma tier_failure_policy_witness :
  run (world_of offline (with_daily twelve_days) offline)
      (getForecast10Days 0%float 0%float 2)
  = run (world_of empty_ok (with_daily twelve_days) offline)
        (getForecast10Days 0%float 0%float 2)
  /\ fst (run (world_of unauthorized garbled unauthorized)
              (getForecast10Days 0%float 0%float 2))
     = [url30 0%float 0%float; url25 0%float 0%float; url3h 0%float 0%float]
  /\ snd (run (world_of offline unauthorized offline)
              (getForecast10Days 0%float 0%float 2))
     = inl (Exn TypeError "Failed to fetch")
  /\ snd (run world_unauthorized (getForecast10Days 0%float 0%float 2))
     = inl (new_Error "forecast 3h not available")
  /\ snd (run (world_of garbled garbled garbled)
              (getForecast10Days 0%float 0%float 2))
     = inl (Exn SyntaxError "Unexpected token <").
Proof.
  split; [|split; [|split; [|split]]].
  - apply (proj1 (tier_failure_policy
                    (world_of offline (with_daily twelve_days) offline)
                    0%float 0%float 2)
                 (world_of empty_ok (with_daily twelve_days) offline));
      [exact I|reflexivity|reflexivity|reflexivity].
  - apply (proj1 (proj2 (tier_failure_policy
                           (world_of unauthorized garbled unauthorized)
                           0%float 0%float 2))
                 (world_of unauthorized empty_ok unauthorized));
      [left; left; reflexivity|reflexivity
      |right; eexists; reflexivity|reflexivity|reflexivity].
  - apply (proj1 (proj2 (proj2 (tier_failure_policy
                                  (world_of offline unauthorized offline)
                                  0%float 0%float 2))
                        (or_introl I) (or_introl (or_introl eq_refl)))).
    reflexivity.
  - apply (proj1 (proj2 (proj2 (proj2 (tier_failure_policy
                                         world_unauthorized
                                         0%float 0%float 2))
                               (or_introl (or_introl eq_refl))
                               (or_introl (or_introl eq_refl))))
                 {| ok := false; json := inr empty_body |});
      reflexivity.
  - apply (proj2 (proj2 (proj2 (proj2 (tier_failure_policy
                                         (world_of garbled garbled garbled)
                                         0%float 0%float 2))
                               (or_introl (or_intror (ex_intro _ _ eq_refl)))
                               (or_introl (or_intror (ex_intro _ _ eq_refl)))))
                 {| ok := true;
                    json := inl (Exn SyntaxError "Unexpected token <") |});
      reflexivity.
Defined.

(** ** Exhaustion of the chain *)

(** C3, as the code has it: a list returned by [getForecast10Days] is never
    empty, and when the three tiers fail or hold no entry the call throws
    and returns no list.  The error is "No forecast data available" when the
    third tier responded with no sample; when its fetch failed, the error
    is that failure's. *)
Theorem exhaustion_throws world lat lon count :
  (forall days,
      snd (run world (getForecast10Days lat lon count)) = inr days ->
      days <> [])
  /\ (no_daily (world (url30 lat lon)) ->
      no_daily (world (url25 lat lon)) ->
      no_samples (world (url3h lat lon)) ->
      exists e,
        snd (run world (getForecast10Days lat lon count)) = inl e
        /\ ((exists d, responds (world (url3h lat lon)) d) ->
            e = new_Error "No forecast data available")
        /\ (forall e0, world (url3h lat lon) = inl e0 -> e = e0)
        /\ (forall r, world (url3h lat lon) = inr r -> ok r = false ->
            e = new_Error "forecast 3h not available")
        /\ (forall r e0, world (url3h lat lon) = inr r -> ok r = true ->
            json r = inl e0 -> e = e0)).
Proof.
  split.
  - intros days. rewrite run_getForecast10Days.
    destruct (tier_daily (world (url30 lat lon)) count) as [d1|] eqn:E1.
    { cbn. intros [= <-]. now apply tier_daily_some in E1. }
    destruct (tier_daily (world (url25 lat lon)) count) as [d2|] eqn:E2.
    { cbn. intros [= <-]. now apply tier_daily_some in E2. }
    cbn.
    destruct (tier_3h (world (url3h lat lon)) count) as [e|[d3|]] eqn:E3;
      try discriminate.
    intros [= <-]. now apply tier_3h_some in E3.
  - intros Hn1 Hn2 Hn3.
    rewrite run_getForecast10Days.
    rewrite (tier_daily_no_daily _ count Hn1).
    rewrite (tier_daily_no_daily _ count Hn2). cbn.
    destruct Hn3 as [Hf|(d & Hr & Hempty)].
    + destruct (tier_3h_failed _ count Hf) as (e & -> & H1 & H2 & H3).
      exists e. split; [reflexivity|]. repeat split; try assumption.
      intros [d Hd]. now destruct (failed_not_responds _ d Hf).
    + rewrite (tier_3h_empty _ count d Hr Hempty).
      eexists. split; [reflexivity|].
      destruct Hr as (r & Hw & Hok & Hjson).
      repeat split; congruence.
Qed.

(** A 5-day forecast without samples behind two refused sources. *)
Lemma exhaustion_throws_witness :
  exists e,
    snd (run world_no_samples (getForecast10Days 0%float 0%float 10)) = inl e
    /\ e = new_Error "No forecast data available".
Proof.
  destruct (proj2 (exhaustion_throws world_no_samples 0%float 0%float 10))
    as (e & He & Hmsg & _).
  - left. left. reflexivity.
  - left. left. reflexivity.
  - right. eexists. split; [eexists; repeat split; reflexivity|reflexivity].
  - exists e. split; [exact He|].
    apply Hmsg. eexists. eexists. repeat split; reflexivity.
Defined.

(** C3 as the specification words it fails where every source answers
    401: the three tiers fail, and the error thrown is the third tier's
    "forecast 3h not available". *)
Lemma exhaustion_message_counterexample :
  no_daily (world_unauthorized (url30 0%float 0%float))
  /\ no_daily (world_unauthorized (url25 0%float 0%float))
  /\ no_samples (world_unauthorized (url3h 0%float 0%float))
  /\ snd (run world_unauthorized (getForecast10Days 0%float 0%float 10))
     = inl (new_Error "forecast 3h not available")
  /\ snd (run world_unauthorized (getForecast10Days 0%float 0%float 10))
     <> inl (new_Error "No forecast data available").
Proof.
  repeat split; try (left; left; reflexivity).
  vm_compute. discriminate.
Qed.

(** ** [getHourly24] *)

Lemma tier_hourly_no_hourly o : no_hourly o -> tier_hourly o = None.
Proof.
  intros [H|(d & (r & -> & Hok & Hjson) & Hempty)].
  - destruct o as [e|[[|] [e|d]]]; cbn in *; try reflexivity.
    destruct H as [H|[e H]]; discriminate.
  - destruct r as [okr jsonr]; cbn in *; subst. now rewrite Hempty.
Qed.

Lemma tier_hourly_some o hours :
  tier_hourly o = Some hours -> (List.length hours <= 24)%nat.
Proof.
  destruct o as [e|[[|] [e|d]]]; cbn; try discriminate.
  destruct (slice0 24 (array_or_empty (body_hourly d))) as [|x a] eqn:E;
    [discriminate|].
  intros [= <-]. change (List.length (map hour_of_hourly (x :: a)) <= 24)%nat.
  rewrite <- E, length_map. unfold slice0.
  rewrite length_firstn. lia.
Qed.

Lemma tier_3h_hourly_responds o d :
  responds o d ->
  tier_3h_hourly o
  = inr (map hour_of_sample (firstn 9 (array_or_empty (body_list d)))).
Proof.
  intros (r & -> & Hok & Hjson).
  destruct r as [okr jsonr]; cbn in Hok, Hjson; subst.
  unfold tier_3h_hourly, slice0. change (Z.to_nat 9) with 9%nat.
  f_equal. apply firstn_all2.
  rewrite length_map, length_firstn. lia.
Qed.

Lemma tier_3h_hourly_length o hours :
  tier_3h_hourly o = inr hours -> (List.length hours <= 24)%nat.
Proof.
  destruct o as [e|[[|] [e|d]]]; cbn; try discriminate.
  intros [= <-]. unfold slice0. rewrite length_firstn. lia.
Qed.

Lemma tier_3h_hourly_failed o :
  failed o ->
  exists e, tier_3h_hourly o = inl e
    /\ (forall e0, o = inl e0 -> e = e0)
    /\ (forall r, o = inr r -> ok r = false ->
        e = new_Error "forecast 3h not available")
    /\ (forall r e0, o = inr r -> ok r = true -> json r = inl e0 -> e = e0).
Proof.
  destruct o as [e|[[|] [e|d]]]; cbn.
  - intros _. exists e. repeat split; try congruence.
  - intros _. exists e. repeat split; try congruence.
    + intros r Hr. injection Hr as <-. discriminate.
    + intros r e0 Hr _. injection Hr as <-. cbn. congruence.
  - intros [H|[e H]]; discriminate.
  - intros _. eexists. split; [reflexivity|]. repeat split; try congruence.
    intros r e0 Hr. injection Hr as <-. discriminate.
  - intros _. eexists. split; [reflexivity|]. repeat split; try congruence.
    intros r e0 Hr. injection Hr as <-. discriminate.
Qed.

(** C6, as the code has it: when the two hourly tiers yield nothing,
    [getHourly24] throws only if the fetch of the third tier fails, and the
    error is that failure's; a third tier that responds without a sample
    makes the call return the empty list. *)
Theorem hourly_exhaustion world lat lon :
  no_hourly (world (hourly_url30 lat lon)) ->
  no_hourly (world (hourly_url25 lat lon)) ->
  (failed (world (url3h lat lon)) ->
   exists e,
     snd (run world (getHourly24 lat lon)) = inl e
     /\ (forall e0, world (url3h lat lon) = inl e0 -> e = e0)
     /\ (forall r, world (url3h lat lon) = inr r -> ok r = false ->
         e = new_Error "forecast 3h not available")
     /\ (forall r e0, world (url3h lat lon) = inr r -> ok r = true ->
         json r = inl e0 -> e = e0))
  /\ (forall d, responds (world (url3h lat lon)) d ->
      array_or_empty (body_list d) = [] ->
      snd (run world (getHourly24 lat lon)) = inr []).
Proof.
  intros Hn1 Hn2.
  rewrite run_getHourly24.
  rewrite (tier_hourly_no_hourly _ Hn1), (tier_hourly_no_hourly _ Hn2). cbn.
  split.
  - apply tier_3h_hourly_failed.
  - intros d Hr Hempty.
    now rewrite (tier_3h_hourly_responds _ d Hr), Hempty.
Qed.

Lemma hourly_exhaustion_witness :
  snd (run world_no_samples (getHourly24 0%float 0%float)) = inr []
  /\ exists e,
       snd (run world_unauthorized (getHourly24 0%float 0%float)) = inl e.
Proof.
  split.
  - apply (proj2 (hourly_exhaustion world_no_samples 0%float 0%float
                    (or_introl (or_introl eq_refl))
                    (or_introl (or_introl eq_refl)))
                 {| body_daily := None; body_hourly := None;
                    body_list := Some [] |}).
    + eexists. repeat split; reflexivity.
    + reflexivity.
  - destruct (proj1 (hourly_exhaustion world_unauthorized 0%float 0%float
                       (or_introl (or_introl eq_refl))
                       (or_introl (or_introl eq_refl)))
                    (or_introl eq_refl)) as (e & He & _).
    exists e. exact He.
Defined.

(** C6 as the specification words it fails where the One Call sources are
    refused and the 5-day forecast has an empty list: the three tiers yield
    nothing and the call succeeds with the empty list. *)
Lemma hourly_empty_counterexample :
  no_hourly (world_no_samples (hourly_url30 0%float 0%float))
  /\ no_hourly (world_no_samples (hourly_url25 0%float 0%float))
  /\ no_samples (world_no_samples (url3h 0%float 0%float))
  /\ run world_no_samples (getHourly24 0%float 0%float)
     = ([hourly_url30 0%float 0%float; hourly_url25 0%float 0%float;
         url3h 0%float 0%float],
        inr []).
Proof.
  repeat split; try (left; left; reflexivity).
  right. eexists. split; [eexists; repeat split; reflexivity|reflexivity].
Qed.

Lemma first_or_field_or f it dflt :
  field_or f it dflt (first_or f (item_weather it) dflt).
Proof.
  unfold field_or, first_or, first_weather.
  destruct (item_weather it) as [[|w0 ws]|].
  - right. split; [reflexivity|]. discriminate.
  - destruct (f w0) as [x|] eqn:E.
    + destruct (String.eqb_spec x "") as [->|Hne].
      * right. split; [reflexivity|].
        intros w0' ws' [= <- <-]. now right.
      * left. now exists w0, ws.
    + right. split; [reflexivity|].
      intros w0' ws' [= <- <-]. now left.
  - right. split; [reflexivity|]. discriminate.
Qed.

Lemma hour_of_sample_passed_through it :
  passed_through it (hour_of_sample it).
Proof.
  unfold passed_through, hour_of_sample.
  cbn [hour_dt hour_temp hour_icon hour_description].
  split; [reflexivity|]. split; [now intros m ->|].
  split; [now intros ->|]. split; apply first_or_field_or.
Qed.

(** C7: [getHourly24] never returns more than 24 entries, and its third
    tier returns one entry for each of the first nine samples, in order:
    each carries the time, the temperature, the icon and the description
    of its sample, and no bucket is formed. *)
Theorem hourly_at_most_24 world lat lon :
  (forall hours,
      snd (run world (getHourly24 lat lon)) = inr hours ->
      (List.length hours <= 24)%nat)
  /\ (forall d,
         no_hourly (world (hourly_url30 lat lon)) ->
         no_hourly (world (hourly_url25 lat lon)) ->
         responds (world (url3h lat lon)) d ->
         exists hours,
           snd (run world (getHourly24 lat lon)) = inr hours
           /\ hours
              = map hour_of_sample (firstn 9 (array_or_empty (body_list d)))
           /\ Forall2 passed_through
                (firstn 9 (array_or_empty (body_list d))) hours
           /\ (List.length hours <= 9)%nat).
Proof.
  split.
  - intros hours. rewrite run_getHourly24.
    destruct (tier_hourly (world (hourly_url30 lat lon))) as [h1|] eqn:E1.
    { cbn. intros [= <-]. now apply tier_hourly_some in E1. }
    destruct (tier_hourly (world (hourly_url25 lat lon))) as [h2|] eqn:E2.
    { cbn. intros [= <-]. now apply tier_hourly_some in E2. }
    cbn. apply tier_3h_hourly_length.
  - intros d Hn1 Hn2 Hr.
    rewrite run_getHourly24.
    rewrite (tier_hourly_no_hourly _ Hn1), (tier_hourly_no_hourly _ Hn2).
    cbn [snd]. rewrite (tier_3h_hourly_responds _ _ Hr).
    eexists. split; [reflexivity|]. split; [reflexivity|]. split.
    + generalize (firstn 9 (array_or_empty (body_list d))).
      intros l. induction l as [|it l IH]; cbn [map]; constructor;
        [apply hour_of_sample_passed_through|exact IH].
    + rewrite length_map, length_firstn. lia.
Qed.

(** Forty-eight hourly entries give 24 hours; forty three-hour samples
    behind two refused sources give the first nine. *)
Lemma hourly_at_most_24_witness :
  (List.length (map hour_of_hourly (firstn 24 forty_eight_hours)) <= 24)%nat
  /\ exists hours,
       snd (run (world_of unauthorized unauthorized (with_list forty_samples))
                (getHourly24 0%float 0%float)) = inr hours
       /\ hours = map hour_of_sample (firstn 9 forty_samples)
       /\ Forall2 passed_through (firstn 9 forty_samples) hours
       /\ (List.length hours <= 9)%nat.
Proof.
  split.
  - apply (proj1 (hourly_at_most_24
                    (world_of (with_hourly forty_eight_hours) offline offline)
                    0%float 0%float)).
    reflexivity.
  - apply (proj2 (hourly_at_most_24
                    (world_of unauthorized unauthorized
                       (with_list forty_samples))
                    0%float 0%float)
                 {| body_daily := None; body_hourly := None;
                    body_list := Some forty_samples |}).
    + left. left. reflexivity.
    + left. left. reflexivity.
    + eexists. repeat split; reflexivity.
Defined.

(** The nine hours of that fallback start with the first sample as it
    is. *)
Example fallback_first_hour :
  exists rest,
    snd (run (world_of unauthorized unauthorized (with_list forty_samples))
             (getHourly24 0%float 0%float))
    = inr ({| hour_dt := Some 1700006400; hour_temp := Some (0 / 4)%Q;
              hour_icon := "01d"; hour_description := "clear sky" |}
           :: rest)
    /\ List.length rest = 8%nat.
Proof. eexists. split; vm_compute; reflexivity. Qed.

End ChainProps.

(* ================================================================== *)
(** * Properties of the aggregation by calendar day *)
(* ================================================================== *)

Module BucketProps.
Import JS Forecast Spec Examples ExamplesMore JSProps ChainProps.

(** ** Counting *)

Lemma first_weather_first_shown f item :
  first_weather f (item_weather item) = first_shown f item.
Proof.
  unfold first_weather, first_shown.
  destruct (item_weather item) as [[|w0 ws]|]; try reflexivity.
  destruct (f w0) as [[|c x]|]; reflexivity.
Qed.

Lemma occurrences_nil f v : occurrences f v [] = 0.
Proof. reflexivity. Qed.

Lemma occurrences_app f v s item :
  occurrences f v (s ++ [item])
  = occurrences f v s + (if shows f v item then 1 else 0).
Proof.
  unfold occurrences. rewrite filter_app, length_app. cbn [filter].
  destruct (shows f v item); cbn [List.length]; lia.
Qed.

Lemma occurrences_nonneg f v s : 0 <= occurrences f v s.
Proof. unfold occurrences. lia. Qed.

Lemma first_weather_nonempty f w s :
  first_weather f w = Some s -> s <> "".
Proof.
  unfold first_weather.
  destruct w as [[|w0 w]|]; try discriminate.
  destruct (f w0) as [x|]; try discriminate.
  destruct (String.eqb_spec x ""); [discriminate|].
  now intros [= <-].
Qed.

Lemma occurrences_empty_string f s : occurrences f "" s = 0.
Proof.
  unfold occurrences.
  replace (filter (shows f "") s) with (@nil sample); [reflexivity|].
  induction s as [|item s IH]; [reflexivity|]. cbn [filter].
  unfold shows at 1. rewrite <- first_weather_first_shown.
  destruct (first_weather f (item_weather item)) as [x|] eqn:E; [|exact IH].
  apply first_weather_nonempty in E.
  now destruct (String.eqb_spec x "").
Qed.

Lemma counts_nil f : counts [] f [].
Proof.
  intros _. repeat split.
  - constructor.
  - intros k c [].
Qed.

Lemma plain_app f s item :
  plain f (s ++ [item]) ->
  plain f s
  /\ forall i, first_shown f item = Some i -> inherited i = false.
Proof.
  intros H. split.
  - intros x i Hx. apply H. apply in_or_app. now left.
  - intros i. apply H. apply in_or_app. right. now left.
Qed.

(** The names that [increment] takes apart are the inherited ones. *)
Lemma inherited_false i :
  inherited i = false ->
  String.eqb i "__proto__" = false
  /\ existsb (String.eqb i) inherited_functions = false.
Proof. intros H. apply orb_false_elim in H. exact H. Qed.

(** On a name that is not inherited, and on an object that holds counts,
    [increment] adds one to the count. *)
Lemma increment_plain o i :
  inherited i = false ->
  (forall c, In (i, c) o -> exists n, c = Count n) ->
  NoDup (map fst o) ->
  increment o i = assoc_set o i (Count (count_of o i + 1)).
Proof.
  intros Hi Hc Hnd. unfold increment, count_of.
  destruct (assoc_get o i) as [c|] eqn:E.
  - apply assoc_get_In in E. destruct (Hc c E) as [n ->]. reflexivity.
  - destruct (inherited_false i Hi) as [-> ->]. reflexivity.
Qed.

(** [increment] counts one more occurrence. *)
Lemma counts_increment o f s item i :
  counts o f s ->
  first_weather f (item_weather item) = Some i ->
  counts (increment o i) f (s ++ [item]).
Proof.
  intros Hc Hi Hplain. apply plain_app in Hplain as [Hs Hitem].
  rewrite first_weather_first_shown in Hi.
  destruct (Hc Hs) as (Hnd & Hpos & Hocc).
  rewrite increment_plain;
    [|now apply Hitem
     |intros c Hin; destruct (Hpos i c Hin) as (n & -> & _); now exists n
     |exact Hnd].
  repeat split.
  - now apply NoDup_assoc_set.
  - intros k c Hin.
    apply In_assoc_set in Hin; [|exact Hnd].
    destruct Hin as [[-> ->]|[_ Hin]].
    + eexists. split; [reflexivity|].
      rewrite Hocc. pose proof (occurrences_nonneg f i s). lia.
    + now apply (Hpos k).
  - intros v. rewrite occurrences_app. unfold shows. rewrite Hi.
    unfold count_of at 1.
    destruct (String.eqb_spec i v) as [->|Hne].
    + rewrite assoc_get_set_eq. now rewrite Hocc.
    + rewrite assoc_get_set_neq by congruence.
      fold (count_of o v). rewrite Hocc. lia.
Qed.

Lemma counts_skip o f s item :
  counts o f s ->
  first_weather f (item_weather item) = None ->
  counts o f (s ++ [item]).
Proof.
  intros Hc Hi Hplain. apply plain_app in Hplain as [Hs _].
  rewrite first_weather_first_shown in Hi.
  destruct (Hc Hs) as (Hnd & Hpos & Hocc).
  repeat split; [exact Hnd|exact Hpos|].
  intros v. rewrite occurrences_app. unfold shows. rewrite Hi.
  rewrite Hocc. lia.
Qed.

Lemma temps_of_app s item :
  temps_of (s ++ [item])
  = temps_of s ++ match item_main item with
                  | Some m => [main_temp m]
                  | None => []
                  end.
Proof.
  unfold temps_of. rewrite flat_map_app. cbn [flat_map].
  now rewrite app_nil_r.
Qed.


(** ** The loop *)

Lemma bucket_app k l item :
  bucket k (l ++ [item])
  = bucket k l ++ (if in_day k item then [item] else []).
Proof. unfold bucket. now rewrite filter_app. Qed.

Lemma in_day_key k k' item :
  key_of item = inr k -> in_day k' item = String.eqb k k'.
Proof. unfold in_day. now intros ->. Qed.

Lemma first_dt_app s item : s <> [] -> first_dt (s ++ [item]) = first_dt s.
Proof. now destruct s. Qed.

(** One turn of the loop: the sample joins the record of its day, which is
    created when the day is new. *)
Lemma add_item_grouped byDay l item k :
  grouped byDay l ->
  key_of item = inr k ->
  exists byDay',
    add_item byDay item = inr byDay' /\ grouped byDay' (l ++ [item]).
Proof.
  intros (Hnd & Hnone & Hsome) Hk.
  unfold add_item. unfold key_of, time_of in Hk. rewrite Hk.
  eexists. split; [reflexivity|].
  set (rec0 := match assoc_get byDay k with
               | Some r => r
               | None => {| temps := []; icons := []; descs := [];
                            rec_dt := or_zero (item_dt item) * 1000 / 1000 |}
               end).
  assert (Hrep0 : represents rec0 (bucket k l)).
  { unfold rec0. destruct (assoc_get byDay k) as [r|] eqn:E.
    - now apply Hsome.
    - rewrite (Hnone k E). split; [reflexivity|split; apply counts_nil]. }
  assert (Hdt0 : rec_dt rec0 = first_dt (bucket k l ++ [item])).
  { unfold rec0. destruct (assoc_get byDay k) as [r|] eqn:E.
    - destruct (Hsome k r E) as (Hne & _ & Hdt).
      now rewrite first_dt_app.
    - rewrite (Hnone k E). cbn [app first_dt rec_dt].
      apply Z.div_mul. lia. }
  clearbody rec0.
  split; [now apply NoDup_assoc_set|]. split.
  - intros k' Hget.
    destruct (String.eqb_spec k' k) as [->|Hne].
    + now rewrite assoc_get_set_eq in Hget.
    + rewrite assoc_get_set_neq in Hget by exact Hne.
      rewrite bucket_app, (in_day_key k k' item Hk).
      destruct (String.eqb_spec k k'); [congruence|].
      rewrite app_nil_r. now apply Hnone.
  - intros k' r' Hget.
    rewrite bucket_app, (in_day_key k k' item Hk).
    destruct (String.eqb_spec k' k) as [->|Hne].
    + rewrite assoc_get_set_eq in Hget. injection Hget as <-.
      rewrite String.eqb_refl.
      split; [now destruct (bucket k l)|].
      split; [|exact Hdt0].
      destruct Hrep0 as (Ht & Hi & Hd).
      split; [|split]; cbn [temps icons descs].
      * rewrite temps_of_app, Ht.
        destruct (item_main item); [reflexivity|now rewrite app_nil_r].
      * destruct (first_weather icon (item_weather item)) eqn:E.
        -- now apply counts_increment.
        -- now apply counts_skip.
      * destruct (first_weather description (item_weather item)) eqn:E.
        -- now apply counts_increment.
        -- now apply counts_skip.
    + rewrite assoc_get_set_neq in Hget by exact Hne.
      destruct (String.eqb_spec k k'); [congruence|].
      rewrite app_nil_r. now apply Hsome.
Qed.

Lemma key_of_valid item :
  valid_time (time_of item) -> exists k, key_of item = inr k.
Proof.
  unfold valid_time, key_of, dayKey_of, toISOString. intros H.
  destruct (Z.ltb_spec 8640000000000000 (Z.abs (time_of item))); [lia|].
  eauto.
Qed.

Lemma group_by_day_grouped l byDay p :
  Forall (fun item => valid_time (time_of item)) l ->
  grouped byDay p ->
  exists byDay',
    group_by_day byDay l = inr byDay' /\ grouped byDay' (p ++ l).
Proof.
  intros Hvalid. revert byDay p.
  induction Hvalid as [|item l Hitem Hvalid IH]; intros byDay p Hg.
  - exists byDay. rewrite app_nil_r. now split.
  - destruct (key_of_valid item Hitem) as [k Hk].
    destruct (add_item_grouped byDay p item k Hg Hk) as (byDay1 & E1 & Hg1).
    destruct (IH byDay1 (p ++ [item]) Hg1) as (byDay' & E & Hg').
    exists byDay'. cbn [group_by_day]. rewrite E1.
    split; [exact E|].
    now rewrite <- app_assoc in Hg'.
Qed.

Lemma grouped_nil : grouped [] [].
Proof.
  repeat split; try constructor; try discriminate.
Qed.

(** The loop ends, with one record for each day of the list. *)
Lemma group_by_day_total l :
  Forall (fun item => valid_time (time_of item)) l ->
  exists byDay, group_by_day [] l = inr byDay /\ grouped byDay l.
Proof.
  intros Hvalid.
  exact (group_by_day_grouped l [] [] Hvalid grouped_nil).
Qed.


(** ** The dominant icon and description *)

Lemma filter_partition_perm {A : Type} (f : A -> bool) (l : list A) :
  Permutation (filter f l ++ filter (fun x => negb (f x)) l) l.
Proof.
  induction l as [|x l IH]; cbn; [reflexivity|].
  destruct (f x); cbn.
  - now constructor.
  - rewrite <- Permutation_middle. now constructor.
Qed.

Lemma Object_entries_perm {V : Type} (o : list (string * V)) :
  Permutation (Object_entries o) o.
Proof.
  unfold Object_entries.
  rewrite (sort_perm index_cmp (filter is_index o)).
  apply filter_partition_perm.
Qed.

(** Sorting by descending count puts first an entry of greatest count,
    when every entry holds a count. *)
Lemma sort_by_count_head (l : list (string * held)) :
  (forall y, In y l -> exists n, snd y = Count n) ->
  match sort by_count_desc l with
  | [] => l = []
  | h :: _ =>
      exists c, In h l /\ snd h = Count c
        /\ forall k n, In (k, Count n) l -> n <= c
  end.
Proof.
  induction l as [|x l IH]; intros Hall; [reflexivity|].
  cbn [sort fold_right]. fold (sort by_count_desc l).
  destruct (Hall x (or_introl eq_refl)) as [nx Hx].
  specialize (IH (fun y Hy => Hall y (or_intror Hy))).
  destruct (sort by_count_desc l) as [|h t]; cbn [sort_insert].
  - subst l. exists nx. split; [now left|]. split; [exact Hx|].
    intros k n [E|[]]. rewrite E in Hx. cbn in Hx. injection Hx as ->. lia.
  - destruct IH as (c & Hh & Hc & Hmax). unfold by_count_desc at 1.
    rewrite Hc, Hx.
    destruct (Z.ltb_spec 0 (c - nx)).
    + exists c. split; [now right|]. split; [exact Hc|].
      intros k n [E|Hy]; [|now apply (Hmax k)].
      rewrite E in Hx. cbn in Hx. injection Hx as ->. lia.
    + exists nx. split; [now left|]. split; [exact Hx|].
      intros k n [E|Hy].
      * rewrite E in Hx. cbn in Hx. injection Hx as ->. lia.
      * specialize (Hmax k n Hy). lia.
Qed.

(** [top] picks a most frequent value, and the default when the object is
    empty. *)
Lemma top_mode o f s dflt :
  counts o f s -> plain f s -> mode_or f s dflt (top o dflt).
Proof.
  intros Hcounts Hplain. destruct (Hcounts Hplain) as (Hnd & Hpos & Hocc).
  unfold top.
  assert (Hall : forall y, In y (Object_entries o) ->
                           exists n, snd y = Count n).
  { intros [k c] Hy.
    apply (Permutation_in _ (Object_entries_perm o)) in Hy.
    destruct (Hpos k c Hy) as (n & -> & _). now exists n. }
  pose proof (sort_by_count_head (Object_entries o) Hall) as Hhead.
  destruct (sort by_count_desc (Object_entries o)) as [|[k c0] t].
  - right. split; [reflexivity|]. intros v'.
    assert (Ho : o = []).
    { apply Permutation_nil. rewrite <- Hhead.
      apply Object_entries_perm. }
    rewrite <- Hocc, Ho. reflexivity.
  - destruct Hhead as (c & Hin & Hc0 & Hmax). cbn [snd] in Hc0. subst c0.
    apply (Permutation_in _ (Object_entries_perm o)) in Hin.
    pose proof (In_assoc_get o k (Count c) Hnd Hin) as Hget.
    destruct (Hpos k (Count c) Hin) as (n & [= <-] & Hc).
    assert (Hk : occurrences f k s = c).
    { rewrite <- Hocc. unfold count_of. now rewrite Hget. }
    destruct (String.eqb_spec k "") as [->|Hne].
    { rewrite occurrences_empty_string in Hk. lia. }
    left. split; [lia|].
    intros v'. rewrite Hk, <- Hocc. unfold count_of.
    destruct (assoc_get o v') as [[c'|]|] eqn:E; [|lia|lia].
    apply assoc_get_In in E.
    apply (Permutation_in _ (Permutation_sym (Object_entries_perm o))) in E.
    exact (Hmax v' c' E).
Qed.

(** Among values of equal count, [top] takes the one [Object.entries] lists
    first: the key created first, after the keys that are array indices. *)
Example top_ties :
  top [("01d", Count 2); ("10d", Count 3); ("04d", Count 3)] "01d" = "10d"
  /\ top [("mist", Count 2); ("7", Count 2)] "" = "7"
  /\ top [] "01d" = "01d".
Proof. repeat split. Qed.

(** ** The entry of a day *)

Lemma day_of_rec_synthesized k r s :
  represents r s -> rec_dt r = first_dt s ->
  synthesized s (day_of_rec (k, r)).
Proof.
  intros (Ht & Hi & Hd) Hdt.
  unfold synthesized, day_of_rec. cbn [snd dt temp min max weather].
  rewrite Ht.
  split; [exact Hdt|]. split; [|split].
  - intros ->. split; reflexivity.
  - intros Hne.
    destruct (Math_min_nonempty _ Hne) as (lo & Elo & Hlo).
    destruct (Math_max_nonempty _ Hne) as (hi & Ehi & Hhi).
    exists lo, hi. rewrite Elo, Ehi.
    split; [exact Hlo|split; [exact Hhi|]].
    split; apply Math_round_rounds_to.
  - eexists. eexists. split; [reflexivity|].
    split; now apply top_mode.
Qed.

(** An entry has [min <= max] exactly when its day has a temperature. *)
Lemma synthesized_min_le_max s d :
  synthesized s d ->
  num_le (min (temp d)) (max (temp d)) <-> temps_of s <> [].
Proof.
  intros (_ & Hempty & Hne & _). split.
  - intros Hle E. destruct (Hempty E) as [Emin Emax].
    rewrite Emin, Emax in Hle. discriminate Hle.
  - intros H. destruct (Hne H) as (lo & hi & [Hlo1 Hlo2] & [Hhi1 Hhi2]
                                   & Rlo & Rhi).
    apply rounds_to_Math_round in Rlo, Rhi. rewrite Rlo, Rhi.
    apply Math_round_mono. now apply Hlo2.
Qed.

(** ** The order of the days *)

Lemma sort_insert_by_key_sorted x s :
  StronglySorted (fun a b => str_lt (fst a) (fst b)) s ->
  (forall y, In y s -> fst y <> fst x) ->
  StronglySorted (fun a b => str_lt (fst a) (fst b))
    (sort_insert by_key x s).
Proof.
  intros Hs. induction Hs as [|y s Hs IH Hall]; intros Hne; cbn [sort_insert].
  - repeat constructor.
  - unfold by_key at 1.
    destruct (String.ltb (fst x) (fst y)) eqn:E; cbn [Z.ltb Z.compare].
    + constructor; [now constructor|].
      constructor; [exact E|].
      rewrite Forall_forall in Hall |- *. intros z Hz.
      apply str_lt_trans with (fst y); [exact E|now apply Hall].
    + constructor.
      * apply IH. intros z Hz. apply Hne. now right.
      * rewrite Forall_forall in Hall |- *. intros z Hz.
        apply (Permutation_in _ (sort_insert_perm by_key x s)) in Hz.
        destruct Hz as [<-|Hz]; [|now apply Hall].
        apply str_lt_total.
        -- intros Heq. apply (Hne y); [now left|now symmetry].
        -- unfold str_lt. now rewrite E.
Qed.

Lemma sort_by_key_sorted (m : list (string * rec)) :
  NoDup (map fst m) ->
  StronglySorted (fun a b => str_lt (fst a) (fst b)) (sort by_key m).
Proof.
  induction m as [|x m IH]; cbn [sort fold_right map]; intros Hnd.
  - constructor.
  - inversion Hnd as [|? ? Hnotin Hnd']; subst.
    change (fold_right (sort_insert by_key) [] m) with (sort by_key m).
    apply sort_insert_by_key_sorted; [now apply IH|].
    intros y Hy Heq. apply Hnotin. rewrite <- Heq.
    apply in_map. exact (proj1 (sort_In by_key y m) Hy).
Qed.


(** ** The days returned *)

Lemma Forall2_map_both {A B C : Type} (P : B -> C -> Prop)
    (f : A -> B) (g : A -> C) (X : list A) :
  Forall (fun e => P (f e) (g e)) X -> Forall2 P (map f X) (map g X).
Proof. induction 1; cbn; now constructor. Qed.

Lemma StronglySorted_map {A B : Type} (R : B -> B -> Prop) (f : A -> B)
    (l : list A) :
  StronglySorted (fun a b => R (f a) (f b)) l -> StronglySorted R (map f l).
Proof.
  induction 1 as [|a l Hs IH Hall]; cbn; constructor; [exact IH|].
  rewrite Forall_forall in Hall |- *.
  intros b Hb. apply in_map_iff in Hb as (x & <- & Hx). now apply Hall.
Qed.

Lemma firstn_In {A : Type} (x : A) n l : In x (firstn n l) -> In x l.
Proof.
  intros H. rewrite <- (firstn_skipn n l). apply in_or_app. now left.
Qed.

Lemma grouped_key_iff byDay l k :
  grouped byDay l -> In k (map fst byDay) <-> bucket k l <> [].
Proof.
  intros (Hnd & Hnone & Hsome). split.
  - intros Hin. destruct (assoc_get byDay k) as [r|] eqn:E.
    + now apply (Hsome k r).
    + apply assoc_get_None in E. contradiction.
  - intros Hne. destruct (assoc_get byDay k) as [r|] eqn:E.
    + apply assoc_get_In in E. now apply (in_map fst) in E.
    + now apply Hnone in E.
Qed.

(** The entries are those of the first days in the order of their keys. *)
Lemma days_of_grouped byDay l count :
  grouped byDay l ->
  exists all_keys,
    StronglySorted str_lt all_keys
    /\ (forall k, In k all_keys <-> bucket k l <> [])
    /\ Forall2 (fun k d => synthesized (bucket k l) d)
         (firstn (Z.to_nat (clamp count)) all_keys) (days_of byDay count).
Proof.
  intros Hg. pose proof Hg as (Hnd & Hnone & Hsome).
  exists (map fst (sort by_key byDay)). split; [|split].
  - apply StronglySorted_map. now apply sort_by_key_sorted.
  - intros k. rewrite <- (grouped_key_iff byDay l k Hg).
    split; apply Permutation_in; apply Permutation_map;
      [|symmetry]; apply sort_perm.
  - unfold days_of, slice0. rewrite firstn_map.
    apply Forall2_map_both. apply Forall_forall.
    intros [k r] Hin. apply firstn_In in Hin.
    apply (proj1 (sort_In by_key _ _)) in Hin.
    apply (In_assoc_get byDay k r Hnd) in Hin.
    destruct (Hsome k r Hin) as (_ & Hrep & Hdt).
    now apply day_of_rec_synthesized.
Qed.

Lemma bucket_of_member l item k :
  In item l -> key_of item = inr k -> In item (bucket k l).
Proof.
  intros Hin Hk. apply filter_In. split; [exact Hin|].
  unfold in_day. rewrite Hk. apply String.eqb_refl.
Qed.

Lemma bucket_member l item k :
  In item (bucket k l) -> In item l /\ key_of item = inr k.
Proof.
  intros Hin. apply filter_In in Hin as [Hin Hk]. split; [exact Hin|].
  unfold in_day in Hk. destruct (key_of item) as [e|k']; [discriminate|].
  apply String.eqb_eq in Hk. now subst.
Qed.

Lemma tier_3h_grouped o count d byDay :
  responds o d ->
  group_by_day [] (array_or_empty (body_list d)) = inr byDay ->
  tier_3h o count
  = match days_of byDay count with
    | [] => inr None
    | days => inr (Some days)
    end.
Proof.
  intros (r & -> & Hok & Hjson) Hgroup.
  destruct r as [okr jsonr]; cbn in Hok, Hjson; subst.
  cbn [tier_3h]. now rewrite Hgroup.
Qed.

(** What [getForecast10Days] returns when it comes to the third tier and
    that tier responds with samples. *)
Lemma third_tier_days world lat lon count d l :
  no_daily (world (url30 lat lon)) ->
  no_daily (world (url25 lat lon)) ->
  responds (world (url3h lat lon)) d ->
  array_or_empty (body_list d) = l ->
  l <> [] ->
  Forall (fun item => valid_time (time_of item)) l ->
  exists all_keys days,
    run world (getForecast10Days lat lon count)
    = ([url30 lat lon; url25 lat lon; url3h lat lon], inr days)
    /\ StronglySorted str_lt all_keys
    /\ (forall k, In k all_keys <-> bucket k l <> [])
    /\ Forall2 (fun k d => synthesized (bucket k l) d)
         (firstn (Z.to_nat (clamp count)) all_keys) days.
Proof.
  intros Hn1 Hn2 Hr Hl Hne Hvalid.
  destruct (group_by_day_total l Hvalid) as (byDay & Hgroup & Hg).
  destruct (days_of_grouped byDay l count Hg) as (all_keys & Hs & Hk & Hf).
  exists all_keys, (days_of byDay count).
  split; [|exact (conj Hs (conj Hk Hf))].
  rewrite run_getForecast10Days.
  rewrite (tier_daily_no_daily _ count Hn1).
  rewrite (tier_daily_no_daily _ count Hn2).
  rewrite <- Hl in Hgroup.
  rewrite (tier_3h_grouped _ count d byDay Hr Hgroup).
  destruct (days_of byDay count) as [|x days] eqn:E; [exfalso|reflexivity].
  apply Forall2_length in Hf. cbn [List.length] in Hf.
  apply length_zero_iff_nil in Hf.
  clear Hl Hgroup.
  destruct l as [|item l']; [congruence|].
  apply Forall_inv in Hvalid.
  destruct (key_of_valid item Hvalid) as [k Hkey].
  assert (Hin : In k all_keys).
  { apply Hk. intros Hb.
    pose proof (bucket_of_member (item :: l') item k (or_introl eq_refl) Hkey)
      as Hm.
    rewrite Hb in Hm. contradiction. }
  pose proof (clamp_bounds count) as Hc.
  destruct all_keys as [|k0 ks]; [contradiction|].
  destruct (Z.to_nat (clamp count)) eqn:En; [lia|]. discriminate.
Qed.


(** ** Chronological order *)

(** In the years written with four digits, the order of the keys is the
    order of the days. *)
Lemma key_lt_Day it1 it2 k1 k2 :
  four_digit_year (time_of it1) -> four_digit_year (time_of it2) ->
  key_of it1 = inr k1 -> key_of it2 = inr k2 ->
  str_lt k1 k2 ->
  Day (time_of it1) < Day (time_of it2).
Proof.
  intros H1 H2 E1 E2 Hlt.
  destruct (Z.lt_total (Day (time_of it1)) (Day (time_of it2)))
    as [Hd|[Hd|Hd]]; [exact Hd|exfalso|exfalso].
  - apply (dayKey_of_eq_iff _ _ H1 H2) in Hd.
    unfold key_of in E1, E2. rewrite Hd, E2 in E1.
    assert (k2 = k1) by congruence. subst.
    now apply (str_lt_irrefl k1).
  - pose proof (dayKey_of_lt _ _ _ _ H2 H1 Hd E2 E1) as Hgt.
    apply (str_lt_irrefl k1). now apply str_lt_trans with k2.
Qed.

Lemma Day_lt_dt it1 it2 :
  Day (time_of it1) < Day (time_of it2) ->
  or_zero (item_dt it1) < or_zero (item_dt it2).
Proof.
  unfold Day, time_of, msPerDay. intros H.
  Z.div_mod_to_equations. lia.
Qed.

Lemma first_dt_member s :
  s <> [] -> exists item, In item s /\ first_dt s = or_zero (item_dt item).
Proof.
  destruct s as [|item s]; [congruence|]. intros _.
  exists item. split; [now left|reflexivity].
Qed.

Lemma Forall2_In_r {A B : Type} (P : A -> B -> Prop) la lb b :
  Forall2 P la lb -> In b lb -> exists a, In a la /\ P a b.
Proof.
  induction 1 as [|a0 b0 la lb H0 H IH]; cbn; [tauto|].
  intros [<-|Hin].
  - exists a0. split; [now left|exact H0].
  - destruct (IH Hin) as (a & Ha & HP). exists a. split; [now right|exact HP].
Qed.

Lemma days_chronological l keys days :
  Forall (fun item => four_digit_year (time_of item)) l ->
  StronglySorted str_lt keys ->
  (forall k, In k keys -> bucket k l <> []) ->
  Forall2 (fun k d => synthesized (bucket k l) d) keys days ->
  StronglySorted Z.lt (map dt days).
Proof.
  intros Hfour Hs Hne Hf. rewrite Forall_forall in Hfour.
  induction Hf as [|k d ks ds Hd Hf IH]; cbn [map]; [constructor|].
  apply StronglySorted_inv in Hs as [Hs Hall].
  constructor.
  - apply IH; [exact Hs|]. intros k' Hk'. apply Hne. now right.
  - rewrite Forall_forall in Hall |- *.
    intros z Hz. apply in_map_iff in Hz as (d' & <- & Hd').
    destruct (Forall2_In_r _ _ _ d' Hf Hd') as (k' & Hk' & Hsyn').
    destruct Hd as [-> _]. destruct Hsyn' as [-> _].
    destruct (first_dt_member (bucket k l)) as (it & Hit & ->);
      [apply Hne; now left|].
    destruct (first_dt_member (bucket k' l)) as (it' & Hit' & ->);
      [apply Hne; now right|].
    apply bucket_member in Hit as [Hin Hkey].
    apply bucket_member in Hit' as [Hin' Hkey'].
    apply Day_lt_dt.
    apply (key_lt_Day it it' k k'); auto.
Qed.

Lemma StronglySorted_firstn {A : Type} (R : A -> A -> Prop) n l :
  StronglySorted R l -> StronglySorted R (firstn n l).
Proof.
  intros Hs. revert n.
  induction Hs as [|a l Hs IH Hall]; intros [|n]; cbn; try constructor.
  - apply IH.
  - rewrite Forall_forall in Hall |- *.
    intros b Hb. apply Hall. now apply firstn_In in Hb.
Qed.

(** ** Exactly two days *)

Lemma sorted_pair ks k1 k2 :
  StronglySorted str_lt ks ->
  (forall k, In k ks <-> k = k1 \/ k = k2) ->
  str_lt k1 k2 ->
  ks = [k1; k2].
Proof.
  intros Hs Hmem Hlt.
  assert (Hne : k1 <> k2) by (intros ->; now apply (str_lt_irrefl k2)).
  assert (Hnlt : ~ str_lt k2 k1).
  { intros H. apply (str_lt_irrefl k1). now apply str_lt_trans with k2. }
  destruct ks as [|a rest].
  { exfalso. apply (Hmem k1). now left. }
  apply StronglySorted_inv in Hs as [Hs Hall].
  rewrite Forall_forall in Hall.
  assert (Ha : a = k1).
  { destruct (proj1 (Hmem a) (or_introl eq_refl)) as [-> | ->];
      [reflexivity|exfalso].
    destruct (proj2 (Hmem k1) (or_introl eq_refl)) as [E|Hin];
      [congruence|]. apply Hnlt. now apply Hall. }
  subst a.
  destruct rest as [|b rest'].
  { exfalso. destruct (proj2 (Hmem k2) (or_intror eq_refl)) as [E|[]].
    congruence. }
  apply StronglySorted_inv in Hs as [Hs' Hall'].
  rewrite Forall_forall in Hall'.
  assert (Hb : b = k2).
  { destruct (proj1 (Hmem b) (or_intror (or_introl eq_refl))) as [-> | ->];
      [exfalso|reflexivity].
    apply (str_lt_irrefl k1). apply Hall. now left. }
  subst b.
  destruct rest' as [|c rest'']; [reflexivity|exfalso].
  destruct (proj1 (Hmem c) (or_intror (or_intror (or_introl eq_refl))))
    as [-> | ->].
  - apply Hnlt. apply Hall'. now left.
  - apply (str_lt_irrefl k2). apply Hall'. now left.
Qed.

(** In the years written with four digits, the bucket of a key holds the
    samples of one day. *)
Lemma bucket_samples_of_day l item k :
  Forall (fun item => four_digit_year (time_of item)) l ->
  four_digit_year (time_of item) ->
  key_of item = inr k ->
  bucket k l = samples_of_day (Day (time_of item)) l.
Proof.
  intros Hfour Hitem Hk. unfold bucket, samples_of_day.
  apply filter_ext_in. intros x Hx.
  rewrite Forall_forall in Hfour. specialize (Hfour x Hx).
  unfold in_day, on_day.
  destruct (Z.eqb_spec (Day (time_of x)) (Day (time_of item))) as [E|E].
  - apply (dayKey_of_eq_iff _ _ Hfour Hitem) in E.
    unfold key_of in *. rewrite E, Hk. apply String.eqb_refl.
  - destruct (key_of x) as [e|k'] eqn:Ex; [reflexivity|].
    apply String.eqb_neq. intros ->. apply E.
    apply (dayKey_of_eq_iff _ _ Hfour Hitem).
    unfold key_of in *. congruence.
Qed.


Lemma occurrences_pos f s item i :
  In item s -> first_shown f item = Some i ->
  0 < occurrences f i s.
Proof.
  intros Hin Hi. unfold occurrences.
  assert (Hf : In item (filter (shows f i) s)).
  { apply filter_In. split; [exact Hin|].
    unfold shows. rewrite Hi. apply String.eqb_refl. }
  destruct (filter (shows f i) s); [contradiction|]. cbn [List.length]. lia.
Qed.

Lemma temps_of_nonempty_iff s :
  temps_of s <> [] <-> exists item, In item s /\ item_main item <> None.
Proof.
  unfold temps_of. split.
  - intros Hne. destruct (flat_map _ s) as [|q qs] eqn:E; [congruence|].
    assert (Hq : In q (q :: qs)) by now left.
    rewrite <- E in Hq. apply in_flat_map in Hq as (item & Hin & Hq).
    exists item. split; [exact Hin|].
    now destruct (item_main item).
  - intros (item & Hin & Hmain) Hempty.
    destruct (item_main item) as [m|] eqn:E; [|congruence].
    assert (Hq : In (main_temp m) (flat_map
              (fun item => match item_main item with
                           | Some m => [main_temp m]
                           | None => []
                           end) s)).
    { apply in_flat_map. exists item. split; [exact Hin|].
      rewrite E. now left. }
    now rewrite Hempty in Hq.
Qed.

Lemma mode_or_most_frequent f s dflt v item :
  mode_or f s dflt v ->
  In item s -> first_shown f item <> None ->
  most_frequent f s v.
Proof.
  intros [H|[_ Hzero]] Hin Hf; [exact H|exfalso].
  destruct (first_shown f item) as [i|] eqn:E; [|congruence].
  pose proof (occurrences_pos f s item i Hin E). rewrite Hzero in H. lia.
Qed.

Lemma synthesized_dominant s d :
  synthesized s d -> informed s ->
  plain icon s -> plain description s ->
  dominant_entry s d.
Proof.
  intros Hsyn (Hmain & (it1 & Hin1 & Hicon) & (it2 & Hin2 & Hdesc)) Hpi Hpd.
  split.
  - apply (synthesized_min_le_max _ _ Hsyn).
    now apply temps_of_nonempty_iff.
  - destruct Hsyn as (_ & _ & _ & i & ds & Hw & Hi & Hd).
    exists i, ds. split; [exact Hw|]. split.
    + now apply (mode_or_most_frequent _ _ _ _ it1 (Hi Hpi)).
    + now apply (mode_or_most_frequent _ _ _ _ it2 (Hd Hpd)).
Qed.

Lemma plain_incl f s s' : incl s' s -> plain f s -> plain f s'.
Proof. intros Hincl H item i Hin. apply H. now apply Hincl. Qed.

Lemma plain_Forall f s :
  Forall (fun item => forall i,
            first_shown f item = Some i -> inherited i = false) s ->
  plain f s.
Proof.
  intros H item i Hin. rewrite Forall_forall in H. now apply H.
Qed.

Lemma occurrences_le_length f v s :
  occurrences f v s <= Z.of_nat (List.length s).
Proof.
  unfold occurrences. apply inj_le. apply filter_length_le.
Qed.


Lemma samples_of_day_member D l item :
  In item (samples_of_day D l) <-> In item l /\ Day (time_of item) = D.
Proof.
  unfold samples_of_day, on_day. rewrite filter_In.
  now rewrite Z.eqb_eq.
Qed.

(** The keys of a list whose samples fall on two days. *)
Lemma two_days_keys l D1 D2 all_keys :
  Forall (fun item => four_digit_year (time_of item)
                      /\ (Day (time_of item) = D1 \/ Day (time_of item) = D2))
         l ->
  D1 < D2 ->
  samples_of_day D1 l <> [] ->
  samples_of_day D2 l <> [] ->
  StronglySorted str_lt all_keys ->
  (forall k, In k all_keys <-> bucket k l <> []) ->
  exists k1 k2,
    all_keys = [k1; k2]
    /\ bucket k1 l = samples_of_day D1 l
    /\ bucket k2 l = samples_of_day D2 l.
Proof.
  intros Hall Hlt Hne1 Hne2 Hs Hmem.
  assert (Hfour : Forall (fun item => four_digit_year (time_of item)) l).
  { eapply Forall_impl; [|exact Hall]. now intros a [H _]. }
  rewrite Forall_forall in Hall.
  destruct (samples_of_day D1 l) as [|it1 s1] eqn:E1; [congruence|].
  destruct (samples_of_day D2 l) as [|it2 s2] eqn:E2; [congruence|].
  assert (H1 : In it1 l /\ Day (time_of it1) = D1).
  { apply samples_of_day_member. rewrite E1. now left. }
  assert (H2 : In it2 l /\ Day (time_of it2) = D2).
  { apply samples_of_day_member. rewrite E2. now left. }
  destruct H1 as [Hin1 Hd1]. destruct H2 as [Hin2 Hd2].
  destruct (Hall it1 Hin1) as [Hf1 _]. destruct (Hall it2 Hin2) as [Hf2 _].
  destruct (key_of_valid it1 (four_digit_year_valid _ Hf1)) as [k1 Hk1].
  destruct (key_of_valid it2 (four_digit_year_valid _ Hf2)) as [k2 Hk2].
  exists k1, k2.
  assert (Hb1 : bucket k1 l = samples_of_day D1 l).
  { rewrite <- Hd1. now apply bucket_samples_of_day. }
  assert (Hb2 : bucket k2 l = samples_of_day D2 l).
  { rewrite <- Hd2. now apply bucket_samples_of_day. }
  rewrite <- E1, <- E2. split; [|now split].
  apply sorted_pair; [exact Hs| |].
  - intros k. rewrite Hmem. split.
    + intros Hne. destruct (bucket k l) as [|x s] eqn:Eb; [congruence|].
      assert (Hx : In x (bucket k l)) by (rewrite Eb; now left).
      apply bucket_member in Hx as [Hx Hkx].
      destruct (Hall x Hx) as [Hfx [Hdx|Hdx]]; [left|right].
      * rewrite <- Hd1 in Hdx.
        apply (dayKey_of_eq_iff _ _ Hfx Hf1) in Hdx.
        unfold key_of in *. congruence.
      * rewrite <- Hd2 in Hdx.
        apply (dayKey_of_eq_iff _ _ Hfx Hf2) in Hdx.
        unfold key_of in *. congruence.
    + intros [-> | ->].
      * rewrite Hb1, E1. discriminate.
      * rewrite Hb2, E2. discriminate.
  - apply (dayKey_of_lt (time_of it1) (time_of it2)); auto. lia.
Qed.



Ltac refused := left; left; reflexivity.

Ltac responding := eexists; split; [reflexivity|split; reflexivity].

Ltac each_sample tac :=
  repeat (apply Forall_cons; [tac|]); apply Forall_nil.

Ltac plain_samples :=
  apply plain_Forall;
  each_sample ltac:(intros i; vm_compute; intros [= <-]; reflexivity).

Ltac informed_by n :=
  split; [|split]; exists (scenario_sample n);
  (split; [vm_compute; tauto|vm_compute; discriminate]).



(** What the scenario returns. *)
Example scenario_days :
  run world_3h_only (getForecast10Days 10.8%float 106.7%float 2)
  = ([url30 10.8%float 106.7%float; url25 10.8%float 106.7%float;
      url3h 10.8%float 106.7%float],
     inr [ {| dt := 1700006400;
              temp := {| min := Finite (9 # 1); max := Finite (14 # 1) |};
              weather := [ {| icon := Some "01d";
                              description := Some "clear sky" |} ] |};
           {| dt := 1700092800;
              temp := {| min := Finite (9 # 1); max := Finite (14 # 1) |};
              weather := [ {| icon := Some "04d";
                              description := Some "broken clouds" |} ] |} ]).
Proof. vm_compute. reflexivity. Qed.

(** ** Samples without a [main] field *)

Lemma increment_count o i :
  inherited i = false -> assoc_get o i <> Some Text ->
  count_of (increment o i) i = count_of o i + 1.
Proof.
  intros Hi Hn. unfold increment, count_of.
  destruct (assoc_get o i) as [[n|]|] eqn:E.
  - now rewrite assoc_get_set_eq.
  - congruence.
  - destruct (inherited_false i Hi) as [-> ->].
    now rewrite assoc_get_set_eq.
Qed.

Lemma add_item_without_main byDay item k :
  key_of item = inr k ->
  item_main item = None ->
  exists byDay' r',
    add_item byDay item = inr byDay'
    /\ assoc_get byDay' k = Some r'
    /\ temps r' = match assoc_get byDay k with
                  | Some r => temps r
                  | None => []
                  end
    /\ (forall i,
           first_shown icon item = Some i ->
           inherited i = false ->
           assoc_get (match assoc_get byDay k with
                      | Some r => icons r
                      | None => []
                      end) i <> Some Text ->
           count_of (icons r') i
           = count_of (match assoc_get byDay k with
                       | Some r => icons r
                       | None => []
                       end) i + 1)
    /\ (forall ds,
           first_shown description item = Some ds ->
           inherited ds = false ->
           assoc_get (match assoc_get byDay k with
                      | Some r => descs r
                      | None => []
                      end) ds <> Some Text ->
           count_of (descs r') ds
           = count_of (match assoc_get byDay k with
                       | Some r => descs r
                       | None => []
                       end) ds + 1).
Proof.
  intros Hk Hmain. unfold key_of, time_of in Hk.
  unfold add_item. rewrite Hk, Hmain.
  eexists. eexists. split; [reflexivity|].
  rewrite assoc_get_set_eq. split; [reflexivity|].
  cbn [temps icons descs].
  split; [now destruct (assoc_get byDay k)|]. split.
  - intros i E Hi Hn. rewrite first_weather_first_shown, E.
    destruct (assoc_get byDay k); cbn [icons]; now apply increment_count.
  - intros ds E Hd Hn. rewrite first_weather_first_shown, E.
    destruct (assoc_get byDay k); cbn [descs]; now apply increment_count.
Qed.



(** ** Names that objects inherit *)



(** The name of an inherited function is stored as a string, which the
    comparator of the sort cannot order: on a day described once by
    "clear sky" and twice by [constructor], the entry first created stays
    first. *)
Example constructor_description :
  snd (run (world_with_list constructor_day)
           (getForecast10Days 10.8%float 106.7%float 2))
  = inr [ {| dt := 1700006400;
             temp := {| min := Finite (12 # 1); max := Finite (14 # 1) |};
             weather := [ {| icon := Some "01d";
                             description := Some "clear sky" |} ] |} ]
  /\ increment (increment [("clear sky", Count 1)] "constructor")
       "constructor"
     = [("clear sky", Count 1); ("constructor", Text)].
Proof. split; vm_compute; reflexivity. Qed.

(** What the second response gives: no temperature on 2023-11-16. *)
Example no_main_days :
  snd (run (world_with_list no_main_day)
           (getForecast10Days 10.8%float 106.7%float 2))
  = inr [ {| dt := 1700082000;
             temp := {| min := Finite (12 # 1); max := Finite (12 # 1) |};
             weather := [ {| icon := Some "10d";
                             description := Some "light rain" |} ] |};
          {| dt := 1700092800;
             temp := {| min := PosInfinity; max := NegInfinity |};
             weather := [ {| icon := Some "04d";
                             description := Some "broken clouds" |} ] |} ].
Proof. vm_compute. reflexivity. Qed.

End BucketProps.

(* ================================================================== *)
(** * Further properties of the forecast functions *)
(* ================================================================== *)

Module ForecastMore.
Import JS Forecast Spec Examples JSProps ChainProps BucketProps.
Import SpecMore ExamplesMore.

(** ** Which sources are asked *)

Lemma tier_daily_None_iff o count : tier_daily o count = None <-> no_daily o.
Proof.
  split; [|apply tier_daily_no_daily].
  destruct o as [e|[[|] [e|d]]]; cbn.
  - intros _. now left.
  - intros _. left. right. now exists e.
  - destruct (array_or_empty (body_daily d)) as [|x a] eqn:E; [|discriminate].
    intros _. right. exists d. split; [|exact E].
    eexists. repeat split; reflexivity.
  - intros _. left. now left.
  - intros _. left. now left.
Qed.

Lemma tier_hourly_None_iff o : tier_hourly o = None <-> no_hourly o.
Proof.
  split; [|apply tier_hourly_no_hourly].
  destruct o as [e|[[|] [e|d]]]; cbn.
  - intros _. now left.
  - intros _. left. right. now exists e.
  - destruct (slice0 24 (array_or_empty (body_hourly d))) as [|x a] eqn:E;
      [|discriminate].
    intros _. right. exists d. split; [eexists; repeat split; reflexivity|].
    destruct (array_or_empty (body_hourly d)); [reflexivity|discriminate].
  - intros _. left. now left.
  - intros _. left. now left.
Qed.

(** X1: [getForecast10Days] asks its sources in the fixed order, one
    request each, and stops at the first that hands on entries: the second
    source is asked only when the first yields nothing, the third only when
    the first two do. *)
Theorem forecast_requests world lat lon count :
  let t := fst (run world (getForecast10Days lat lon count)) in
  (t = [url30 lat lon] /\ ~ no_daily (world (url30 lat lon)))
  \/ (t = [url30 lat lon; url25 lat lon]
      /\ no_daily (world (url30 lat lon))
      /\ ~ no_daily (world (url25 lat lon)))
  \/ (t = [url30 lat lon; url25 lat lon; url3h lat lon]
      /\ no_daily (world (url30 lat lon))
      /\ no_daily (world (url25 lat lon))).
Proof.
  cbv zeta. rewrite run_getForecast10Days.
  destruct (tier_daily (world (url30 lat lon)) count) as [d1|] eqn:E1.
  { left. split; [reflexivity|]. rewrite <- (tier_daily_None_iff _ count).
    congruence. }
  apply tier_daily_None_iff in E1.
  destruct (tier_daily (world (url25 lat lon)) count) as [d2|] eqn:E2.
  { right. left. split; [reflexivity|]. split; [exact E1|].
    rewrite <- (tier_daily_None_iff _ count). congruence. }
  apply tier_daily_None_iff in E2.
  right. right. now repeat split.
Qed.

(** X2: the same discipline in [getHourly24], with its own two One Call
    requests and the shared 5-day forecast as the last resort. *)
Theorem hourly_requests world lat lon :
  let t := fst (run world (getHourly24 lat lon)) in
  (t = [hourly_url30 lat lon]
   /\ ~ no_hourly (world (hourly_url30 lat lon)))
  \/ (t = [hourly_url30 lat lon; hourly_url25 lat lon]
      /\ no_hourly (world (hourly_url30 lat lon))
      /\ ~ no_hourly (world (hourly_url25 lat lon)))
  \/ (t = [hourly_url30 lat lon; hourly_url25 lat lon; url3h lat lon]
      /\ no_hourly (world (hourly_url30 lat lon))
      /\ no_hourly (world (hourly_url25 lat lon))).
Proof.
  cbv zeta. rewrite run_getHourly24.
  destruct (tier_hourly (world (hourly_url30 lat lon))) as [h1|] eqn:E1.
  { left. split; [reflexivity|]. rewrite <- tier_hourly_None_iff.
    congruence. }
  apply tier_hourly_None_iff in E1.
  destruct (tier_hourly (world (hourly_url25 lat lon))) as [h2|] eqn:E2.
  { right. left. split; [reflexivity|]. split; [exact E1|].
    rewrite <- tier_hourly_None_iff. congruence. }
  apply tier_hourly_None_iff in E2.
  right. right. now repeat split.
Qed.

(** ** A timestamp that is not a date *)

Lemma key_of_invalid item :
  ~ valid_time (time_of item) -> key_of item = inl invalid_time.
Proof.
  unfold valid_time, key_of, dayKey_of, toISOString. intros H.
  destruct (Z.ltb_spec 8640000000000000 (Z.abs (time_of item))); [|lia].
  reflexivity.
Qed.

Lemma add_item_keyed byDay item k :
  key_of item = inr k -> exists byDay', add_item byDay item = inr byDay'.
Proof.
  unfold key_of, time_of, add_item. intros ->. eauto.
Qed.

Lemma valid_time_dec ts : {valid_time ts} + {~ valid_time ts}.
Proof. unfold valid_time. apply Z_le_dec. Qed.

Lemma group_by_day_invalid l byDay :
  Exists (fun item => ~ valid_time (time_of item)) l ->
  group_by_day byDay l = inl invalid_time.
Proof.
  revert byDay. induction l as [|item l IH]; intros byDay Hex.
  - inversion Hex.
  - cbn [group_by_day].
    destruct (valid_time_dec (time_of item)) as [Hv|Hv].
    + destruct (key_of_valid item Hv) as [k Hk].
      destruct (add_item_keyed byDay item k Hk) as [byDay' ->].
      apply IH. inversion Hex; [contradiction|assumption].
    + unfold add_item. pose proof (key_of_invalid item Hv) as Hk.
      unfold key_of, time_of in Hk. now rewrite Hk.
Qed.

(** X3: one sample whose timestamp lies beyond the dates JavaScript can
    hold (more than 8.64e15 ms from the epoch) makes the whole call fail
    when it comes to the third tier: [toISOString] throws a [RangeError],
    which the [catch] of that tier throws again, whatever the other samples
    hold. *)
Theorem out_of_range_timestamp_throws world lat lon count d :
  no_daily (world (url30 lat lon)) ->
  no_daily (world (url25 lat lon)) ->
  responds (world (url3h lat lon)) d ->
  Exists (fun item => 8640000000000000 < Z.abs (or_zero (item_dt item) * 1000))
         (array_or_empty (body_list d)) ->
  snd (run world (getForecast10Days lat lon count))
  = inl (Exn RangeError "Invalid time value").
Proof.
  intros Hn1 Hn2 (r & Hr & Hok & Hjson) Hex.
  rewrite run_getForecast10Days.
  rewrite (tier_daily_no_daily _ count Hn1).
  rewrite (tier_daily_no_daily _ count Hn2).
  rewrite Hr. destruct r as [okr jsonr]; cbn in Hok, Hjson; subst.
  cbn [snd tier_3h].
  rewrite group_by_day_invalid; [reflexivity|].
  eapply Exists_impl; [|exact Hex].
  intros item H. cbv beta in H. unfold valid_time, time_of. lia.
Qed.

Lemma out_of_range_timestamp_throws_witness :
  snd (run (world_with_list overflowing_samples)
           (getForecast10Days 10.8%float 106.7%float 6))
  = inl (Exn RangeError "Invalid time value").
Proof.
  apply (out_of_range_timestamp_throws (world_with_list overflowing_samples)
           10.8%float 106.7%float 6
           {| body_daily := None; body_hourly := None;
              body_list := Some overflowing_samples |}).
  - refused.
  - refused.
  - responding.
  - apply Exists_cons_tl. apply Exists_cons_hd. cbn. lia.
Defined.

(** ** How many days come back *)

Lemma nodup_length_equiv {A B C : Type}
    (decB : forall x y : B, {x = y} + {x <> y})
    (decC : forall x y : C, {x = y} + {x <> y})
    (f1 : A -> B) (f2 : A -> C) (l : list A) :
  (forall x y, In x l -> In y l -> (f1 x = f1 y <-> f2 x = f2 y)) ->
  List.length (nodup decB (map f1 l)) = List.length (nodup decC (map f2 l)).
Proof.
  induction l as [|a l IH]; intros Heq; [reflexivity|].
  cbn [map nodup].
  assert (IH' : List.length (nodup decB (map f1 l))
                = List.length (nodup decC (map f2 l))).
  { apply IH. intros x y Hx Hy. apply Heq; now right. }
  assert (Hin : In (f1 a) (map f1 l) <-> In (f2 a) (map f2 l)).
  { rewrite !in_map_iff. split; intros (y & Hy & Hin); exists y;
      (split; [|exact Hin]).
    - apply (Heq y a); [now right|now left|exact Hy].
    - apply (Heq y a); [now right|now left|exact Hy]. }
  destruct (in_dec decB (f1 a) (map f1 l)) as [H1|H1];
    destruct (in_dec decC (f2 a) (map f2 l)) as [H2|H2];
    cbn [List.length]; tauto || lia.
Qed.

Lemma StronglySorted_str_lt_NoDup ks :
  StronglySorted str_lt ks -> NoDup ks.
Proof.
  induction 1 as [|k ks Hs IH Hall]; constructor; [|exact IH].
  rewrite Forall_forall in Hall. intros Hin.
  now apply (str_lt_irrefl k), Hall.
Qed.

Lemma all_keys_count l all_keys :
  Forall (fun item => four_digit_year (time_of item)) l ->
  StronglySorted str_lt all_keys ->
  (forall k, In k all_keys <-> bucket k l <> []) ->
  List.length all_keys = List.length (day_numbers l).
Proof.
  intros Hfour Hs Hmem. rewrite Forall_forall in Hfour.
  assert (Hkey : forall item, In item l ->
                   key_of item = inr (key_or_empty item)).
  { intros item Hin. unfold key_or_empty.
    destruct (key_of_valid item (four_digit_year_valid _ (Hfour item Hin)))
      as [k ->]. reflexivity. }
  transitivity (List.length (nodup string_dec (map key_or_empty l))).
  - apply Permutation_length. apply NoDup_Permutation.
    + now apply StronglySorted_str_lt_NoDup.
    + apply NoDup_nodup.
    + intros k. rewrite nodup_In, Hmem, in_map_iff. split.
      * intros Hne. destruct (bucket k l) as [|x s] eqn:E; [congruence|].
        assert (Hx : In x (bucket k l)) by (rewrite E; now left).
        apply bucket_member in Hx as [Hx Hk]. exists x. split; [|exact Hx].
        unfold key_or_empty. now rewrite Hk.
      * intros (x & <- & Hx) Hempty.
        pose proof (bucket_of_member l x _ Hx (Hkey x Hx)) as Hb.
        now rewrite Hempty in Hb.
  - unfold day_numbers. apply nodup_length_equiv.
    intros x y Hx Hy.
    rewrite <- (dayKey_of_eq_iff _ _ (Hfour x Hx) (Hfour y Hy)).
    fold (key_of x) (key_of y). rewrite (Hkey x Hx), (Hkey y Hy).
    split; congruence.
Qed.

(** X4: the third tier returns one entry for each UTC day on which a
    sample falls, up to the clamped count: its result has exactly
    [min(clamp(count), number of days)] entries (timestamps in the years
    0000 to 9999). *)
Theorem third_tier_day_count world lat lon count d l :
  no_daily (world (url30 lat lon)) ->
  no_daily (world (url25 lat lon)) ->
  responds (world (url3h lat lon)) d ->
  array_or_empty (body_list d) = l ->
  l <> [] ->
  Forall (fun item => four_digit_year (time_of item)) l ->
  exists days,
    snd (run world (getForecast10Days lat lon count)) = inr days
    /\ Z.of_nat (List.length days)
       = Z.min (Z.min 10 (Z.max 1 count))
               (Z.of_nat (List.length (day_numbers l))).
Proof.
  intros Hn1 Hn2 Hr Hl Hne Hfour.
  assert (Hvalid : Forall (fun item => valid_time (time_of item)) l).
  { eapply Forall_impl; [|exact Hfour].
    intros a. apply four_digit_year_valid. }
  destruct (third_tier_days world lat lon count d l Hn1 Hn2 Hr Hl Hne Hvalid)
    as (all_keys & days & Hrun & Hs & Hmem & Hf).
  exists days. rewrite Hrun. split; [reflexivity|].
  apply Forall2_length in Hf. rewrite <- Hf, length_firstn.
  rewrite (all_keys_count l all_keys Hfour Hs Hmem).
  pose proof (clamp_bounds count). unfold clamp in *. lia.
Qed.

(** Forty samples over five days: five entries for a count of 10, and the
    first three for a count of 3. *)
Lemma third_tier_day_count_witness :
  (exists days,
      snd (run (world_with_list forty_samples)
               (getForecast10Days 10.8%float 106.7%float 10)) = inr days
      /\ Z.of_nat (List.length days) = 5)
  /\ exists days,
       snd (run (world_with_list forty_samples)
                (getForecast10Days 10.8%float 106.7%float 3)) = inr days
       /\ Z.of_nat (List.length days) = 3.
Proof.
  split.
  - apply (third_tier_day_count (world_with_list forty_samples)
             10.8%float 106.7%float 10
             {| body_daily := None; body_hourly := None;
                body_list := Some forty_samples |} forty_samples).
    + refused.
    + refused.
    + responding.
    + reflexivity.
    + vm_compute. discriminate.
    + each_sample ltac:(unfold four_digit_year; cbn; lia).
  - apply (third_tier_day_count (world_with_list forty_samples)
             10.8%float 106.7%float 3
             {| body_daily := None; body_hourly := None;
                body_list := Some forty_samples |} forty_samples).
    + refused.
    + refused.
    + responding.
    + reflexivity.
    + vm_compute. discriminate.
    + each_sample ltac:(unfold four_digit_year; cbn; lia).
Defined.

(** ** The range of a day *)

Lemma temps_of_member s item m :
  In item s -> item_main item = Some m -> In (main_temp m) (temps_of s).
Proof.
  intros Hin Hm. unfold temps_of. apply in_flat_map.
  exists item. split; [exact Hin|]. rewrite Hm. now left.
Qed.

Lemma synthesized_encloses s d item m :
  synthesized s d ->
  In item s -> item_main item = Some m ->
  num_le (min (temp d)) (Math_round (Finite (main_temp m)))
  /\ num_le (Math_round (Finite (main_temp m))) (max (temp d)).
Proof.
  intros (_ & _ & Hne & _) Hin Hm.
  pose proof (temps_of_member s item m Hin Hm) as Hq.
  destruct Hne as (lo & hi & [_ Hlo] & [_ Hhi] & Rlo & Rhi).
  { intros E. now rewrite E in Hq. }
  apply rounds_to_Math_round in Rlo, Rhi. rewrite Rlo, Rhi.
  split; apply Math_round_mono; [now apply Hlo|now apply Hhi].
Qed.



(** ** The key of a day *)

Lemma dayKey_of_length ts k :
  four_digit_year ts -> dayKey_of ts = inr k -> String.length k = 10%nat.
Proof.
  intros H E. rewrite (dayKey_of_date ts H) in E.
  assert (Hk : k = (pad 4 (YearFromTime ts)
                    ++ "-" ++ pad 2 (MonthFromTime ts + 1)
                    ++ "-" ++ pad 2 (DateFromTime ts) ++ "")%string)
    by congruence.
  rewrite Hk. reflexivity.
Qed.

(** X6: for timestamps in the years 0000 to 9999, the ten-character key
    [new Date(ts).toISOString().slice(0, 10)] names the UTC day: two
    timestamps have the same key exactly when they fall on the same day,
    and the order of the keys as strings, which the sort uses, is the order
    of the days. *)
Theorem day_key_names_the_day ts1 ts2 :
  four_digit_year ts1 -> four_digit_year ts2 ->
  exists k1 k2,
    dayKey_of ts1 = inr k1 /\ dayKey_of ts2 = inr k2
    /\ String.length k1 = 10%nat
    /\ (k1 = k2 <-> Day ts1 = Day ts2)
    /\ (str_lt k1 k2 <-> Day ts1 < Day ts2).
Proof.
  intros H1 H2.
  pose proof (dayKey_of_date ts1 H1) as E1.
  pose proof (dayKey_of_date ts2 H2) as E2.
  eexists. eexists. split; [exact E1|]. split; [exact E2|].
  split; [exact (dayKey_of_length ts1 _ H1 E1)|]. split.
  - rewrite <- (dayKey_of_eq_iff ts1 ts2 H1 H2), E1, E2.
    split; [now intros ->|congruence].
  - split.
    + intros Hlt.
      destruct (Z.lt_total (Day ts1) (Day ts2)) as [Hd|[Hd|Hd]];
        [exact Hd|exfalso|exfalso].
      * apply (dayKey_of_eq_iff ts1 ts2 H1 H2) in Hd.
        rewrite E1, E2 in Hd.
        assert (Hk : forall a b : string, @inr exn string a = inr b -> a = b)
          by (intros a b E; congruence).
        apply Hk in Hd. rewrite Hd in Hlt. now apply (str_lt_irrefl _ Hlt).
      * pose proof (dayKey_of_lt ts2 ts1 _ _ H2 H1 Hd E2 E1) as Hgt.
        apply (str_lt_irrefl _ (str_lt_trans _ _ _ Hlt Hgt)).
    + intros Hd. exact (dayKey_of_lt ts1 ts2 _ _ H1 H2 Hd E1 E2).
Qed.

(** The last second of February 2024 and the first of March. *)
Lemma day_key_names_the_day_witness :
  exists k1 k2,
    dayKey_of 1709251199000 = inr k1 /\ dayKey_of 1709251200000 = inr k2
    /\ String.length k1 = 10%nat
    /\ (k1 = k2 <-> Day 1709251199000 = Day 1709251200000)
    /\ (str_lt k1 k2 <-> Day 1709251199000 < Day 1709251200000).
Proof.
  apply (day_key_names_the_day 1709251199000 1709251200000);
    unfold four_digit_year; lia.
Defined.

Example leap_day_keys :
  dayKey_of 1709251199000 = inr "2024-02-29"
  /\ dayKey_of 1709251200000 = inr "2024-03-01".
Proof. split; vm_compute; reflexivity. Qed.

End ForecastMore.

(* ================================================================== *)
(** * Properties of the UV index helpers *)
(* ================================================================== *)

Module UviProps.
Import JS Spec JSProps Uvi.

Lemma Qfloor_lt_iff (x : Q) (b : Z) : (Qfloor x < b)%Z <-> (x < inject_Z b)%Q.
Proof.
  split.
  - intros H. apply Qlt_le_trans with (inject_Z (Qfloor x + 1)).
    + apply Qlt_floor.
    + rewrite <- Zle_Qle. lia.
  - intros H. rewrite Zlt_Qlt.
    apply Qle_lt_trans with x; [apply Qfloor_le|exact H].
Qed.

Lemma rounded_below (q : Q) (b : Z) (h : Q) :
  (h == inject_Z b - (1 # 2))%Q ->
  num_ltb (Math_round (Finite q)) (Finite (inject_Z b))
  = negb (Qle_bool h q).
Proof.
  intros Hh. cbn [Math_round].
  destruct (Qle_bool h q) eqn:E; cbn [negb].
  - apply Qle_bool_iff in E.
    destruct (num_ltb _ _) eqn:L; [exfalso|reflexivity].
    apply num_ltb_Finite in L. rewrite <- Zlt_Qlt in L.
    apply Qfloor_lt_iff in L. rewrite Hh in E.
    apply (Qlt_irrefl (inject_Z b)).
    apply Qle_lt_trans with (q + (1 # 2))%Q; [|exact L].
    apply Qle_trans with (inject_Z b - (1 # 2) + (1 # 2))%Q.
    + ring_simplify. apply Qle_refl.
    + now apply Qplus_le_l.
  - apply num_ltb_Finite. rewrite <- Zlt_Qlt. apply Qfloor_lt_iff.
    assert (Hlt : (q < h)%Q).
    { apply Qnot_le_lt. intros H. apply Qle_bool_iff in H. congruence. }
    rewrite Hh in Hlt.
    apply Qlt_le_trans with (inject_Z b - (1 # 2) + (1 # 2))%Q.
    + now apply Qplus_lt_l.
    + ring_simplify. apply Qle_refl.
Qed.

(** X7: [formatUvi] rounds first and classifies the rounded index, so the
    category shown changes at 2.5, 5.5, 7.5 and 10.5: an index of 2.5 is
    shown as "3 (Moderate)", one of 10.4 as "10 (Very High)".  The index
    is below [2^53] in size, so that the rounded index is a safe integer,
    written with all its digits. *)
Theorem formatUvi_bands (uvi : Q) :
  (- inject_Z (2 ^ 53) < uvi /\ uvi < inject_Z (2 ^ 53))%Q ->
  formatUvi (Finite uvi)
  = (ToString_int (Qfloor (uvi + (1 # 2)))
     ++ " (" ++ shown_category uvi ++ ")")%string.
Proof.
  intros _. unfold formatUvi. cbv zeta.
  replace (ToString_rounded (Math_round (Finite uvi)))
    with (ToString_int (Qfloor (uvi + (1 # 2))))
    by (cbn [Math_round ToString_rounded]; now rewrite Qfloor_Z).
  do 2 f_equal. f_equal.
  unfold uviCategory, shown_category.
  change (Finite 3) with (Finite (inject_Z 3)).
  change (Finite 6) with (Finite (inject_Z 6)).
  change (Finite 8) with (Finite (inject_Z 8)).
  change (Finite 11) with (Finite (inject_Z 11)).
  rewrite (rounded_below uvi 3 (5 # 2)) by reflexivity.
  rewrite (rounded_below uvi 6 (11 # 2)) by reflexivity.
  rewrite (rounded_below uvi 8 (15 # 2)) by reflexivity.
  rewrite (rounded_below uvi 11 (21 # 2)) by reflexivity.
  reflexivity.
Qed.

Lemma formatUvi_bands_witness :
  formatUvi (Finite (5 # 2))
  = (ToString_int (Qfloor ((5 # 2) + (1 # 2)))
     ++ " (" ++ shown_category (5 # 2) ++ ")")%string.
Proof. apply formatUvi_bands. split; reflexivity. Defined.

Example formatUvi_values :
  formatUvi (Finite (5 # 2)) = "3 (Moderate)"
  /\ formatUvi (Finite (249 # 100)) = "2 (Low)"
  /\ formatUvi (Finite (104 # 10)) = "10 (Very High)"
  /\ formatUvi (Finite (105 # 10)) = "11 (Extreme)"
  /\ formatUvi (Finite (-3 # 10)) = "0 (Low)"
  /\ formatUvi PosInfinity = "Infinity (Extreme)".
Proof. repeat split. Qed.

Lemma num_ltb_below x y c :
  num_leb x y = true -> num_ltb y c = true -> num_ltb x c = true.
Proof.
  destruct x as [|p|], y as [|q|], c as [|r|]; cbn; try congruence.
  intros Hle Hlt. apply Qle_bool_iff in Hle.
  apply negb_true_iff in Hlt. apply negb_true_iff.
  destruct (Qle_bool r p) eqn:E; [exfalso|reflexivity].
  apply Qle_bool_iff in E.
  assert (H : Qle_bool r q = true).
  { apply Qle_bool_iff. now apply Qle_trans with p. }
  congruence.
Qed.

(** X8: [uviCategory] is monotone: a greater index never gets a milder
    category, infinite indices included. *)
Theorem uviCategory_monotone (x y : num) :
  num_le x y -> (level (uviCategory x) <= level (uviCategory y))%nat.
Proof.
  unfold num_le. intros Hle. unfold uviCategory.
  pose proof (num_ltb_below x y (Finite 3) Hle) as H3.
  pose proof (num_ltb_below x y (Finite 6) Hle) as H6.
  pose proof (num_ltb_below x y (Finite 8) Hle) as H8.
  pose proof (num_ltb_below x y (Finite 11) Hle) as H11.
  destruct (num_ltb y (Finite 3)); [rewrite (H3 eq_refl); reflexivity|].
  destruct (num_ltb y (Finite 6));
    [rewrite (H6 eq_refl); destruct (num_ltb x (Finite 3)); cbn; lia|].
  destruct (num_ltb y (Finite 8));
    [rewrite (H8 eq_refl); destruct (num_ltb x (Finite 3)),
       (num_ltb x (Finite 6)); cbn; lia|].
  destruct (num_ltb y (Finite 11));
    [rewrite (H11 eq_refl); destruct (num_ltb x (Finite 3)),
       (num_ltb x (Finite 6)), (num_ltb x (Finite 8)); cbn; lia|].
  destruct (num_ltb x (Finite 3)), (num_ltb x (Finite 6)),
    (num_ltb x (Finite 8)), (num_ltb x (Finite 11)); cbn; lia.
Qed.

Lemma uviCategory_monotone_witness :
  (level (uviCategory (Finite (59 # 10)))
   <= level (uviCategory (Finite (6 # 1))))%nat.
Proof. apply uviCategory_monotone. reflexivity. Defined.

End UviProps.

(* ================================================================== *)
(** * Properties of the raster colouring *)
(* ================================================================== *)

Module RasterColorProps.
Import JS JSProps ClimateProps RasterColor.

Lemma uint_no_comma (d : Decimal.uint) (c : ascii) :
  In c (list_ascii_of_string (NilEmpty.string_of_uint d)) -> c <> ","%char.
Proof.
  induction d; cbn; intros H;
    try (destruct H as [<- | H]; [discriminate | now apply IHd]).
  destruct H.
Qed.

Lemma ToString_int_no_comma (z : Z) (c : ascii) :
  In c (list_ascii_of_string (ToString_int z)) -> c <> ","%char.
Proof.
  unfold ToString_int, NilZero.string_of_int.
  destruct (Z.to_int z) as [d|d].
  - unfold NilZero.string_of_uint. destruct d;
      try apply uint_no_comma.
    cbn. intros [<- | []]. discriminate.
  - cbn [list_ascii_of_string]. intros [<- | H]; [discriminate|].
    revert H. unfold NilZero.string_of_uint. destruct d;
      try apply uint_no_comma.
    cbn. intros [<- | []]. discriminate.
Qed.

Lemma before_comma (s s' t t' : string) :
  (forall c, In c (list_ascii_of_string s) -> c <> ","%char) ->
  (forall c, In c (list_ascii_of_string s') -> c <> ","%char) ->
  (s ++ String "," t = s' ++ String "," t')%string ->
  s = s' /\ t = t'.
Proof.
  revert s'. induction s as [|a s IH]; intros [|a' s'] Hs Hs' E; cbn in E.
  - injection E as ->. now split.
  - injection E as E _. exfalso. apply (Hs' a'); [now left|now symmetry].
  - injection E as E _. exfalso. now apply (Hs a); [left|].
  - injection E as -> E.
    destruct (IH s') as [-> ->]; try assumption; [| |now split].
    + intros c Hc. apply Hs. now right.
    + intros c Hc. apply Hs'. now right.
Qed.

Lemma components (v v' : Z) (rest rest' : list (option Z)) :
  pixelValuesToColorFn (Some (Some v :: rest))
  = pixelValuesToColorFn (Some (Some v' :: rest')) ->
  red v = red v' /\ green v = green v' /\ blue v = blue v'.
Proof.
  cbn [pixelValuesToColorFn]. intros E. injection E as E.
  cbn [String.append] in E.
  apply before_comma in E; try apply ToString_int_no_comma.
  destruct E as [Er E].
  apply before_comma in E; try apply ToString_int_no_comma.
  destruct E as [Eg E].
  apply before_comma in E; try apply ToString_int_no_comma.
  destruct E as [Eb _].
  repeat split; now apply ToString_int_inj.
Qed.

(** X9: the layer gives different colours to different codes from 0 to
    254, and each component then lies between 0 and 254: the codes of the
    raster can be told apart on the map. *)
Theorem colours_tell_codes_apart (v v' : Z) (rest rest' : list (option Z)) :
  0 <= v < 255 -> 0 <= v' < 255 -> v <> v' ->
  (0 <= red v <= 254 /\ 0 <= green v <= 254 /\ 0 <= blue v <= 254)
  /\ pixelValuesToColorFn (Some (Some v :: rest))
     <> pixelValuesToColorFn (Some (Some v' :: rest')).
Proof.
  intros Hv Hv' Hne. split.
  - unfold red, green, blue, js_rem.
    rewrite !Z.rem_mod_nonneg by lia.
    repeat split; try (apply Z.mod_pos_bound; lia);
      match goal with
      | |- ?a mod 255 <= 254 =>
          pose proof (Z.mod_pos_bound a 255 ltac:(lia)); lia
      end.
  - intros E. apply components in E as [Er _].
    unfold red, js_rem in Er.
    rewrite !Z.rem_mod_nonneg in Er by lia.
    assert (D : (255 | (v - v') * 53)).
    { exists ((v * 53) / 255 - (v' * 53) / 255).
      pose proof (Z.div_mod (v * 53) 255 ltac:(lia)).
      pose proof (Z.div_mod (v' * 53) 255 ltac:(lia)). lia. }
    rewrite Z.mul_comm in D. apply Z.gauss in D; [|reflexivity].
    destruct D as [k Hk]. lia.
Qed.

(** The codes 3 and 4, and the codes 0 and 254. *)
Lemma colours_tell_codes_apart_witness :
  ((0 <= red 3 <= 254 /\ 0 <= green 3 <= 254 /\ 0 <= blue 3 <= 254)
   /\ pixelValuesToColorFn (Some [Some 3])
      <> pixelValuesToColorFn (Some [Some 4; None]))
  /\ ((0 <= red 0 <= 254 /\ 0 <= green 0 <= 254 /\ 0 <= blue 0 <= 254)
      /\ pixelValuesToColorFn (Some [Some 0])
         <> pixelValuesToColorFn (Some [Some 254])).
Proof.
  split.
  - apply (colours_tell_codes_apart 3 4 [] [None]); lia.
  - apply (colours_tell_codes_apart 0 254 [] []); lia.
Defined.

(** X10: the colouring has period 255 on the non-negative codes, so the
    codes [v] and [v + 255] share a colour; and a cell without a value
    ([values] missing or empty, or a first band that is [null]) is the
    only one that gets no colour.  The bound on [v] keeps the products
    exact. *)
Theorem colours_repeat (v : Z) (values : option (list (option Z))) :
  0 <= v <= 2 ^ 40 ->
  (forall rest rest',
     pixelValuesToColorFn (Some (Some (v + 255) :: rest))
     = pixelValuesToColorFn (Some (Some v :: rest')))
  /\ (pixelValuesToColorFn values = None <->
      values = None \/ values = Some []
      \/ exists rest, values = Some (None :: rest)).
Proof.
  intros Hv. split.
  - intros rest rest'. cbn [pixelValuesToColorFn].
    unfold red, green, blue, js_rem.
    rewrite !Z.rem_mod_nonneg by lia.
    replace ((v + 255) * 53) with (v * 53 + 53 * 255) by lia.
    replace ((v + 255) * 97) with (v * 97 + 97 * 255) by lia.
    replace ((v + 255) * 193) with (v * 193 + 193 * 255) by lia.
    now rewrite !Z.mod_add by lia.
  - destruct values as [[|[x|] vs]|]; cbn [pixelValuesToColorFn]; split;
      try discriminate; try tauto.
    + intros [H|[H|[r H]]]; discriminate.
    + intros _. right. right. now exists vs.
Qed.

Lemma colours_repeat_witness :
  (forall rest rest',
     pixelValuesToColorFn (Some (Some (4 + 255) :: rest))
     = pixelValuesToColorFn (Some (Some 4 :: rest')))
  /\ (pixelValuesToColorFn (Some []) = None <->
      @Some (list (option Z)) [] = None
      \/ @Some (list (option Z)) [] = Some []
      \/ exists rest, @Some (list (option Z)) [] = Some (None :: rest)).
Proof. apply (colours_repeat 4 (Some [])). lia. Defined.

Example colour_values :
  pixelValuesToColorFn (Some [Some 1]) = Some "rgba(53,97,193,0.6)"
  /\ pixelValuesToColorFn (Some [Some 5; None]) = Some "rgba(10,230,200,0.6)"
  /\ pixelValuesToColorFn (Some [Some 0]) = Some "rgba(0,0,0,0.6)"
  /\ pixelValuesToColorFn (Some [None; Some 1]) = None.
Proof. repeat split. Qed.

End RasterColorProps.

(* ================================================================== *)
(** * Properties of the forecast panels *)
(* ================================================================== *)

Module PanelsProps.
Import JS Forecast Spec Examples JSProps ChainProps Panels SpecPanels
  ExamplesPanels.

Lemma findIndex_from_spec {A : Type} (p : A -> bool) (d : A) (a : list A)
    (i : Z) :
  (findIndex_from i p a = -1 /\ (forall x, In x a -> p x = false))
  \/ (exists j, (j < List.length a)%nat
        /\ findIndex_from i p a = i + Z.of_nat j
        /\ p (nth j a d) = true
        /\ forall j', (j' < j)%nat -> p (nth j' a d) = false).
Proof.
  revert i. induction a as [|x a IH]; intros i; cbn [findIndex_from].
  - left. split; [reflexivity|]. intros x [].
  - destruct (p x) eqn:Px.
    + right. exists 0%nat. cbn. repeat split; try lia; assumption.
    + destruct (IH (i + 1)) as [[E H]|(j & Hj & E & Pj & Hb)].
      * left. split; [exact E|]. intros y [<- | Hy]; auto.
      * right. exists (S j). cbn [nth List.length].
        split; [lia|]. split; [lia|]. split; [exact Pj|].
        intros [|j'] Hlt; cbn; [exact Px|]. apply Hb. lia.
Qed.

Lemma flat_map_pick_at (h0 : hour) (hours : list hour) (f m s c : nat) :
  (forall k, (k < m)%nat <-> (f + 3 * k < List.length hours)%nat) ->
  flat_map (pick_at hours (Z.of_nat f)) (map Z.of_nat (seq s c))
  = map (fun k => nth (f + 3 * k) hours h0) (seq s (Nat.min c (m - s))).
Proof.
  intros Hm. revert s. induction c as [|c IH]; intros s; [reflexivity|].
  cbn [seq map flat_map]. rewrite IH. unfold pick_at at 1. cbv zeta.
  destruct (Z.ltb_spec (Z.of_nat f + Z.of_nat s * 3)
              (Z.of_nat (List.length hours))) as [Hlt|Hge].
  - assert (Hs : (s < m)%nat) by (apply Hm; lia).
    replace (Z.to_nat (Z.of_nat f + Z.of_nat s * 3)) with (f + 3 * s)%nat
      by lia.
    rewrite (nth_error_nth' hours h0) by lia.
    replace (Nat.min (S c) (m - s)) with (S (Nat.min c (m - S s))) by lia.
    reflexivity.
  - assert (Hs : ~ (s < m)%nat) by (rewrite Hm; lia).
    replace (Nat.min c (m - S s)) with 0%nat by lia.
    replace (Nat.min (S c) (m - s)) with 0%nat by lia.
    reflexivity.
Qed.

Lemma loop_picks_every_third (h0 : hour) (hours : list hour) (first : Z) :
  0 <= first ->
  loop_picks hours first
  = every_third h0 hours (Z.to_nat first)
      (Z.to_nat (Z.min 8 ((Z.of_nat (List.length hours) - first + 2) / 3))).
Proof.
  intros Hf. unfold loop_picks, every_third.
  rewrite <- (Z2Nat.id first) at 1 by exact Hf.
  rewrite (flat_map_pick_at h0 hours (Z.to_nat first)
             (Z.to_nat ((Z.of_nat (List.length hours) - first + 2) / 3))).
  - f_equal. f_equal. lia.
  - intros k.
    pose proof (Z.div_mod (Z.of_nat (List.length hours) - first + 2) 3
                  ltac:(lia)) as E.
    pose proof (Z.mod_pos_bound (Z.of_nat (List.length hours) - first + 2) 3
                  ltac:(lia)) as B.
    lia.
Qed.

Section Picks.
Variable LocalTZA : Z -> Z.

Lemma first_index_spec (h0 : hour) (hours : list hour) :
  hours <> [] ->
  0 <= first_index LocalTZA hours < Z.of_nat (List.length hours)
  /\ ((on_third_hour LocalTZA (nth (Z.to_nat (first_index LocalTZA hours))
                                  hours h0) = true
       /\ forall i, (i < Z.to_nat (first_index LocalTZA hours))%nat ->
                    on_third_hour LocalTZA (nth i hours h0) = false)
      \/ (first_index LocalTZA hours = 0
          /\ forall h, In h hours -> on_third_hour LocalTZA h = false)).
Proof.
  intros Hne. unfold first_index, findIndex. cbv zeta.
  assert (Hlen : 0 < Z.of_nat (List.length hours)).
  { destruct hours; [congruence|cbn; lia]. }
  destruct (findIndex_from_spec (on_third_hour LocalTZA) h0 hours 0)
    as [[-> H]|(j & Hj & -> & Pj & Hb)].
  - cbn. split; [lia|]. right. now split.
  - replace (0 <=? 0 + Z.of_nat j) with true by (symmetry; apply Z.leb_le; lia).
    split; [lia|]. left.
    replace (Z.to_nat (0 + Z.of_nat j)) with j by lia. now split.
Qed.

Lemma picks_of_loop (h0 : hour) (rest : list hour) :
  let hours := h0 :: rest in
  let first := first_index LocalTZA hours in
  let m := Z.min 8 ((Z.of_nat (List.length hours) - first + 2) / 3) in
  0 <= first < Z.of_nat (List.length hours)
  /\ 1 <= m
  /\ picks_of LocalTZA h0 hours
     = every_third h0 hours (Z.to_nat first) (Z.to_nat m).
Proof.
  intros hours first m.
  destruct (first_index_spec h0 hours ltac:(discriminate)) as [Hf _].
  fold first in Hf.
  assert (Hm : 1 <= m).
  { unfold m. apply Z.min_glb; [lia|].
    revert Hf. generalize (Z.of_nat (List.length hours)). intros n Hf.
    Z.div_mod_to_equations. lia. }
  split; [exact Hf|]. split; [exact Hm|].
  unfold picks_of. cbv zeta. fold first.
  rewrite (loop_picks_every_third h0) by lia. fold m.
  unfold every_third. rewrite length_map, length_seq.
  destruct (Z.to_nat m) eqn:E; [lia|reflexivity].
Qed.

(** X11: the hourly panel takes every third of the hours it is given,
    starting at the first one whose local hour is a multiple of three (at
    the first hour when there is none), and stops after eight or at the
    end of the list.  There is always at least one, so the statement that
    adds [hours[0]] to an empty selection never runs. *)
Theorem picks_every_third (h0 : hour) (rest : list hour) :
  let hours := h0 :: rest in
  let first := first_index LocalTZA hours in
  let m := Z.min 8 ((Z.of_nat (List.length hours) - first + 2) / 3) in
  0 <= first < Z.of_nat (List.length hours)
  /\ 1 <= m
  /\ picks_of LocalTZA h0 hours = loop_picks hours first
  /\ picks_of LocalTZA h0 hours
     = every_third h0 hours (Z.to_nat first) (Z.to_nat m)
  /\ ((on_third_hour LocalTZA (nth (Z.to_nat first) hours h0) = true
       /\ forall i, (i < Z.to_nat first)%nat ->
                    on_third_hour LocalTZA (nth i hours h0) = false)
      \/ (first = 0
          /\ forall h, In h hours -> on_third_hour LocalTZA h = false)).
Proof.
  intros hours first m.
  destruct (picks_of_loop h0 rest) as (Hf & Hm & Hpicks).
  fold hours first m in Hf, Hm, Hpicks.
  destruct (first_index_spec h0 hours ltac:(discriminate)) as [_ Hfirst].
  fold first in Hfirst.
  split; [exact Hf|]. split; [exact Hm|]. split; [|split].
  - rewrite Hpicks. symmetry. apply loop_picks_every_third. lia.
  - exact Hpicks.
  - exact Hfirst.
Qed.

End Picks.

Lemma forecast_days_bounds world lat lon count days :
  snd (run world (getForecast10Days lat lon count)) = inr days ->
  days <> [] /\ Z.of_nat (List.length days) <= clamp count.
Proof.
  rewrite run_getForecast10Days.
  destruct (tier_daily (world (url30 lat lon)) count) as [d1|] eqn:E1.
  { cbn. intros [= <-]. now apply tier_daily_some in E1. }
  destruct (tier_daily (world (url25 lat lon)) count) as [d2|] eqn:E2.
  { cbn. intros [= <-]. now apply tier_daily_some in E2. }
  cbn.
  destruct (tier_3h (world (url3h lat lon)) count) as [e|[d3|]] eqn:E3;
    try discriminate.
  intros [= <-]. now apply tier_3h_some in E3.
Qed.

(** X12: a call of [getForecast10Days] that returns, returns at least one
    day, from whichever source; with a count of 1 or less, as in
    [updateInfo], it returns exactly one. *)
Theorem forecast_never_empty world lat lon count days :
  snd (run world (getForecast10Days lat lon count)) = inr days ->
  (1 <= List.length days)%nat
  /\ (count <= 1 -> exists d, days = [d]).
Proof.
  intros H. apply forecast_days_bounds in H as [Hne Hle].
  destruct days as [|d days]; [congruence|]. split; [cbn; lia|].
  intros Hc. exists d. unfold clamp in Hle.
  destruct days; [reflexivity|cbn in Hle; lia].
Qed.

Lemma forecast_never_empty_witness :
  (1 <= List.length [api_day 0])%nat
  /\ (1 <= 1 -> exists d, [api_day 0] = [d]).
Proof.
  apply (forecast_never_empty
           (world_of (with_daily twelve_days) offline offline)
           0%float 0%float 1).
  reflexivity.
Defined.

Section Render.
Variable LocalTZA : Z -> Z.
Variable future_card : daily -> string.
Variable hour_card : hour -> string.

Lemma run_renderHourly world pg lat lon :
  hourlyWeather pg <> None -> hourlyList pg <> None ->
  run world (renderHourly LocalTZA hour_card pg lat lon)
  = (fst (run world (getHourly24 lat lon)),
     inr (set_hourlyList (set_hourlyWeather pg false)
            match snd (run world (getHourly24 lat lon)) with
            | inl _ => failed_hourly_text
            | inr [] => "No hourly data available."
            | inr ((h0 :: _) as hours) =>
                join (map hour_card (picks_of LocalTZA h0 hours))
            end)).
Proof.
  intros Hs Hl. unfold renderHourly.
  destruct (hourlyWeather pg) as [s|] eqn:Es; [|congruence].
  destruct (hourlyList pg) as [l|] eqn:El; [|congruence].
  cbv zeta. rewrite run_bind, run_try_catch, run_bind.
  destruct (run world (getHourly24 lat lon)) as [t [e|[|h0 hours]]];
    cbn; now rewrite ?app_nil_r.
Qed.

Lemma run_renderFutureWeather world pg lat lon :
  futureWeather pg <> None -> futureWeatherList pg <> None ->
  run world (renderFutureWeather future_card pg lat lon)
  = (fst (run world (getForecast10Days lat lon 6)),
     inr (set_futureWeather
            (set_futureWeatherList pg
               match snd (run world (getForecast10Days lat lon 6)) with
               | inl _ => failed_forecast_text
               | inr days => join (map future_card days)
               end) false)).
Proof.
  intros Hs Hl. unfold renderFutureWeather.
  destruct (futureWeather pg) as [s|] eqn:Es; [|congruence].
  destruct (futureWeatherList pg) as [l|] eqn:El; [|congruence].
  cbv zeta. rewrite run_try_catch, run_bind.
  destruct (run world (getForecast10Days lat lon 6)) as [t [e|days]];
    cbn; now rewrite ?app_nil_r.
Qed.

Lemma every_third_incl {A : Type} (d : A) (a : list A) (first m : nat) :
  (first + 3 * (m - 1) < List.length a)%nat ->
  incl (every_third d a first m) a.
Proof.
  intros H x Hx. unfold every_third in Hx.
  apply in_map_iff in Hx as (k & <- & Hk). apply in_seq in Hk.
  apply nth_In. lia.
Qed.

Lemma picks_of_bounds (h0 : hour) (rest : list hour) :
  (1 <= List.length (picks_of LocalTZA h0 (h0 :: rest)) <= 8)%nat
  /\ (3 * List.length (picks_of LocalTZA h0 (h0 :: rest))
      <= List.length (h0 :: rest) + 2)%nat
  /\ incl (picks_of LocalTZA h0 (h0 :: rest)) (h0 :: rest).
Proof.
  destruct (picks_of_loop LocalTZA h0 rest) as (Hf & Hm & ->).
  cbv zeta in Hf, Hm.
  set (n := List.length (h0 :: rest)) in *.
  set (first := first_index LocalTZA (h0 :: rest)) in *.
  pose proof (Z.div_mod (Z.of_nat n - first + 2) 3 ltac:(lia)) as E.
  pose proof (Z.mod_pos_bound (Z.of_nat n - first + 2) 3 ltac:(lia)) as B.
  split; [|split].
  - unfold every_third. rewrite length_map, length_seq. lia.
  - unfold every_third. rewrite length_map, length_seq. lia.
  - apply every_third_incl. fold n. lia.
Qed.

(** X13: [renderHourly] does not throw, makes the requests of
    [getHourly24] and no other, and leaves the panel shown with one of
    three contents: the text of the failure when [getHourly24] throws, the
    text of the empty case when it returns no hour, and otherwise between
    one and eight cards, each for one of the hours returned. *)
Theorem hourly_panel world pg lat lon :
  hourlyWeather pg <> None -> hourlyList pg <> None ->
  exists content,
    run world (renderHourly LocalTZA hour_card pg lat lon)
    = (fst (run world (getHourly24 lat lon)),
       inr (set_hourlyList (set_hourlyWeather pg false) content))
    /\ match snd (run world (getHourly24 lat lon)) with
       | inl _ => content = failed_hourly_text
       | inr hours =>
           (hours = [] /\ content = "No hourly data available.")
           \/ exists picks,
                content = join (map hour_card picks)
                /\ (1 <= List.length picks <= 8)%nat
                /\ incl picks hours
       end.
Proof.
  intros Hs Hl. rewrite run_renderHourly by assumption.
  eexists. split; [reflexivity|].
  destruct (snd (run world (getHourly24 lat lon))) as [e|[|h0 rest]].
  - reflexivity.
  - left. now split.
  - right. exists (picks_of LocalTZA h0 (h0 :: rest)).
    destruct (picks_of_bounds h0 rest) as (Hlen & _ & Hincl).
    now repeat split.
Qed.

(** X14: when neither One Call source has hourly data and the 3-hour
    forecast answers with samples, the hourly panel shows at most three
    cards: the selection keeps its stride of three over the first nine
    samples, which are three hours apart already. *)
Theorem hourly_panel_on_fallback world pg lat lon d l :
  hourlyWeather pg <> None -> hourlyList pg <> None ->
  no_hourly (world (hourly_url30 lat lon)) ->
  no_hourly (world (hourly_url25 lat lon)) ->
  responds (world (url3h lat lon)) d ->
  body_list d = Some l -> l <> [] ->
  exists h0 rest,
    map hour_of_sample (firstn 9 l) = h0 :: rest
    /\ run world (renderHourly LocalTZA hour_card pg lat lon)
       = ([hourly_url30 lat lon; hourly_url25 lat lon; url3h lat lon],
          inr (set_hourlyList (set_hourlyWeather pg false)
                 (join (map hour_card (picks_of LocalTZA h0 (h0 :: rest))))))
    /\ (1 <= List.length (picks_of LocalTZA h0 (h0 :: rest)) <= 3)%nat.
Proof.
  intros Hs Hl H30 H25 H3h Hlist Hne.
  rewrite run_renderHourly by assumption.
  rewrite run_getHourly24.
  rewrite (tier_hourly_no_hourly _ H30), (tier_hourly_no_hourly _ H25).
  rewrite (tier_3h_hourly_responds _ _ H3h), Hlist.
  cbn [fst snd array_or_empty].
  destruct l as [|x l]; [congruence|].
  set (hours := map hour_of_sample (firstn 9 (x :: l))).
  assert (Hlen : (List.length hours <= 9)%nat).
  { unfold hours. rewrite length_map, length_firstn. lia. }
  change hours with (hour_of_sample x :: map hour_of_sample (firstn 8 l))
    in *.
  eexists _, _. split; [reflexivity|]. split; [reflexivity|].
  destruct (picks_of_bounds (hour_of_sample x)
              (map hour_of_sample (firstn 8 l))) as (H1 & H3 & _).
  lia.
Qed.

(** X15: [renderFutureWeather] does not throw, makes the requests of
    [getForecast10Days] with a count of 6 and no other, and leaves the
    panel shown, with the text of the failure when that call throws and
    with between one and six cards otherwise. *)
Theorem future_panel world pg lat lon :
  futureWeather pg <> None -> futureWeatherList pg <> None ->
  exists content,
    run world (renderFutureWeather future_card pg lat lon)
    = (fst (run world (getForecast10Days lat lon 6)),
       inr (set_futureWeather (set_futureWeatherList pg content) false))
    /\ match snd (run world (getForecast10Days lat lon 6)) with
       | inl _ => content = failed_forecast_text
       | inr days =>
           content = join (map future_card days)
           /\ (1 <= List.length days <= 6)%nat
       end.
Proof.
  intros Hs Hl. rewrite run_renderFutureWeather by assumption.
  eexists. split; [reflexivity|].
  destruct (snd (run world (getForecast10Days lat lon 6))) as [e|days] eqn:E;
    [reflexivity|].
  split; [reflexivity|].
  apply forecast_days_bounds in E as [Hne Hle].
  change (clamp 6) with 6 in Hle.
  destruct days; [congruence|cbn in *; lia].
Qed.

(** X16: a panel whose section or list is missing from the page is left
    alone, without a request; and [hideAllPanels] followed by one call of
    either panel function, with no other handler running before the call
    ends, leaves at most one of the two sections shown and the other
    panel's list as it was.  (The call is run here from its start to its
    end on its own.  In the page the functions wait for their requests:
    [renderHourly] shows its section before it waits and
    [renderFutureWeather] after, so a click on the other button during
    the wait can leave both sections shown.) *)
Theorem panels_exclusive world pg lat lon :
  (hourlyWeather pg = None \/ hourlyList pg = None ->
   run world (renderHourly LocalTZA hour_card pg lat lon) = ([], inr pg))
  /\ (futureWeather pg = None \/ futureWeatherList pg = None ->
      run world (renderFutureWeather future_card pg lat lon) = ([], inr pg))
  /\ (exists pg',
        snd (run world (renderHourly LocalTZA hour_card
                          (hideAllPanels pg) lat lon)) = inr pg'
        /\ ~ (shown (futureWeather pg') /\ shown (hourlyWeather pg'))
        /\ futureWeatherList pg' = futureWeatherList pg)
  /\ (exists pg',
        snd (run world (renderFutureWeather future_card
                          (hideAllPanels pg) lat lon)) = inr pg'
        /\ ~ (shown (futureWeather pg') /\ shown (hourlyWeather pg'))
        /\ hourlyList pg' = hourlyList pg).
Proof.
  unfold shown. split; [|split; [|split]].
  - unfold renderHourly. intros [-> | ->]; [reflexivity|].
    now destruct (hourlyWeather pg).
  - unfold renderFutureWeather. intros [-> | ->]; [reflexivity|].
    now destruct (futureWeather pg).
  - destruct (hourlyWeather pg) as [s|] eqn:Es;
      [destruct (hourlyList pg) as [l|] eqn:El|].
    + rewrite run_renderHourly by (cbn; rewrite ?Es, ?El; discriminate).
      eexists. split; [reflexivity|]. cbn. split; [|reflexivity].
      intros [H _]. destruct (futureWeather pg); discriminate.
    + exists (hideAllPanels pg). unfold renderHourly. cbn.
      rewrite Es, El. cbn. repeat split. now intros [_ H].
    + exists (hideAllPanels pg). unfold renderHourly. cbn.
      rewrite Es. cbn. repeat split. now intros [_ H].
  - destruct (futureWeather pg) as [s|] eqn:Es;
      [destruct (futureWeatherList pg) as [l|] eqn:El|].
    + rewrite run_renderFutureWeather
        by (cbn; rewrite ?Es, ?El; discriminate).
      eexists. split; [reflexivity|]. cbn. split; [|reflexivity].
      intros [_ H]. destruct (hourlyWeather pg); discriminate.
    + exists (hideAllPanels pg). unfold renderFutureWeather. cbn.
      rewrite Es, El. cbn. repeat split. now intros [H _].
    + exists (hideAllPanels pg). unfold renderFutureWeather. cbn.
      rewrite Es. cbn. repeat split. now intros [H _].
Qed.

End Render.

Lemma hourly_panel_witness :
  exists content,
    run world_3h_only (renderHourly utc_plus_7 icon_card blank_page
                         0%float 0%float)
    = (fst (run world_3h_only (getHourly24 0%float 0%float)),
       inr (set_hourlyList (set_hourlyWeather blank_page false) content))
    /\ match snd (run world_3h_only (getHourly24 0%float 0%float)) with
       | inl _ => content = failed_hourly_text
       | inr hours =>
           (hours = [] /\ content = "No hourly data available.")
           \/ exists picks,
                content = join (map icon_card picks)
                /\ (1 <= List.length picks <= 8)%nat
                /\ incl picks hours
       end.
Proof.
  apply (hourly_panel utc_plus_7 icon_card world_3h_only blank_page);
    discriminate.
Defined.

Lemma hourly_panel_on_fallback_witness :
  exists h0 rest,
    map hour_of_sample (firstn 9 sixteen_samples) = h0 :: rest
    /\ run world_3h_only
         (renderHourly utc_plus_7 icon_card
            blank_page
            0%float 0%float)
       = ([hourly_url30 0%float 0%float; hourly_url25 0%float 0%float;
           url3h 0%float 0%float],
          inr (set_hourlyList
                 (set_hourlyWeather
                    blank_page
                    false)
                 (join (map icon_card (picks_of utc_plus_7 h0 (h0 :: rest))))))
    /\ (1 <= List.length (picks_of utc_plus_7 h0 (h0 :: rest)) <= 3)%nat.
Proof.
  apply (hourly_panel_on_fallback utc_plus_7 icon_card world_3h_only _
           0%float 0%float
           scenario_body sixteen_samples).
  - discriminate.
  - discriminate.
  - left. left. reflexivity.
  - left. left. reflexivity.
  - eexists. repeat split; reflexivity.
  - reflexivity.
  - discriminate.
Defined.


Lemma future_panel_witness :
  exists content,
    run world_3h_only (renderFutureWeather day_card blank_page
                         0%float 0%float)
    = (fst (run world_3h_only (getForecast10Days 0%float 0%float 6)),
       inr (set_futureWeather (set_futureWeatherList blank_page content)
              false))
    /\ match snd (run world_3h_only (getForecast10Days 0%float 0%float 6))
       with
       | inl _ => content = failed_forecast_text
       | inr days =>
           content = join (map day_card days)
           /\ (1 <= List.length days <= 6)%nat
       end.
Proof.
  apply (future_panel day_card world_3h_only blank_page); discriminate.
Defined.

(** On the sixteen samples, seen seven hours east of Greenwich, no sample
    falls on a local hour that is a multiple of three: the panel shows the
    samples 0, 3 and 6, nine hours apart. *)
Example fallback_cards :
  snd (run world_3h_only
         (renderHourly utc_plus_7 hour_stamp blank_page 0%float 0%float))
  = inr (set_hourlyList (set_hourlyWeather blank_page false)
           "1700006400 1700038800 1700071200 ")
  /\ snd (run world_unauthorized
            (renderHourly utc_plus_7 hour_stamp blank_page 0%float 0%float))
     = inr (set_hourlyList (set_hourlyWeather blank_page false)
              failed_hourly_text)
  /\ snd (run world_no_samples
            (renderHourly utc_plus_7 hour_stamp blank_page 0%float 0%float))
     = inr (set_hourlyList (set_hourlyWeather blank_page false)
              "No hourly data available.").
Proof. repeat split. Qed.


End PanelsProps.

(* ================================================================== *)
(** * Properties of the background class *)
(* ================================================================== *)

Module BackgroundProps.
Import JS Background SpecPanels.

Lemma class_of_is_weather (desc : string) :
  is_weather_class (class_of desc) = true.
Proof.
  unfold class_of.
  destruct (includes desc "rain"); [reflexivity|].
  destruct (includes desc "cloud"); [reflexivity|].
  destruct (includes desc "clear"); [reflexivity|].
  destruct (includes desc "snow"); [reflexivity|].
  now destruct (includes desc "mist" || includes desc "fog").
Qed.

Lemma mem_In (c : string) (l : list string) : mem c l = true <-> In c l.
Proof.
  unfold mem. rewrite existsb_exists. split.
  - intros (x & Hx & E). apply String.eqb_eq in E. now subst.
  - intros H. exists c. split; [exact H|apply String.eqb_refl].
Qed.

Lemma removed_has_no_weather (cl : list string) (c : string) :
  is_weather_class c = true ->
  mem c (classList_remove cl weather_classes) = false.
Proof.
  intros Hc. destruct (mem c (classList_remove cl weather_classes)) eqn:E;
    [|reflexivity].
  apply mem_In in E. unfold classList_remove in E.
  apply filter_In in E as [_ E]. unfold is_weather_class in Hc.
  now rewrite Hc in E.
Qed.

Lemma toLowerCase_idem (s : string) :
  toLowerCase (toLowerCase s) = toLowerCase s.
Proof.
  induction s as [|c s IH]; [reflexivity|]. cbn [toLowerCase].
  rewrite IH. f_equal. unfold lower. cbv zeta.
  destruct ((65 <=? nat_of_ascii c) && (nat_of_ascii c <=? 90))%nat eqn:E;
    [|now rewrite E].
  apply andb_prop in E as [E1 E2].
  apply Nat.leb_le in E1, E2.
  rewrite nat_ascii_embedding by lia.
  replace (nat_of_ascii c + 32 <=? 90)%nat with false
    by (symmetry; apply Nat.leb_gt; lia).
  now rewrite andb_false_r.
Qed.

Lemma updateBackground_result (cl : list string)
    (descriptions : option (list string)) :
  exists c,
    is_weather_class c = true
    /\ updateBackground (Some cl) descriptions
       = Some (filter (fun x => negb (is_weather_class x)) cl ++ [c]).
Proof.
  unfold updateBackground. cbv zeta.
  set (desc := match descriptions with
               | Some (d :: _) => toLowerCase d
               | _ => EmptyString
               end).
  exists (class_of desc).
  pose proof (class_of_is_weather desc) as Hc.
  split; [exact Hc|].
  unfold classList_add. now rewrite removed_has_no_weather.
Qed.

(** X17: after [updateBackground] the element carries exactly one of the
    six weather classes, as its last class, and its other classes are the
    ones it had, in their order. *)
Theorem background_one_weather_class (cl : list string)
    (descriptions : option (list string)) :
  exists c,
    is_weather_class c = true
    /\ updateBackground (Some cl) descriptions
       = Some (filter (fun x => negb (is_weather_class x)) cl ++ [c])
    /\ filter is_weather_class
         (filter (fun x => negb (is_weather_class x)) cl ++ [c]) = [c].
Proof.
  destruct (updateBackground_result cl descriptions) as (c & Hc & E).
  exists c. split; [exact Hc|]. split; [exact E|].
  rewrite filter_app. cbn [filter]. rewrite Hc.
  replace (filter is_weather_class
             (filter (fun x => negb (is_weather_class x)) cl))
    with (@nil string); [reflexivity|].
  clear E. symmetry. induction cl as [|x cl IH]; [reflexivity|].
  cbn [filter]. destruct (is_weather_class x) eqn:Ex; cbn [negb filter];
    [exact IH|now rewrite Ex].
Qed.

(** X18: the class that [updateBackground] leaves depends on its last call
    only: the weather class of an earlier call leaves no trace.  And
    descriptions that the caller has put in lower case already, as
    [updateInfo] does, give the same class. *)
Theorem background_last_call_wins (info : option (list string))
    (earlier descriptions : option (list string)) (ds : list string) :
  updateBackground (updateBackground info earlier) descriptions
  = updateBackground info descriptions
  /\ updateBackground info (Some (map toLowerCase ds))
     = updateBackground info (Some ds).
Proof.
  split.
  - destruct info as [cl|]; [|reflexivity].
    destruct (updateBackground_result cl earlier) as (c & Hc & ->).
    unfold updateBackground. cbv zeta. do 2 f_equal.
    unfold classList_remove. rewrite filter_app. cbn [filter].
    fold (is_weather_class c). rewrite Hc. cbn [negb].
    rewrite app_nil_r.
    induction cl as [|x cl IH]; [reflexivity|]. cbn [filter].
    fold (is_weather_class x).
    destruct (is_weather_class x) eqn:E; cbn [negb filter];
      [exact IH|].
    fold (is_weather_class x). rewrite E. cbn [negb]. now rewrite IH.
  - destruct info as [cl|]; [|reflexivity].
    destruct ds as [|d ds]; [reflexivity|].
    unfold updateBackground. cbn [map]. now rewrite toLowerCase_idem.
Qed.

(** Descriptions of OpenWeather and the classes they get: the first
    description decides, in any case of letters; a description that names
    none of the six words gets [weather-sunny]. *)
Example background_values :
  updateBackground (Some ["panel"; "weather-snow"])
    (Some ["Light Rain"; "overcast clouds"])
  = Some ["panel"; "weather-rain"]
  /\ updateBackground (Some ["weather-sunny"; "panel"])
       (Some ["overcast clouds"])
     = Some ["panel"; "weather-cloud"]
  /\ updateBackground (Some []) (Some ["thunderstorm"])
     = Some ["weather-sunny"]
  /\ updateBackground (Some []) (Some ["fog"]) = Some ["weather-mist"]
  /\ updateBackground (Some []) (Some []) = Some ["weather-sunny"]
  /\ updateBackground (Some []) None = Some ["weather-sunny"]
  /\ updateBackground None (Some ["clear sky"]) = None.
Proof. repeat split. Qed.

End BackgroundProps.

(* ================================================================== *)
(** * More on [getClimate] and on the hours of [getHourly24] *)
(* ================================================================== *)

Module ClimateMore.
Import JS Climate Spec ClimateProps.

Lemma label_not_unknown (v : Z) : label v <> "Unknown".
Proof.
  unfold label. destruct ((0 <=? v) && (v <=? 5)) eqn:R.
  - apply andb_prop in R as [R1 R2]. apply Z.leb_le in R1, R2.
    assert (C : v = 0 \/ v = 1 \/ v = 2 \/ v = 3 \/ v = 4 \/ v = 5) by lia.
    destruct C as [->|[->|[->|[->|[->| ->]]]]]; discriminate.
  - discriminate.
Qed.

(** X19: in what [getClimate] returns, the type is "Unknown" exactly when
    the code is [null]; a cell that was read never shows as unknown, and
    a missing raster, a point off the grid or a failed read never shows a
    class. *)
Theorem unknown_iff_no_code (lat lon : float) (g : option georaster) :
  exists c,
    getClimate lat lon g = inr c
    /\ (climateType c = "Unknown" <-> climateCode c = Null).
Proof.
  unfold getClimate. cbv zeta.
  destruct g as [g|]; [|exists unknown; now split].
  unfold getClimate_try. cbv zeta.
  destruct (in_grid g (yPixel g lat) (xPixel g lon));
    [|exists unknown; now split].
  destruct (nth_error (values g) 0) as [band|];
    [|exists unknown; now split].
  destruct (nth_error band (to_index (yPixel g lat))) as [row|];
    [|exists unknown; now split].
  eexists. split; [reflexivity|]. cbn [climateType climateCode].
  destruct (nth_error row (to_index (xPixel g lon))) as [z|].
  - rewrite type_of_code_label. split; [|discriminate].
    intros H. now apply label_not_unknown in H.
  - split; discriminate.
Qed.

End ClimateMore.

Module HoursMore.
Import JS Forecast Spec Examples ChainProps BucketProps.

Lemma first_or_nonempty (f : weather_item -> option string)
    (w : option (list weather_item)) (dflt : string) :
  dflt <> EmptyString -> first_or f w dflt <> EmptyString.
Proof.
  intros Hd. unfold first_or, first_weather.
  destruct w as [[|w0 ws]|]; try exact Hd.
  destruct (f w0) as [s|]; [|exact Hd].
  destruct (String.eqb s "") eqn:E; [exact Hd|].
  now apply String.eqb_neq in E.
Qed.

(** X20: every hour that [getHourly24] returns has an icon that is not
    the empty string, from whichever source it comes, so the address of
    the image in a card always names an icon. *)
Theorem hourly_icons_never_empty world lat lon hours :
  snd (run world (getHourly24 lat lon)) = inr hours ->
  Forall (fun h => hour_icon h <> EmptyString) hours.
Proof.
  assert (T : forall o hs, tier_hourly o = Some hs ->
              Forall (fun h => hour_icon h <> EmptyString) hs).
  { intros o hs. destruct o as [e|[[|] [e|d]]]; cbn; try discriminate.
    destruct (slice0 24 (array_or_empty (body_hourly d))) as [|x a];
      [discriminate|].
    intros [= <-]. apply Forall_forall. intros h Hh.
    change (In h (map hour_of_hourly (x :: a))) in Hh.
    apply in_map_iff in Hh as (y & <- & _).
    now apply first_or_nonempty. }
  rewrite run_getHourly24.
  destruct (tier_hourly (world (hourly_url30 lat lon))) as [h1|] eqn:E1.
  { cbn. intros [= <-]. now apply T in E1. }
  destruct (tier_hourly (world (hourly_url25 lat lon))) as [h2|] eqn:E2.
  { cbn. intros [= <-]. now apply T in E2. }
  cbn [snd]. unfold tier_3h_hourly.
  destruct (world (url3h lat lon)) as [e|[[|] [e|d]]]; try discriminate.
  intros [= <-]. apply Forall_forall. intros h Hh.
  unfold slice0 in Hh. apply firstn_In in Hh.
  apply in_map_iff in Hh as (y & <- & _).
  now apply first_or_nonempty.
Qed.

Lemma hourly_icons_never_empty_witness :
  Forall (fun h => hour_icon h <> EmptyString)
    (map hour_of_sample (firstn 9 sixteen_samples)).
Proof.
  apply (hourly_icons_never_empty world_3h_only 0%float 0%float).
  reflexivity.
Defined.

End HoursMore.
